(** * The FHIR provider-network crawler of Step70_SlurpPayerProviderNetworks.py

    A shallow embedding of the crawler: the retrying fetcher
    [fetch_fhir_resource], the paginator [fetch_all_practitioner_roles], the
    field extractors, the per-payer pipeline [process_payer] and the loop of
    [main], followed by the properties the specification states about them.

    Conventions of the embedding.
    - A decoded JSON document is a [json] tree.  Numbers are integers; floats
      are outside the model.  Strings are Rocq strings.
    - Python operations on such a value that can raise ([x.get], iteration,
      [x[0]], [str.join], [str.startswith]) return a [result]; the exception
      classes are those of CPython for the operand types a JSON document can
      have.
    - Effects (HTTP requests, [time.sleep], the files written) are threaded
      through a [World]; the remote servers are an oracle [net] giving the
      outcome of the k-th HTTP request of the run.
    - [urljoin] and Python's [repr] of a list or a dict are library code and
      are parameters of the development.  [print] calls are not modelled,
      except the error report of [main].  Calls to the local file system are
      taken to succeed. *)

From Stdlib Require Import ZArith String Ascii List DecimalString Lia.
From stdpp Require Import base tactics option list gmap strings.

Local Open Scope Z_scope.
Local Open Scope string_scope.
Set Warnings "-register-all".

(** ** JSON values and the Python operations the crawler applies to them *)

(** The value [json.loads] returns.  A [JObj] lists the items of a dict in
    insertion order, with distinct keys. *)
Inductive json : Type :=
| JNull
| JBool (b : bool)
| JNum (n : Z)
| JStr (s : string)
| JArr (items : list json)
| JObj (members : list (string * json)).

(** The exception classes that occur.  All of them derive from [Exception]. *)
Inductive exn : Type :=
| AttributeError
| TypeError
| KeyError
| IndexError
| RequestException.

Inductive result (A : Type) : Type :=
| Ok (a : A)
| Err (e : exn).
Arguments Ok {A} a.
Arguments Err {A} e.

Definition rbind {A B} (r : result A) (k : A -> result B) : result B :=
  match r with
  | Ok a => k a
  | Err e => Err e
  end.

Notation "'let?' x ':=' r 'in' k" := (rbind r (fun x => k))
  (at level 10, x name, r at level 100, k at level 200).

(** [bool(v)]. *)
Definition truthy (v : json) : bool :=
  match v with
  | JNull => false
  | JBool b => b
  | JNum n => negb (n =? 0)%Z
  | JStr s => negb (String.eqb s "")
  | JArr items => match items with [] => false | _ :: _ => true end
  | JObj members => match members with [] => false | _ :: _ => true end
  end.

Fixpoint dict_lookup (k : string) (members : list (string * json)) : option json :=
  match members with
  | [] => None
  | (k', v) :: rest => if String.eqb k k' then Some v else dict_lookup k rest
  end.

(** [v.get(k, d)]: only a dict has the method. *)
Definition py_get (v : json) (k : string) (d : json) : result json :=
  match v with
  | JObj members => Ok (default d (dict_lookup k members))
  | _ => Err AttributeError
  end.

Definition chars (s : string) : list json :=
  map (fun c => JStr (String c EmptyString)) (list_ascii_of_string s).

(** The elements a [for] loop over [v] visits: the items of a list, the
    characters of a string, the keys of a dict; anything else is not
    iterable. *)
Definition py_iter (v : json) : result (list json) :=
  match v with
  | JArr items => Ok items
  | JStr s => Ok (chars s)
  | JObj members => Ok (map (fun kv => JStr (fst kv)) members)
  | _ => Err TypeError
  end.

(** [v == s] for a string literal [s]. *)
Definition py_eq_str (v : json) (s : string) : bool :=
  match v with
  | JStr t => String.eqb t s
  | _ => false
  end.

(** The receiver of a [str] method such as [v.startswith]: a value that is
    not a string has no such attribute. *)
Definition str_method (v : json) : result string :=
  match v with
  | JStr s => Ok s
  | _ => Err AttributeError
  end.

(** [v.startswith(p)]. *)
Definition py_startswith (v : json) (p : string) : result bool :=
  let? s := str_method v in Ok (String.prefix p s).

(** [v[0]]. *)
Definition py_index0 (v : json) : result json :=
  match v with
  | JArr (x :: _) => Ok x
  | JArr [] => Err IndexError
  | JStr (String c _) => Ok (JStr (String c EmptyString))
  | JStr EmptyString => Err IndexError
  | JObj _ => Err KeyError
  | _ => Err TypeError
  end.

Definition as_str (v : json) : result string :=
  match v with
  | JStr s => Ok s
  | _ => Err TypeError
  end.

(** [sep.join(parts)] for a Python list [parts]. *)
Fixpoint join_strs (sep : string) (parts : list json) : result string :=
  match parts with
  | [] => Ok ""
  | x :: rest =>
      let? s := as_str x in
      match rest with
      | [] => Ok s
      | _ :: _ => let? r := join_strs sep rest in Ok (s +:+ sep +:+ r)
      end
  end.

(** [sep.join(v)] for any value [v]. *)
Definition py_join (sep : string) (v : json) : result string :=
  let? parts := py_iter v in join_strs sep parts.

(** [s.split('/')[-1]]: what follows the last slash. *)
Fixpoint split_last_from (cur s : string) : string :=
  match s with
  | EmptyString => cur
  | String c r =>
      if Ascii.eqb c "/" then split_last_from "" r
      else split_last_from (cur +:+ String c EmptyString) r
  end.

Definition split_last (s : string) : string := split_last_from "" s.

(** [s.endswith('/')]. *)
Fixpoint endswith_slash (s : string) : bool :=
  match s with
  | EmptyString => false
  | String c EmptyString => Ascii.eqb c "/"
  | String _ r => endswith_slash r
  end.

(** [str(v)], as an f-string and [requests] apply it. *)
Definition py_str (py_repr : json -> string) (v : json) : string :=
  match v with
  | JStr s => s
  | JNull => "None"
  | JBool true => "True"
  | JBool false => "False"
  | JNum n => NilZero.string_of_int (Z.to_int n)
  | _ => py_repr v
  end.

(** ** Field extractors *)

Fixpoint has_npi_code (codes : list json) : result bool :=
  match codes with
  | [] => Ok false
  | code :: rest =>
      let? c := py_get code "code" JNull in
      if py_eq_str c "NPI" then Ok true else has_npi_code rest
  end.

(** Lines 126-129: whether the type of [identifier] carries a coding whose
    code is "NPI". *)
Definition identifier_is_npi (identifier : json) : result bool :=
  let? type_info := py_get identifier "type" (JObj []) in
  let? coding := py_get type_info "coding" (JArr []) in
  let? codes := py_iter coding in
  has_npi_code codes.

Fixpoint scan_identifiers (identifiers : list json) : result json :=
  match identifiers with
  | [] => Ok (JStr "0")
  | identifier :: rest =>
      let? found := identifier_is_npi identifier in
      if found then py_get identifier "value" (JStr "0")
      else scan_identifiers rest
  end.

Definition extract_npi_from_practitioner (practitioner_data : json) : result json :=
  if negb (truthy practitioner_data) then Ok (JStr "0")
  else
    let? identifiers := py_get practitioner_data "identifier" (JArr []) in
    let? ids := py_iter identifiers in
    scan_identifiers ids.

Record name_info : Type := { ni_family : json; ni_given : string }.

Definition extract_practitioner_name (practitioner_data : json) : result name_info :=
  if negb (truthy practitioner_data)
  then Ok {| ni_family := JStr ""; ni_given := "" |}
  else
    let? names := py_get practitioner_data "name" (JArr []) in
    if truthy names then
      let? name := py_index0 names in
      let? family := py_get name "family" (JStr "") in
      let? given := py_get name "given" (JArr []) in
      let? given_str := (if truthy given then py_join " " given else Ok "") in
      Ok {| ni_family := family; ni_given := given_str |}
    else Ok {| ni_family := JStr ""; ni_given := "" |}.

(** The address assembly both summaries share (lines 167-180 and 193-212):
    the line(s), city, state and postal code that are not empty, joined with
    a comma and a space. *)
Definition address_string (addr : json) : result string :=
  let? line := py_get addr "line" (JArr []) in
  let? city := py_get addr "city" (JStr "") in
  let? state := py_get addr "state" (JStr "") in
  let? postal := py_get addr "postalCode" (JStr "") in
  let? parts := (if truthy line then py_iter line else Ok []) in
  let parts := if truthy city then (parts ++ [city])%list else parts in
  let parts := if truthy state then (parts ++ [state])%list else parts in
  let parts := if truthy postal then (parts ++ [postal])%list else parts in
  join_strs ", " parts.

Record org_info : Type := { oi_name : json; oi_type : json; oi_address : string }.

Definition extract_organization_info (org_data : json) : result org_info :=
  if negb (truthy org_data)
  then Ok {| oi_name := JStr ""; oi_type := JStr ""; oi_address := "" |}
  else
    let? name := py_get org_data "name" (JStr "") in
    let? types := py_get org_data "type" (JArr []) in
    let? org_type :=
      (if truthy types then
         let? t0 := py_index0 types in
         let? coding := py_get t0 "coding" (JArr []) in
         if truthy coding then
           let? c0 := py_index0 coding in
           let? code := py_get c0 "code" (JStr "") in
           py_get c0 "display" code
         else Ok (JStr "")
       else Ok (JStr "")) in
    let? addresses := py_get org_data "address" (JArr []) in
    let? address_str :=
      (if truthy addresses then
         let? addr := py_index0 addresses in
         address_string addr
       else Ok "") in
    Ok {| oi_name := name; oi_type := org_type; oi_address := address_str |}.

Record loc_info : Type := { li_name : json; li_status : json; li_address : string }.

Definition extract_location_info (location_data : json) : result loc_info :=
  if negb (truthy location_data)
  then Ok {| li_name := JStr ""; li_status := JStr ""; li_address := "" |}
  else
    let? name := py_get location_data "name" (JStr "") in
    let? status := py_get location_data "status" (JStr "") in
    let? address := py_get location_data "address" (JObj []) in
    let? address_str := address_string address in
    Ok {| li_name := name; li_status := status; li_address := address_str |}.

(** ** Rows of the output tables

    Each row is a dict literal whose keys are the fieldnames of its table;
    the table a [csv.DictWriter] writes lists the values in that order. *)

Record org_to_pr_row : Type := {
  otp_practitioner_role_fhir_url : string;
  otp_organization_fhir_url : string;
  otp_organization_reference : string
}.

Record org_row : Type := {
  or_organization_fhir_url : string;
  or_name : json;
  or_type : json;
  or_address : string
}.

Record location_to_pr_row : Type := {
  ltp_practitioner_role_fhir_url : string;
  ltp_location_fhir_url : string;
  ltp_location_reference : string
}.

Record location_row : Type := {
  lr_location_fhir_url : string;
  lr_name : json;
  lr_status : json;
  lr_address : string
}.

Record p_to_pr_row : Type := {
  ptp_practitioner_role_fhir_url : string;
  ptp_practitioner_fhir_url : string;
  ptp_practitioner_reference : string;
  ptp_npi : json;
  ptp_is_npi_invalid : string;
  ptp_family_name : json;
  ptp_given_name : string
}.

Record spec_to_pr_row : Type := {
  stp_practitioner_role_fhir_url : string;
  stp_specialty_code : json;
  stp_specialty_display : json;
  stp_specialty_system : json
}.

Record tele_to_pr_row : Type := {
  ttp_practitioner_role_fhir_url : string;
  ttp_telecom_system : json;
  ttp_telecom_value : json;
  ttp_telecom_use : json
}.

Definition org_to_pr_fields : list string :=
  ["practitioner_role_fhir_url"; "organization_fhir_url"; "organization_reference"].
Definition org_fields : list string :=
  ["organization_fhir_url"; "name"; "type"; "address"].
Definition location_to_pr_fields : list string :=
  ["practitioner_role_fhir_url"; "location_fhir_url"; "location_reference"].
Definition location_fields : list string :=
  ["location_fhir_url"; "name"; "status"; "address"].
Definition p_to_pr_fields : list string :=
  ["practitioner_role_fhir_url"; "practitioner_fhir_url"; "practitioner_reference";
   "npi"; "is_npi_invalid"; "family_name"; "given_name"].
Definition spec_to_pr_fields : list string :=
  ["practitioner_role_fhir_url"; "specialty_code"; "specialty_display"; "specialty_system"].
Definition tele_to_pr_fields : list string :=
  ["practitioner_role_fhir_url"; "telecom_system"; "telecom_value"; "telecom_use"].

Definition org_to_pr_cells (r : org_to_pr_row) : list json :=
  [JStr (otp_practitioner_role_fhir_url r); JStr (otp_organization_fhir_url r);
   JStr (otp_organization_reference r)].
Definition org_cells (r : org_row) : list json :=
  [JStr (or_organization_fhir_url r); or_name r; or_type r; JStr (or_address r)].
Definition location_to_pr_cells (r : location_to_pr_row) : list json :=
  [JStr (ltp_practitioner_role_fhir_url r); JStr (ltp_location_fhir_url r);
   JStr (ltp_location_reference r)].
Definition location_cells (r : location_row) : list json :=
  [JStr (lr_location_fhir_url r); lr_name r; lr_status r; JStr (lr_address r)].
Definition p_to_pr_cells (r : p_to_pr_row) : list json :=
  [JStr (ptp_practitioner_role_fhir_url r); JStr (ptp_practitioner_fhir_url r);
   JStr (ptp_practitioner_reference r); ptp_npi r; JStr (ptp_is_npi_invalid r);
   ptp_family_name r; JStr (ptp_given_name r)].
Definition spec_to_pr_cells (r : spec_to_pr_row) : list json :=
  [JStr (stp_practitioner_role_fhir_url r); stp_specialty_code r;
   stp_specialty_display r; stp_specialty_system r].
Definition tele_to_pr_cells (r : tele_to_pr_row) : list json :=
  [JStr (ttp_practitioner_role_fhir_url r); ttp_telecom_system r;
   ttp_telecom_value r; ttp_telecom_use r].

(** The local variables of [process_payer] between lines 244 and 368: the
    three caches, each a dict in insertion order, and the five row lists. *)
Record tables : Type := mkTables {
  organizations : list (string * json);
  locations : list (string * json);
  practitioners : list (string * json);
  org_to_pr_rows : list org_to_pr_row;
  location_to_pr_rows : list location_to_pr_row;
  p_to_pr_rows : list p_to_pr_row;
  spec_to_pr_rows : list spec_to_pr_row;
  tele_to_pr_rows : list tele_to_pr_row
}.

Definition empty_tables : tables := mkTables [] [] [] [] [] [] [] [].

(** ** The world: the network, the clock of requests, the files *)

(** What one [requests.get] followed by [raise_for_status] and [json()]
    gives: the decoded body, or a [RequestException] (a transport error, a
    status that is not a success, a body that is not JSON). *)
Inductive http_result : Type :=
| HttpOk (body : json)
| HttpFail.

(** The remote side: the outcome of the request for [url] when [k] requests
    were issued before it. *)
Definition Upstream : Type := nat -> string -> http_result.

Inductive event : Type :=
| EvGet (url : string) (attempt : Z)   (* the GET of iteration [attempt] *)
| EvSleep (seconds : Z)                (* time.sleep *)
| EvMkdir (dir : string)               (* os.makedirs(dir, exist_ok=True) *)
| EvOpenW (path : string)              (* open(path, 'w'): create or truncate *)
| EvError (payer_name : string) (e : exn). (* the report of main's handler *)

(** A CSV file: its lines, each a list of cells. *)
Abbreviation csv_file := (list (list json)).

Record World : Type := mkWorld {
  requests : nat;
  trace : list event;
  files : gmap string csv_file
}.

(** A computation ends normally, raises, or exhausts the fuel that bounds
    the pagination loop. *)
Inductive outcome (A : Type) : Type :=
| Done (a : A)
| Raise (e : exn)
| OutOfFuel.
Arguments Done {A} a.
Arguments Raise {A} e.
Arguments OutOfFuel {A}.

Definition M (A : Type) : Type := World -> outcome A * World.

Definition ret {A} (a : A) : M A := fun w => (Done a, w).

Definition bind {A B} (m : M A) (k : A -> M B) : M B :=
  fun w =>
    match m w with
    | (Done a, w') => k a w'
    | (Raise e, w') => (Raise e, w')
    | (OutOfFuel, w') => (OutOfFuel, w')
    end.

Definition lift {A} (r : result A) : M A :=
  fun w =>
    match r with
    | Ok a => (Done a, w)
    | Err e => (Raise e, w)
    end.

Definition emit (e : event) : M unit :=
  fun w => (Done tt, mkWorld (requests w) (trace w ++ [e])%list (files w)).

Notation "'let!' x ':=' m 'in' k" := (bind m (fun x => k))
  (at level 10, x name, m at level 100, k at level 200).

Fixpoint foldM {A S} (f : S -> A -> M S) (xs : list A) (s : S) : M S :=
  match xs with
  | [] => ret s
  | x :: rest => let! s' := f s x in foldM f rest s'
  end.

Fixpoint rfold {A S} (f : S -> A -> result S) (xs : list A) (s : S) : result S :=
  match xs with
  | [] => Ok s
  | x :: rest => let? s' := f s x in rfold f rest s'
  end.

(** [range(n)]. *)
Definition range (n : Z) : list Z := map Z.of_nat (seq 0 (Z.to_nat n)).

Section Crawler.

Variable net : Upstream.
Variable urljoin : string -> string -> string.
Variable py_repr : json -> string.

(** ** Resource fetcher *)

(** Lines 62-64: one GET, [raise_for_status] and [json()]. *)
Definition requests_get (url : string) (attempt : Z) : M json :=
  fun w =>
    let w' := mkWorld (S (requests w)) (trace w ++ [EvGet url attempt])%list (files w) in
    match net (requests w) url with
    | HttpOk body => (Done body, w')
    | HttpFail => (Raise RequestException, w')
    end.

Definition sleep (seconds : Z) : M unit := emit (EvSleep seconds).

(** The loop [for attempt in range(max_retries)] of lines 59-71; falling off
    its end returns [None]. *)
Fixpoint fetch_loop (url : string) (max_retries : Z) (attempts : list Z) : M json :=
  match attempts with
  | [] => ret JNull
  | attempt :: rest =>
      fun w =>
        match requests_get url attempt w with
        | (Done body, w') => (Done body, w')
        | (Raise RequestException, w') =>
            if (attempt <? max_retries - 1)%Z
            then (let! _ := sleep (2 ^ attempt) in fetch_loop url max_retries rest) w'
            else (Done JNull, w')
        | (Raise e, w') => (Raise e, w')
        | (OutOfFuel, w') => (OutOfFuel, w')
        end
  end.

Definition fetch_fhir_resource (url : string) (max_retries : Z) : M json :=
  fetch_loop url max_retries (range max_retries).

(** ** Paginator *)

(** The loop over the entries of one page, lines 93-101. *)
Fixpoint collect_entries (test_mode : bool) (test_limit : Z)
    (entries : list json) (all_entries : list json) : result (list json) :=
  match entries with
  | [] => Ok all_entries
  | entry :: rest =>
      let? resource := py_get entry "resource" (JObj []) in
      let? rt := py_get resource "resourceType" JNull in
      if py_eq_str rt "PractitionerRole" then
        let all_entries := (all_entries ++ [resource])%list in
        if test_mode && (test_limit <=? Z.of_nat (length all_entries))%Z
        then Ok all_entries
        else collect_entries test_mode test_limit rest all_entries
      else collect_entries test_mode test_limit rest all_entries
  end.

(** Lines 110-114: the url of the first link whose relation is "next". *)
Fixpoint find_next (links : list json) : result json :=
  match links with
  | [] => Ok JNull
  | link :: rest =>
      let? rel := py_get link "relation" JNull in
      if py_eq_str rel "next" then py_get link "url" JNull
      else find_next rest
  end.

(** The loop [while next_url]; each page fetched takes one unit of fuel. *)
Fixpoint page_loop (fuel : nat) (test_mode : bool) (test_limit : Z)
    (next_url : json) (all_entries : list json) : M (list json) :=
  if truthy next_url then
    match fuel with
    | O => fun w => (OutOfFuel, w)
    | S fuel' =>
        let! bundle := fetch_fhir_resource (py_str py_repr next_url) 3 in
        if negb (truthy bundle) then ret all_entries
        else
          let! entries := lift (py_get bundle "entry" (JArr [])) in
          let! items := lift (py_iter entries) in
          let! all_entries :=
            lift (collect_entries test_mode test_limit items all_entries) in
          if test_mode && (test_limit <=? Z.of_nat (length all_entries))%Z
          then ret all_entries
          else
            let! links := lift (py_get bundle "link" (JArr [])) in
            let! links := lift (py_iter links) in
            let! next_url := lift (find_next links) in
            page_loop fuel' test_mode test_limit next_url all_entries
    end
  else ret all_entries.

Definition normalize_base (base_url : string) : string :=
  if endswith_slash base_url then base_url else base_url +:+ "/".

Definition fetch_all_practitioner_roles (fuel : nat) (base_url : string)
    (test_mode : bool) (test_limit : Z) : M (list json) :=
  let base_url := normalize_base base_url in
  let next_url := urljoin base_url "PractitionerRole?_count=100" in
  page_loop fuel test_mode test_limit (JStr next_url) [].

(** ** Reference resolver and cache *)

Definition cache_mem (id : string) (cache : list (string * json)) : bool :=
  match dict_lookup id cache with Some _ => true | None => false end.

(** The block the source repeats for each kind of reference (lines 268-273,
    284-289, 300-305 and 327-332): fetch the entity unless its id is a key of
    the cache, and store what came back only if it is truthy. *)
Definition resolve (base_url : string) (cache : list (string * json))
    (ref : string) : M (list (string * json)) :=
  let id := split_last ref in
  if cache_mem id cache then ret cache
  else
    let! data := fetch_fhir_resource (urljoin base_url ref) 3 in
    ret (if truthy data then (cache ++ [(id, data)])%list else cache).

Definition pr_url (base_url : string) (pr_id : json) : string :=
  urljoin base_url ("PractitionerRole/" +:+ py_str py_repr pr_id).

Definition network_reference : string :=
  "http://hl7.org/fhir/us/davinci-pdex-plan-net/StructureDefinition/network-reference".

(** Lines 268-279 and 284-295. *)
Definition add_organization (base_url : string) (pr_id : json) (t : tables)
    (org_ref : string) : M tables :=
  let! orgs := resolve base_url (organizations t) org_ref in
  ret (mkTables orgs (locations t) (practitioners t)
         (org_to_pr_rows t ++
            [{| otp_practitioner_role_fhir_url := pr_url base_url pr_id;
                otp_organization_fhir_url := urljoin base_url org_ref;
                otp_organization_reference := org_ref |}])%list
         (location_to_pr_rows t) (p_to_pr_rows t) (spec_to_pr_rows t)
         (tele_to_pr_rows t)).

(** Lines 264-279: one entry of the extension list. *)
Definition process_extension (base_url : string) (pr_id : json) (t : tables)
    (ext : json) : M tables :=
  let! url := lift (py_get ext "url" JNull) in
  if py_eq_str url network_reference then
    let! value_reference := lift (py_get ext "valueReference" (JObj [])) in
    let! org_ref := lift (py_get value_reference "reference" (JStr "")) in
    let! org_ref := lift (str_method org_ref) in
    if String.prefix "Organization/" org_ref
    then add_organization base_url pr_id t org_ref
    else ret t
  else ret t.

(** Lines 282-295: the direct organization reference. *)
Definition process_organization (base_url : string) (pr_id : json) (t : tables)
    (pr : json) : M tables :=
  let! organization := lift (py_get pr "organization" (JObj [])) in
  let! org_ref := lift (py_get organization "reference" (JStr "")) in
  if truthy org_ref then
    let! org_ref := lift (str_method org_ref) in
    if String.prefix "Organization/" org_ref
    then add_organization base_url pr_id t org_ref
    else ret t
  else ret t.

(** Lines 298-320: the practitioner reference. *)
Definition process_practitioner (base_url : string) (pr_id : json) (t : tables)
    (pr : json) : M tables :=
  let! practitioner := lift (py_get pr "practitioner" (JObj [])) in
  let! practitioner_ref := lift (py_get practitioner "reference" (JStr "")) in
  if truthy practitioner_ref then
    let! practitioner_ref := lift (str_method practitioner_ref) in
    if String.prefix "Practitioner/" practitioner_ref then
      let practitioner_id := split_last practitioner_ref in
      let! pracs := resolve base_url (practitioners t) practitioner_ref in
      let practitioner_data := default (JObj []) (dict_lookup practitioner_id pracs) in
      let! npi := lift (extract_npi_from_practitioner practitioner_data) in
      let! name_info := lift (extract_practitioner_name practitioner_data) in
      ret (mkTables (organizations t) (locations t) pracs
             (org_to_pr_rows t) (location_to_pr_rows t)
             (p_to_pr_rows t ++
                [{| ptp_practitioner_role_fhir_url := pr_url base_url pr_id;
                    ptp_practitioner_fhir_url := urljoin base_url practitioner_ref;
                    ptp_practitioner_reference := practitioner_ref;
                    ptp_npi := npi;
                    ptp_is_npi_invalid := "?";
                    ptp_family_name := ni_family name_info;
                    ptp_given_name := ni_given name_info |}])%list
             (spec_to_pr_rows t) (tele_to_pr_rows t))
    else ret t
  else ret t.

(** Lines 324-338: one entry of the location list. *)
Definition process_location (base_url : string) (pr_id : json) (t : tables)
    (loc_ref_obj : json) : M tables :=
  let! loc_ref := lift (py_get loc_ref_obj "reference" (JStr "")) in
  if truthy loc_ref then
    let! loc_ref := lift (str_method loc_ref) in
    if String.prefix "Location/" loc_ref then
      let! locs := resolve base_url (locations t) loc_ref in
      ret (mkTables (organizations t) locs (practitioners t)
             (org_to_pr_rows t)
             (location_to_pr_rows t ++
                [{| ltp_practitioner_role_fhir_url := pr_url base_url pr_id;
                    ltp_location_fhir_url := urljoin base_url loc_ref;
                    ltp_location_reference := loc_ref |}])%list
             (p_to_pr_rows t) (spec_to_pr_rows t) (tele_to_pr_rows t))
    else ret t
  else ret t.

(** Lines 344-354: one coding of one specialty. *)
Definition specialty_coding_row (base_url : string) (pr_id : json)
    (rows : list spec_to_pr_row) (coding : json) : result (list spec_to_pr_row) :=
  let? code := py_get coding "code" (JStr "") in
  let? display := py_get coding "display" (JStr "") in
  let? system := py_get coding "system" (JStr "") in
  Ok (rows ++ [{| stp_practitioner_role_fhir_url := pr_url base_url pr_id;
                  stp_specialty_code := code;
                  stp_specialty_display := display;
                  stp_specialty_system := system |}])%list.

(** Lines 342-354: one entry of the specialty list. *)
Definition specialty_rows (base_url : string) (pr_id : json)
    (rows : list spec_to_pr_row) (specialty : json) : result (list spec_to_pr_row) :=
  let? codings := py_get specialty "coding" (JArr []) in
  let? codings := py_iter codings in
  rfold (specialty_coding_row base_url pr_id) codings rows.

(** Lines 358-368: one entry of the telecom list. *)
Definition telecom_row (base_url : string) (pr_id : json)
    (rows : list tele_to_pr_row) (telecom : json) : result (list tele_to_pr_row) :=
  let? system := py_get telecom "system" (JStr "") in
  let? value := py_get telecom "value" (JStr "") in
  let? use := py_get telecom "use" (JStr "") in
  Ok (rows ++ [{| ttp_practitioner_role_fhir_url := pr_url base_url pr_id;
                  ttp_telecom_system := system;
                  ttp_telecom_value := value;
                  ttp_telecom_use := use |}])%list.

(** The body of the loop over the PractitionerRole entries, lines 258-368. *)
Definition process_role (base_url : string) (t : tables) (pr : json) : M tables :=
  let! pr_id := lift (py_get pr "id" (JStr "")) in
  let! extensions := lift (py_get pr "extension" (JArr [])) in
  let! extensions := lift (py_iter extensions) in
  let! t := foldM (process_extension base_url pr_id) extensions t in
  let! t := process_organization base_url pr_id t pr in
  let! t := process_practitioner base_url pr_id t pr in
  let! location_refs := lift (py_get pr "location" (JArr [])) in
  let! location_refs := lift (py_iter location_refs) in
  let! t := foldM (process_location base_url pr_id) location_refs t in
  let! specialties := lift (py_get pr "specialty" (JArr [])) in
  let! specialties := lift (py_iter specialties) in
  let! spec_rows := lift (rfold (specialty_rows base_url pr_id) specialties
                            (spec_to_pr_rows t)) in
  let! telecoms := lift (py_get pr "telecom" (JArr [])) in
  let! telecoms := lift (py_iter telecoms) in
  let! tele_rows := lift (rfold (telecom_row base_url pr_id) telecoms
                            (tele_to_pr_rows t)) in
  ret (mkTables (organizations t) (locations t) (practitioners t)
         (org_to_pr_rows t) (location_to_pr_rows t) (p_to_pr_rows t)
         spec_rows tele_rows).

(** Lines 244-368: the caches and row lists after all entries. *)
Definition collect_tables (base_url : string) (practitioner_roles : list json) : M tables :=
  foldM (process_role base_url) practitioner_roles empty_tables.

(** ** Relational writer *)

(** What [if rows: writer.writeheader(); writer.writerows(rows)] puts in a
    file just opened for writing: nothing when there is no row, else the
    header and the rows. *)
Definition table_content (fieldnames : list string) (rows : list (list json)) : csv_file :=
  match rows with
  | [] => []
  | _ :: _ => map JStr fieldnames :: rows
  end.

(** [with open(path, 'w') as f: ...]: the file is created or truncated, then
    filled. *)
Definition write_csv (path : string) (fieldnames : list string)
    (rows : list (list json)) : M unit :=
  fun w =>
    (Done tt, mkWorld (requests w) (trace w ++ [EvOpenW path])%list
                (<[path := table_content fieldnames rows]> (files w))).

(** Lines 380-388. *)
Definition org_row_of (base_url : string) (rows : list org_row)
    (item : string * json) : result (list org_row) :=
  let? org_info := extract_organization_info (snd item) in
  Ok (rows ++ [{| or_organization_fhir_url := urljoin base_url ("Organization/" +:+ fst item);
                  or_name := oi_name org_info;
                  or_type := oi_type org_info;
                  or_address := oi_address org_info |}])%list.

(** Lines 404-412. *)
Definition location_row_of (base_url : string) (rows : list location_row)
    (item : string * json) : result (list location_row) :=
  let? loc_info := extract_location_info (snd item) in
  Ok (rows ++ [{| lr_location_fhir_url := urljoin base_url ("Location/" +:+ fst item);
                  lr_name := li_name loc_info;
                  lr_status := li_status loc_info;
                  lr_address := li_address loc_info |}])%list.

(** Lines 372-439, in the order of the source. *)
Definition write_tables (base_url output_dir : string) (t : tables) : M unit :=
  let! _ := write_csv (output_dir +:+ "/org_to_pr.csv") org_to_pr_fields
              (map org_to_pr_cells (org_to_pr_rows t)) in
  let! org_rows := lift (rfold (org_row_of base_url) (organizations t) []) in
  let! _ := write_csv (output_dir +:+ "/org.csv") org_fields
              (map org_cells org_rows) in
  let! _ := write_csv (output_dir +:+ "/location_to_pr.csv") location_to_pr_fields
              (map location_to_pr_cells (location_to_pr_rows t)) in
  let! location_rows := lift (rfold (location_row_of base_url) (locations t) []) in
  let! _ := write_csv (output_dir +:+ "/location.csv") location_fields
              (map location_cells location_rows) in
  let! _ := write_csv (output_dir +:+ "/p_to_pr.csv") p_to_pr_fields
              (map p_to_pr_cells (p_to_pr_rows t)) in
  let! _ := write_csv (output_dir +:+ "/spec_to_pr.csv") spec_to_pr_fields
              (map spec_to_pr_cells (spec_to_pr_rows t)) in
  write_csv (output_dir +:+ "/tele_to_pr.csv") tele_to_pr_fields
    (map tele_to_pr_cells (tele_to_pr_rows t)).

(** ** The pipeline of one payer *)

(** A row of [good_payer_endpoints.csv] as [csv.DictReader] yields it. *)
Definition payer : Type := list (string * string).

Fixpoint payer_lookup (k : string) (p : payer) : option string :=
  match p with
  | [] => None
  | (k', v) :: rest => if String.eqb k k' then Some v else payer_lookup k rest
  end.

(** [payer[k]]. *)
Definition payer_item (p : payer) (k : string) : result string :=
  match payer_lookup k p with
  | Some v => Ok v
  | None => Err KeyError
  end.

Definition output_dir_of (test_mode : bool) (payer_stub : string) : string :=
  if test_mode then "payer_slurp_test_results/" +:+ payer_stub
  else "payer_slurp_results/" +:+ payer_stub.

Definition process_payer (fuel : nat) (p : payer) (test_mode : bool)
    (test_limit : Z) : M unit :=
  let! payer_name := lift (payer_item p "payer_name") in
  let! payer_stub := lift (payer_item p "payer_stub") in
  let! base_url := lift (payer_item p "payer_provider_directory_fhir_url") in
  let base_url := normalize_base base_url in
  let output_dir := output_dir_of test_mode payer_stub in
  let! _ := emit (EvMkdir output_dir) in
  let! practitioner_roles :=
    fetch_all_practitioner_roles fuel base_url test_mode test_limit in
  match practitioner_roles with
  | [] => ret tt
  | _ :: _ =>
      let! t := collect_tables base_url practitioner_roles in
      write_tables base_url output_dir t
  end.

(** ** Orchestrator *)

(** The loop of [main] over the payers (lines 491-497), with its handler
    [except Exception]; every class of [exn] derives from [Exception]. *)
Fixpoint main_loop (fuel : nat) (payers : list payer) (test_mode : bool)
    (test_limit : Z) : M unit :=
  match payers with
  | [] => ret tt
  | p :: rest =>
      fun w =>
        match process_payer fuel p test_mode test_limit w with
        | (Done _, w') => main_loop fuel rest test_mode test_limit w'
        | (Raise e, w') =>
            (let! _ := emit (EvError (default "unknown" (payer_lookup "payer_name" p)) e) in
             main_loop fuel rest test_mode test_limit) w'
        | (OutOfFuel, w') => (OutOfFuel, w')
        end
  end.

End Crawler.

(** ** Vocabulary of the specification *)

(** The schedule of section 4.1 for [k] attempts starting at [attempt]: one
    GET per attempt and, between two consecutive attempts, a sleep of
    [2 ^ attempt] seconds. *)
Fixpoint backoff_schedule (url : string) (attempt : Z) (k : nat) : list event :=
  match k with
  | O => []
  | S k' =>
      match k' with
      | O => [EvGet url attempt]
      | S _ => EvGet url attempt :: EvSleep (2 ^ attempt)
                 :: backoff_schedule url (attempt + 1) k'
      end
  end.

(** The urls the fetcher was invoked on, in order: every call with at least
    one retry allowed starts with the GET of attempt 0. *)
Definition first_attempt (e : event) : option string :=
  match e with
  | EvGet url 0 => Some url
  | _ => None
  end.

Definition fetch_calls (tr : list event) : list string := omap first_attempt tr.

(** The files opened for writing, in order. *)
Definition opened (tr : list event) : list string :=
  omap (fun e => match e with EvOpenW path => Some path | _ => None end) tr.

(** The events of the network side. *)
Definition is_net_event (e : event) : Prop :=
  match e with
  | EvGet _ _ | EvSleep _ => True
  | _ => False
  end.

(** A computation that only talks to the network: the files are as before
    and the trace grew by GETs and sleeps. *)
Definition net_only (w w' : World) : Prop :=
  files w' = files w /\
  exists evs, trace w' = (trace w ++ evs)%list /\ Forall is_net_event evs.

(** The world relation [R] holds between the start and the end of [m],
    whatever its outcome. *)
Definition preserves {A} (R : World -> World -> Prop) (m : M A) : Prop :=
  forall w, R w (snd (m w)).

(** The files of a payer's output directory, in the order they are
    written. *)
Definition table_files : list string :=
  ["org_to_pr.csv"; "org.csv"; "location_to_pr.csv"; "location.csv";
   "p_to_pr.csv"; "spec_to_pr.csv"; "tele_to_pr.csv"].

Definition table_path (output_dir file : string) : string :=
  output_dir +:+ ("/" +:+ file).

(** The paths the pipeline of payer [p] may write. *)
Definition payer_paths (test_mode : bool) (p : payer) (path : string) : Prop :=
  exists stub file,
    payer_lookup "payer_stub" p = Some stub /\
    file ∈ table_files /\
    path = table_path (output_dir_of test_mode stub) file.

(** The files outside [S] are as before. *)
Definition agree_outside (S : string -> Prop) (w w' : World) : Prop :=
  forall path, ~ S path -> files w' !! path = files w !! path.

(** What the handler of [main] leaves after payer [p] raised [e]. *)
Definition reported (p : payer) (e : exn) (w : World) : World :=
  mkWorld (requests w)
    (trace w ++ [EvError (default "unknown" (payer_lookup "payer_name" p)) e])%list
    (files w).

(** Whether a character occurs in a string. *)
Fixpoint occurs (c : ascii) (s : string) : bool :=
  match s with
  | EmptyString => false
  | String c' r => Ascii.eqb c c' || occurs c r
  end.

(** The seven tables of a run: file, fieldnames and rows, in the order they
    are written. *)
Definition table_rows (t : tables) (org_rows : list org_row)
    (location_rows : list location_row)
  : list (string * list string * list (list json)) :=
  [("org_to_pr.csv", org_to_pr_fields, map org_to_pr_cells (org_to_pr_rows t));
   ("org.csv", org_fields, map org_cells org_rows);
   ("location_to_pr.csv", location_to_pr_fields,
    map location_to_pr_cells (location_to_pr_rows t));
   ("location.csv", location_fields, map location_cells location_rows);
   ("p_to_pr.csv", p_to_pr_fields, map p_to_pr_cells (p_to_pr_rows t));
   ("spec_to_pr.csv", spec_to_pr_fields, map spec_to_pr_cells (spec_to_pr_rows t));
   ("tele_to_pr.csv", tele_to_pr_fields, map tele_to_pr_cells (tele_to_pr_rows t))].

(** ** The history of the resolver *)

Inductive kind : Type := KOrganization | KLocation | KPractitioner.

#[global] Instance kind_eq_dec : EqDecision kind.
Proof. solve_decision. Defined.

(** The cache of a kind of entity, and the reference column of the
    relationship table of that kind. *)
Definition cache_of (t : tables) (k : kind) : list (string * json) :=
  match k with
  | KOrganization => organizations t
  | KLocation => locations t
  | KPractitioner => practitioners t
  end.

Definition refs_of (t : tables) (k : kind) : list string :=
  match k with
  | KOrganization => map otp_organization_reference (org_to_pr_rows t)
  | KLocation => map ltp_location_reference (location_to_pr_rows t)
  | KPractitioner => map ptp_practitioner_reference (p_to_pr_rows t)
  end.

(** One call of the fetcher by the resolver: the reference that missed the
    cache, the world in which the call was made and what it returned. *)
Record fetch_record : Type := {
  fr_kind : kind;
  fr_ref : string;
  fr_world : World;
  fr_data : json
}.

Definition fr_id (e : fetch_record) : string := split_last (fr_ref e).

Definition calls_of (k : kind) (log : list fetch_record) : list fetch_record :=
  filter (fun e => fr_kind e = k) log.

(** The calls made for the id [id], and the references that carry it. *)
Definition calls_for (id : string) (calls : list fetch_record) : list fetch_record :=
  filter (fun e => fr_id e = id) calls.

Definition refs_for (id : string) (refs : list string) : list string :=
  filter (fun r => split_last r = id) refs.

Definition upd {B} (f : kind -> B) (k : kind) (v : B) : kind -> B :=
  fun k' => if decide (k' = k) then v else f k'.

Section History.

Variable net : Upstream.
Variable urljoin : string -> string -> string.
Variable base_url : string.

(** [e] records a call the resolver really made. *)
Definition call_valid (e : fetch_record) : Prop :=
  fst (fetch_fhir_resource net (urljoin base_url (fr_ref e)) 3 (fr_world e))
  = Done (fr_data e).

(** How a cache, the references seen so far and the calls made for them
    hang together. *)
Record kind_history (cache : list (string * json)) (refs : list string)
    (calls : list fetch_record) : Prop := {
  kh_nodup : NoDup (map fst cache);
  kh_calls : Forall (fun e => fr_ref e ∈ refs /\ call_valid e) calls;
  kh_cache : forall id d,
      (id, d) ∈ cache <->
      exists e, e ∈ calls /\ fr_id e = id /\ fr_data e = d /\ truthy d = true;
  kh_once : forall l1 e l2,
      calls = (l1 ++ e :: l2)%list -> truthy (fr_data e) = true ->
      Forall (fun e' => fr_id e' <> fr_id e) l2;
  kh_fetched : forall id, id ∈ map split_last refs -> id ∈ map fr_id calls;
  kh_bound : forall id,
      (length (calls_for id calls) <= length (refs_for id refs))%nat;
  kh_retried : forall id,
      id ∉ map fst cache ->
      length (calls_for id calls) = length (refs_for id refs)
}.

(** The log lists, in order, the calls of the fetcher since the world [w0];
    its calls of each kind fit the cache and the references of that kind. *)
Definition history (w0 : World) (caches : kind -> list (string * json))
    (refs : kind -> list string) (w : World) (log : list fetch_record) : Prop :=
  fetch_calls (trace w)
  = (fetch_calls (trace w0) ++ map (fun e => urljoin base_url (fr_ref e)) log)%list /\
  forall k, kind_history (caches k) (refs k) (calls_of k log).

End History.

(** The state [t] reached in the world [w] has a history since [w0]. *)
Definition run_history (net : Upstream) (urljoin : string -> string -> string)
    (base_url : string) (w0 : World) (t : tables) (w : World) : Prop :=
  exists log, history net urljoin base_url w0 (cache_of t) (refs_of t) w log.

(** ** The capped crawl of test mode *)

Section CappedCrawl.

Variable net : Upstream.
Variable py_repr : json -> string.
Variable cap : Z.

(** What the entries of a page add to the records in test mode, and the
    link the page gives for the next one. *)
Definition page_records (all_entries : list json) (bundle : json) : result (list json) :=
  let? entries := py_get bundle "entry" (JArr []) in
  let? items := py_iter entries in
  collect_entries true cap items all_entries.

Definition next_link (bundle : json) : result json :=
  let? links := py_get bundle "link" (JArr []) in
  let? links := py_iter links in
  find_next links.

(** The crawl section 4.2 describes for test mode, from the url [next_url]
    with the records [all_entries] in the world [w]: a page is requested only
    while the count is below the cap, and the crawl ends, with no further
    request, at the end of the page that brings the count to the cap. *)
Inductive capped_crawl : json -> list json -> World -> list json -> World -> Prop :=
| crawl_no_link next_url all_entries w :
    truthy next_url = false ->
    capped_crawl next_url all_entries w all_entries w
| crawl_absent next_url all_entries w bundle w1 :
    truthy next_url = true ->
    Z.of_nat (length all_entries) < cap ->
    fetch_fhir_resource net (py_str py_repr next_url) 3 w = (Done bundle, w1) ->
    truthy bundle = false ->
    capped_crawl next_url all_entries w all_entries w1
| crawl_cap next_url all_entries w bundle w1 all_entries' :
    truthy next_url = true ->
    Z.of_nat (length all_entries) < cap ->
    fetch_fhir_resource net (py_str py_repr next_url) 3 w = (Done bundle, w1) ->
    truthy bundle = true ->
    page_records all_entries bundle = Ok all_entries' ->
    cap <= Z.of_nat (length all_entries') ->
    capped_crawl next_url all_entries w all_entries' w1
| crawl_next next_url all_entries w bundle w1 all_entries' next result w' :
    truthy next_url = true ->
    Z.of_nat (length all_entries) < cap ->
    fetch_fhir_resource net (py_str py_repr next_url) 3 w = (Done bundle, w1) ->
    truthy bundle = true ->
    page_records all_entries bundle = Ok all_entries' ->
    Z.of_nat (length all_entries') < cap ->
    next_link bundle = Ok next ->
    capped_crawl next all_entries' w1 result w' ->
    capped_crawl next_url all_entries w result w'.

End CappedCrawl.

(** ** Sample servers and payers for the examples *)

Module Sample.

(** [urljoin] on a base that ends with a slash and a relative reference. *)
Definition join (base ref : string) : string := base +:+ ref.

(** No example formats a list or a dict. *)
Definition repr (_ : json) : string := "".

Definition start : World := mkWorld 0 [] ∅.

(** A server that answers the listed urls, always the same way, and fails
    on every other url. *)
Definition serve (pages : list (string * json)) : Upstream :=
  fun _ url =>
    match dict_lookup url pages with
    | Some body => HttpOk body
    | None => HttpFail
    end.

Definition down : Upstream := fun _ _ => HttpFail.

(** Fails the first two requests and answers from the third on. *)
Definition flaky (body : json) : Upstream :=
  fun k _ => if (k <? 2)%nat then HttpFail else HttpOk body.

Definition bundle (roles : list json) : json :=
  JObj [("resourceType", JStr "Bundle");
        ("entry", JArr (map (fun r => JObj [("resource", r)]) roles))].

Definition role_1 : json :=
  JObj [("resourceType", JStr "PractitionerRole"); ("id", JStr "r1");
        ("organization", JObj [("reference", JStr "Organization/o1")]);
        ("practitioner", JObj [("reference", JStr "Practitioner/p1")]);
        ("location", JArr [JObj [("reference", JStr "Location/l1")]]);
        ("telecom", JArr [JObj [("system", JStr "phone"); ("value", JStr "555-0100")]])].

Definition role_2 : json :=
  JObj [("resourceType", JStr "PractitionerRole"); ("id", JStr "r2");
        ("organization", JObj [("reference", JStr "Organization/o1")])].

(** A record whose extension list is a number: iterating it raises. *)
Definition role_broken : json :=
  JObj [("resourceType", JStr "PractitionerRole"); ("id", JStr "r3");
        ("extension", JNum 5)].

Definition organization_1 : json := JObj [("name", JStr "Clinic One")].

Definition practitioner_1 : json :=
  JObj [("identifier",
         JArr [JObj [("type", JObj [("coding", JArr [JObj [("code", JStr "NPI")]])]);
                     ("value", JStr "1234567890")]]);
        ("name", JArr [JObj [("family", JStr "Doe"); ("given", JArr [JStr "Jane"])]])].

Definition location_1 : json :=
  JObj [("name", JStr "Main Street"); ("status", JStr "active")].

Definition entities (base : string) : list (string * json) :=
  [(base +:+ "Organization/o1", organization_1);
   (base +:+ "Practitioner/p1", practitioner_1);
   (base +:+ "Location/l1", location_1)].

Definition first_page (base : string) : string := base +:+ "PractitionerRole?_count=100".

(** Payer a: two records that share one organization, every entity served. *)
Definition site_a : list (string * json) :=
  (first_page "http://a.example/fhir/", bundle [role_1; role_2])
    :: entities "http://a.example/fhir/".

(** Payer a after its collection shrank to no record. *)
Definition site_a_empty : list (string * json) :=
  [(first_page "http://a.example/fhir/", bundle [])].

(** Payer a with the same records and no entity reachable. *)
Definition site_a_bare : list (string * json) :=
  [(first_page "http://a.example/fhir/", bundle [role_1; role_2])].

(** Payer b: its only record is broken.  Payer c: one sound record. *)
Definition site_b : list (string * json) :=
  [(first_page "http://b.example/fhir/", bundle [role_broken])].

Definition site_c : list (string * json) :=
  (first_page "http://c.example/fhir/", bundle [role_2])
    :: entities "http://c.example/fhir/".

Definition payer_of (name stub url : string) : payer :=
  [("payer_name", name); ("payer_stub", stub);
   ("payer_provider_directory_fhir_url", url)].

Definition payer_a : payer := payer_of "Payer A" "a" "http://a.example/fhir".
Definition payer_b : payer := payer_of "Payer B" "b" "http://b.example/fhir".
Definition payer_c : payer := payer_of "Payer C" "c" "http://c.example/fhir".

(** What a computation returned, [d] if it did not return. *)
Definition returned {A} (d : A) (r : outcome A * World) : A :=
  match fst r with
  | Done a => a
  | _ => d
  end.

(** The runs the examples look at: payer a served in full, then after its
    collection shrank to nothing, and with no entity reachable. *)
Abbreviation run_a :=
  (process_payer (serve site_a) join repr 5 payer_a false 100 start).

Abbreviation run_a_again :=
  (process_payer (serve site_a_empty) join repr 5 payer_a false 100 (snd run_a)).

Abbreviation run_a_bare :=
  (process_payer (serve site_a_bare) join repr 5 payer_a false 100 start).

Abbreviation collect_a_bare :=
  (collect_tables (serve site_a_bare) join repr "http://a.example/fhir/"
     [role_1; role_2] start).

Abbreviation crawl_a test_limit :=
  (fetch_all_practitioner_roles (serve site_a) join repr 5 "http://a.example/fhir"
     true test_limit start).

End Sample.

(** ** The claims of the specification that the code does not meet, as
    stated *)

(** Section 4.5 and 6: six tables, each with the header row of its
    fieldset, also when it has no data row. *)
Definition six_headed_tables (w w' : World) : Prop :=
  exists evs,
    trace w' = (trace w ++ evs)%list /\
    length (opened evs) = 6%nat /\
    forall path, path ∈ opened evs ->
      exists header rows, files w' !! path = Some (header :: rows).

(** Section 8, uniqueness: every id referenced in a relationship table has a
    row in the entity table. *)
Definition every_referenced_id_has_row (t : tables) : Prop :=
  forall k id, id ∈ map split_last (refs_of t k) -> id ∈ map fst (cache_of t k).

(** Section 8, cache property: the fetcher is invoked exactly once for the
    url of an entity that is referenced. *)
Definition fetched_exactly_once (url : string) (w w' : World) : Prop :=
  exists evs,
    trace w' = (trace w ++ evs)%list /\
    length (filter (fun u => u = url) (fetch_calls evs)) = 1%nat.

(** Section 4.2: with the cap [test_limit] no more than [test_limit]
    records are accumulated. *)
Definition stops_at_cap (test_limit : Z) (records : list json) : Prop :=
  Z.of_nat (length records) <= test_limit.

(** ** Further vocabulary, for the properties beyond the specification *)

(** The parts of an address that are not empty. *)
Definition nonempty (parts : list string) : list string :=
  List.filter (fun s => negb (String.eqb s "")) parts.

(** The seconds a trace spends sleeping. *)
Fixpoint total_sleep (tr : list event) : Z :=
  match tr with
  | [] => 0
  | EvSleep seconds :: rest => seconds + total_sleep rest
  | _ :: rest => total_sleep rest
  end.

(** A record the paginator keeps: a dict whose resourceType is
    "PractitionerRole". *)
Definition is_practitioner_role (r : json) : Prop :=
  exists members,
    r = JObj members /\
    dict_lookup "resourceType" members = Some (JStr "PractitionerRole").

(** The record an entry of a page carries, if its resource is a
    PractitionerRole. *)
Definition entry_record (entry : json) : option json :=
  match py_get entry "resource" (JObj []) with
  | Ok resource =>
      match py_get resource "resourceType" JNull with
      | Ok rt => if py_eq_str rt "PractitionerRole" then Some resource else None
      | Err _ => None
      end
  | Err _ => None
  end.

(** ** What the rows of a run should be, read off the records *)

(** [v.get(k, '')] on an entry that is known to be a dict. *)
Definition field (v : json) (k : string) : json :=
  match py_get v k (JStr "") with
  | Ok x => x
  | Err _ => JStr ""
  end.

(** The elements a loop over [v.get(k, [])] visits, none if it raises. *)
Definition items_of (v : json) (k : string) : list json :=
  match (let? l := py_get v k (JArr []) in py_iter l) with
  | Ok items => items
  | Err _ => []
  end.

Section RowsOfRecords.

Variable urljoin : string -> string -> string.
Variable py_repr : json -> string.
Variable base_url : string.

(** The url of a record, the first column of every relationship row. *)
Definition role_url (pr : json) : string :=
  pr_url urljoin py_repr base_url (field pr "id").

Definition telecom_rows_of (pr : json) : list tele_to_pr_row :=
  map (fun telecom =>
         {| ttp_practitioner_role_fhir_url := role_url pr;
            ttp_telecom_system := field telecom "system";
            ttp_telecom_value := field telecom "value";
            ttp_telecom_use := field telecom "use" |})
    (items_of pr "telecom").

Definition specialty_rows_of (pr : json) : list spec_to_pr_row :=
  flat_map (fun specialty =>
              map (fun coding =>
                     {| stp_practitioner_role_fhir_url := role_url pr;
                        stp_specialty_code := field coding "code";
                        stp_specialty_display := field coding "display";
                        stp_specialty_system := field coding "system" |})
                (items_of specialty "coding"))
    (items_of pr "specialty").

(** A row of a relationship table that stems from the record [pr]: its
    first column is the url of the record, its reference has the prefix of
    its kind and its entity url is the reference joined to the base. *)
Definition org_row_from (pr : json) (r : org_to_pr_row) : Prop :=
  otp_practitioner_role_fhir_url r = role_url pr /\
  String.prefix "Organization/" (otp_organization_reference r) = true /\
  otp_organization_fhir_url r = urljoin base_url (otp_organization_reference r).

Definition location_row_from (pr : json) (r : location_to_pr_row) : Prop :=
  ltp_practitioner_role_fhir_url r = role_url pr /\
  String.prefix "Location/" (ltp_location_reference r) = true /\
  ltp_location_fhir_url r = urljoin base_url (ltp_location_reference r).

Definition practitioner_row_from (pr : json) (r : p_to_pr_row) : Prop :=
  ptp_practitioner_role_fhir_url r = role_url pr /\
  String.prefix "Practitioner/" (ptp_practitioner_reference r) = true /\
  ptp_practitioner_fhir_url r = urljoin base_url (ptp_practitioner_reference r) /\
  ptp_is_npi_invalid r = "?".

(** The rows a resolved organization reference of [pr] adds: rows of the
    organization table only. *)
Record organization_step (pr : json) (t t' : tables) : Prop := {
  os_org : exists rows,
      org_to_pr_rows t' = (org_to_pr_rows t ++ rows)%list /\
      Forall (org_row_from pr) rows;
  os_location : location_to_pr_rows t' = location_to_pr_rows t;
  os_practitioner : p_to_pr_rows t' = p_to_pr_rows t;
  os_specialty : spec_to_pr_rows t' = spec_to_pr_rows t;
  os_telecom : tele_to_pr_rows t' = tele_to_pr_rows t
}.

Record location_step (pr : json) (t t' : tables) : Prop := {
  ls_org : org_to_pr_rows t' = org_to_pr_rows t;
  ls_location : exists rows,
      location_to_pr_rows t' = (location_to_pr_rows t ++ rows)%list /\
      Forall (location_row_from pr) rows;
  ls_practitioner : p_to_pr_rows t' = p_to_pr_rows t;
  ls_specialty : spec_to_pr_rows t' = spec_to_pr_rows t;
  ls_telecom : tele_to_pr_rows t' = tele_to_pr_rows t
}.

Record practitioner_step (pr : json) (t t' : tables) : Prop := {
  ps_org : org_to_pr_rows t' = org_to_pr_rows t;
  ps_location : location_to_pr_rows t' = location_to_pr_rows t;
  ps_practitioner : exists rows,
      p_to_pr_rows t' = (p_to_pr_rows t ++ rows)%list /\
      Forall (practitioner_row_from pr) rows /\ (length rows <= 1)%nat;
  ps_specialty : spec_to_pr_rows t' = spec_to_pr_rows t;
  ps_telecom : tele_to_pr_rows t' = tele_to_pr_rows t
}.

(** The rows the record [pr] added to the tables [t], giving [t']. *)
Record role_rows (pr : json) (t t' : tables) : Prop := {
  rr_org : exists rows,
      org_to_pr_rows t' = (org_to_pr_rows t ++ rows)%list /\
      Forall (org_row_from pr) rows;
  rr_location : exists rows,
      location_to_pr_rows t' = (location_to_pr_rows t ++ rows)%list /\
      Forall (location_row_from pr) rows;
  rr_practitioner : exists rows,
      p_to_pr_rows t' = (p_to_pr_rows t ++ rows)%list /\
      Forall (practitioner_row_from pr) rows /\ (length rows <= 1)%nat;
  rr_specialty :
      spec_to_pr_rows t' = (spec_to_pr_rows t ++ specialty_rows_of pr)%list;
  rr_telecom :
      tele_to_pr_rows t' = (tele_to_pr_rows t ++ telecom_rows_of pr)%list
}.

End RowsOfRecords.

(** ** What a practitioner row says about its practitioner *)

(** The row carries the placeholders of a practitioner that could not be
    fetched, or the NPI and the names read off the cached data of the
    practitioner its reference names. *)
Definition practitioner_row_sound (cache : list (string * json))
    (r : p_to_pr_row) : Prop :=
  (ptp_npi r = JStr "0" /\ ptp_family_name r = JStr "" /\ ptp_given_name r = "") \/
  exists data,
    dict_lookup (split_last (ptp_practitioner_reference r)) cache = Some data /\
    extract_npi_from_practitioner data = Ok (ptp_npi r) /\
    extract_practitioner_name data
    = Ok {| ni_family := ptp_family_name r; ni_given := ptp_given_name r |}.

Definition practitioner_rows_sound (t : tables) : Prop :=
  Forall (practitioner_row_sound (practitioners t)) (p_to_pr_rows t).

(** ** Output directories *)

(** The directory under which a run in the given mode puts the output of
    every payer (line 226). *)
Definition output_root (test_mode : bool) : string :=
  if test_mode then "payer_slurp_test_results/" else "payer_slurp_results/".

(** ** Runs against a server that does not change *)

(** A server whose answer to a url does not depend on how many requests it
    has seen. *)
Definition static (net : Upstream) : Prop :=
  forall k k' url, net k url = net k' url.

(** The files after a sequence of writes, the earliest first. *)
Definition replay (writes : list (string * csv_file))
    (fs : gmap string csv_file) : gmap string csv_file :=
  foldl (fun fs kv => <[fst kv := snd kv]> fs) fs writes.

(** A computation that does the same from every world: same outcome, same
    number of requests, same events, same writes. *)
Definition uniform {A} (m : M A) : Prop :=
  exists o dn evs writes,
    forall w, m w = (o, mkWorld (requests w + dn) (trace w ++ evs)%list
                          (replay writes (files w))).

(** ** Further sample servers *)

Module SampleMore.

Import Sample.

(** An organization whose type is one concept, not a list of them. *)
Definition organization_odd : json :=
  JObj [("name", JStr "Clinic Odd"); ("type", JObj [("text", JStr "prov")])].

(** Payer a with one record and that organization. *)
Definition site_a_odd : list (string * json) :=
  [(first_page "http://a.example/fhir/", bundle [role_2]);
   ("http://a.example/fhir/Organization/o1", organization_odd)].

(** A row of the endpoints file that lacks the stub column. *)
Definition payer_no_stub : payer :=
  [("payer_name", "Payer N");
   ("payer_provider_directory_fhir_url", "http://n.example/fhir")].

(** One page that names itself as the next page. *)
Definition page_loop_url : string := "http://l.example/fhir/PractitionerRole?_count=100".

Definition bundle_loop : json :=
  JObj [("resourceType", JStr "Bundle");
        ("entry", JArr [JObj [("resource", role_2)]]);
        ("link", JArr [JObj [("relation", JStr "self"); ("url", JStr page_loop_url)];
                       JObj [("relation", JStr "next"); ("url", JStr page_loop_url)]])].

Definition site_loop : list (string * json) := [(page_loop_url, bundle_loop)].

(** Payer a with a broken record between two sound ones. *)
Definition site_a_mixed : list (string * json) :=
  (first_page "http://a.example/fhir/", bundle [role_2; role_broken; role_1])
    :: entities "http://a.example/fhir/".

Abbreviation crawl_a_mixed :=
  (fetch_all_practitioner_roles (serve site_a_mixed) join repr 5
     (normalize_base "http://a.example/fhir") false 100
     (mkWorld 0 [EvMkdir (output_dir_of false "a")] ∅)).

Abbreviation collect_a_mixed_before :=
  (foldM (process_role (serve site_a_mixed) join repr
            (normalize_base "http://a.example/fhir"))
     [role_2] empty_tables (snd crawl_a_mixed)).

Abbreviation step_a_mixed_bad :=
  (process_role (serve site_a_mixed) join repr (normalize_base "http://a.example/fhir")
     (returned empty_tables collect_a_mixed_before) role_broken
     (snd collect_a_mixed_before)).

Abbreviation run_a_mixed :=
  (process_payer (serve site_a_mixed) join repr 5 payer_a false 100 start).

Abbreviation collect_a :=
  (collect_tables (serve site_a) join repr "http://a.example/fhir/"
     [role_1; role_2] start).

Abbreviation crawl_a_full :=
  (fetch_all_practitioner_roles (serve site_a) join repr 5 "http://a.example/fhir"
     false 100 start).

Abbreviation run_a_odd :=
  (process_payer (serve site_a_odd) join repr 5 payer_a false 100 start).

Abbreviation test_run_a :=
  (main_loop (serve site_a) join repr 5 [payer_a] true 2 (snd run_a)).

End SampleMore.

(** * Properties *)

(** ** Reasoning about computations *)

Lemma bind_done_inv {A B} (m : M A) (k : A -> M B) w b w' :
  bind m k w = (Done b, w') ->
  exists a w1, m w = (Done a, w1) /\ k a w1 = (Done b, w').
Proof.
  unfold bind. destruct (m w) as [[a | e |] w1]; intros H; try discriminate.
  exists a, w1. split; [reflexivity | exact H].
Qed.

Lemma lift_done_inv {A} (r : result A) w a w' :
  lift r w = (Done a, w') -> r = Ok a /\ w' = w.
Proof.
  unfold lift. destruct r; intros H; inversion H; subst; auto.
Qed.

Lemma ret_done_inv {A} (x : A) w a w' :
  ret x w = (Done a, w') -> a = x /\ w' = w.
Proof. unfold ret. intros H; inversion H; auto. Qed.

Lemma rbind_ok_inv {A B} (r : result A) (k : A -> result B) b :
  rbind r k = Ok b -> exists a, r = Ok a /\ k a = Ok b.
Proof. destruct r; simpl; intros H; [eauto | discriminate]. Qed.

Lemma foldM_done_invariant {A S} (f : S -> A -> M S) (I : S -> World -> Prop) :
  (forall s x w s' w', I s w -> f s x w = (Done s', w') -> I s' w') ->
  forall xs s w s' w', I s w -> foldM f xs s w = (Done s', w') -> I s' w'.
Proof.
  intros Hstep xs. induction xs as [| x xs IH]; intros s w s' w' HI Hrun.
  - apply ret_done_inv in Hrun as [-> ->]. exact HI.
  - simpl in Hrun. apply bind_done_inv in Hrun as (s1 & w1 & H1 & H2).
    eapply IH; [| exact H2]. eapply Hstep; eauto.
Qed.

Lemma rfold_ok_invariant {A S} (f : S -> A -> result S) (I : S -> Prop) :
  (forall s x s', I s -> f s x = Ok s' -> I s') ->
  forall xs s s', I s -> rfold f xs s = Ok s' -> I s'.
Proof.
  intros Hstep xs. induction xs as [| x xs IH]; intros s s' HI Hrun; simpl in Hrun.
  - inversion Hrun; subst; exact HI.
  - apply rbind_ok_inv in Hrun as (s1 & H1 & H2). eauto.
Qed.

Lemma done_eta {A} (r : outcome A * World) a : fst r = Done a -> r = (Done a, snd r).
Proof. destruct r as [o w]. simpl. intros ->. reflexivity. Qed.

Lemma raise_eta {A} (r : outcome A * World) e : fst r = Raise e -> r = (Raise e, snd r).
Proof. destruct r as [o w]. simpl. intros ->. reflexivity. Qed.

(** Inverts the hypotheses that say a sequence of steps ended normally. *)
Ltac minv :=
  repeat match goal with
  | H : bind _ _ _ = (Done _, _) |- _ =>
      let a := fresh "a" in let w := fresh "w" in let H1 := fresh "Hm" in
      apply bind_done_inv in H as (a & w & H1 & H)
  | H : lift _ _ = (Done _, _) |- _ =>
      let E := fresh "Hl" in apply lift_done_inv in H as [E ->]
  | H : ret _ _ = (Done _, _) |- _ => apply ret_done_inv in H as [-> ->]
  | H : rbind _ _ = Ok _ |- _ =>
      let a := fresh "a" in let H1 := fresh "Hr" in
      apply rbind_ok_inv in H as (a & H1 & H)
  end.

(** ** Field extraction: the NPI *)

Lemma scan_identifiers_none ids :
  Forall (fun i => identifier_is_npi i = Ok false) ids ->
  scan_identifiers ids = Ok (JStr "0").
Proof.
  induction 1 as [| i ids Hi _ IH]; simpl; [reflexivity |].
  rewrite Hi. simpl. exact IH.
Qed.

Lemma scan_identifiers_first pre idf post :
  Forall (fun i => identifier_is_npi i = Ok false) pre ->
  identifier_is_npi idf = Ok true ->
  scan_identifiers (pre ++ idf :: post) = py_get idf "value" (JStr "0").
Proof.
  induction 1 as [| i pre Hi _ IH]; intros Hidf; simpl.
  - rewrite Hidf. reflexivity.
  - rewrite Hi. simpl. apply IH, Hidf.
Qed.

(** What [identifier_is_npi] decides, on the JSON itself. *)
Lemma has_npi_code_true codes :
  has_npi_code codes = Ok true ->
  exists members, JObj members ∈ codes /\
                  dict_lookup "code" members = Some (JStr "NPI").
Proof.
  induction codes as [| c codes IH]; simpl; [discriminate |].
  intros H. apply rbind_ok_inv in H as (v & Hv & H).
  destruct c as [| | | | | m]; try discriminate. simpl in Hv.
  destruct (py_eq_str v "NPI") eqn:E.
  - exists m. split; [left |].
    destruct v as [| | | s | |]; try discriminate. simpl in E.
    apply String.eqb_eq in E. subst s.
    destruct (dict_lookup "code" m); simpl in Hv; inversion Hv; subst; auto.
  - destruct (IH H) as (m' & Hin & Hc). exists m'. split; [right |]; auto.
Qed.

Lemma identifier_is_npi_true idf :
  identifier_is_npi idf = Ok true ->
  exists members type_members codes code_members,
    idf = JObj members /\
    dict_lookup "type" members = Some (JObj type_members) /\
    py_iter (default (JArr []) (dict_lookup "coding" type_members)) = Ok codes /\
    JObj code_members ∈ codes /\
    dict_lookup "code" code_members = Some (JStr "NPI").
Proof.
  unfold identifier_is_npi. intros H. minv.
  destruct idf as [| | | | | m]; try discriminate. simpl in Hr. inversion Hr; subst a.
  destruct (dict_lookup "type" m) as [ty |] eqn:Ety; simpl in *.
  - destruct ty as [| | | | | tm]; try discriminate. simpl in Hr0.
    inversion Hr0; subst a0.
    apply has_npi_code_true in H as (cm & Hin & Hc).
    exists m, tm, a1, cm. auto.
  - inversion Hr0; subst a0. simpl in Hr1. inversion Hr1; subst a1. discriminate.
Qed.

(** C9.  NPI extraction returns the value of the first identifier whose type
    coding has code "NPI" ("0" if that identifier carries no value), and the
    sentinel "0" when no identifier has such a coding or the practitioner
    data is absent; the identifier with value "1234567890" of the
    specification yields "1234567890". *)
Theorem npi_extraction :
  (forall practitioner_data,
      truthy practitioner_data = false ->
      extract_npi_from_practitioner practitioner_data = Ok (JStr "0")) /\
  (forall members ids,
      members <> [] ->
      default (JArr []) (dict_lookup "identifier" members) = JArr ids ->
      (Forall (fun i => identifier_is_npi i = Ok false) ids ->
       extract_npi_from_practitioner (JObj members) = Ok (JStr "0")) /\
      (forall pre idf post,
          ids = (pre ++ idf :: post)%list ->
          Forall (fun i => identifier_is_npi i = Ok false) pre ->
          identifier_is_npi idf = Ok true ->
          exists idf_members,
            idf = JObj idf_members /\
            extract_npi_from_practitioner (JObj members)
            = Ok (default (JStr "0") (dict_lookup "value" idf_members)))) /\
  extract_npi_from_practitioner
    (JObj [("identifier",
            JArr [JObj [("type", JObj [("coding", JArr [JObj [("code", JStr "NPI")]])]);
                        ("value", JStr "1234567890")]])])
  = Ok (JStr "1234567890").
Proof.
  split; [| split]; [| | reflexivity].
  - intros pd H. unfold extract_npi_from_practitioner. rewrite H. reflexivity.
  - intros members ids Hne Hids.
    assert (Hrun : extract_npi_from_practitioner (JObj members) = scan_identifiers ids).
    { assert (Ht : truthy (JObj members) = true)
        by (destruct members; [congruence | reflexivity]).
      unfold extract_npi_from_practitioner. rewrite Ht.
      cbn [negb py_get rbind]. rewrite Hids. reflexivity. }
    split.
    + intros Hall. rewrite Hrun. apply scan_identifiers_none, Hall.
    + intros pre idf post -> Hpre Hidf. rewrite Hrun.
      rewrite (scan_identifiers_first _ _ _ Hpre Hidf).
      destruct (identifier_is_npi_true _ Hidf) as (m & _ & _ & _ & -> & _).
      exists m. split; reflexivity.
Qed.

Lemma npi_extraction_witness :
  extract_npi_from_practitioner
    (JObj [("name", JArr []);
           ("identifier",
            JArr [JObj [("type", JObj [("coding", JArr [JObj [("code", JStr "TAX")]])]);
                        ("value", JStr "99")];
                  JObj [("type", JObj [("coding", JArr [JObj [("code", JStr "NPI")]])]);
                        ("value", JStr "1234567890")]])])
  = Ok (JStr "1234567890").
Proof.
  set (tax := JObj [("type", JObj [("coding", JArr [JObj [("code", JStr "TAX")]])]);
                    ("value", JStr "99")]).
  set (npi := JObj [("type", JObj [("coding", JArr [JObj [("code", JStr "NPI")]])]);
                    ("value", JStr "1234567890")]).
  destruct npi_extraction as (_ & H & _).
  destruct (H [("name", JArr []); ("identifier", JArr [tax; npi])] [tax; npi])
    as [_ Hfirst]; [discriminate | reflexivity |].
  destruct (Hfirst [tax] npi []) as (m & Hm & Hrun);
    [reflexivity | repeat constructor | reflexivity |].
  inversion Hm; subst m. exact Hrun.
Defined.

Section Properties.

Variable net : Upstream.
Variable urljoin : string -> string -> string.
Variable py_repr : json -> string.

(** ** Resource fetcher *)

Lemma world_eta w : mkWorld (requests w) (trace w) (files w) = w.
Proof. destruct w; reflexivity. Qed.

Lemma fetch_loop_schedule url max_retries : forall n a w,
  (n = 0%nat \/ Z.of_nat (a + n) = max_retries) ->
  exists k body,
    fetch_loop net url max_retries (map Z.of_nat (seq a n)) w
    = (Done body,
       mkWorld (requests w + k)
         (trace w ++ backoff_schedule url (Z.of_nat a) k)%list (files w)) /\
    (k <= n)%nat /\ (n <> 0%nat -> k <> 0%nat) /\
    (forall i, (S i < k)%nat -> net (requests w + i)%nat url = HttpFail) /\
    ((k <> 0%nat /\ net (requests w + (k - 1))%nat url = HttpOk body) \/
     (body = JNull /\ k = n /\
      forall i, (i < n)%nat -> net (requests w + i)%nat url = HttpFail)).
Proof.
  induction n as [| n IH]; intros a w Hn.
  - exists 0%nat, JNull. simpl. unfold ret.
    rewrite Nat.add_0_r, app_nil_r, world_eta.
    repeat split; try lia. right. repeat split; intros; lia.
  - destruct Hn as [Hn | Hn]; [discriminate |].
    cbn [seq map fetch_loop]. unfold requests_get.
    destruct (net (requests w) url) as [b |] eqn:Enet.
    + exists 1%nat, b. cbn [backoff_schedule].
      rewrite Nat.add_1_r. repeat split; try lia.
      left. split; [lia |]. replace (requests w + (1 - 1))%nat with (requests w) by lia.
      exact Enet.
    + destruct (Z.of_nat a <? max_retries - 1)%Z eqn:Elt.
      * apply Z.ltb_lt in Elt.
        set (w1 := mkWorld (S (requests w))
                     ((trace w ++ [EvGet url (Z.of_nat a)]) ++
                      [EvSleep (2 ^ Z.of_nat a)])%list (files w)).
        destruct (IH (S a) w1) as (k & body & Hrun & Hle & Hk & Hfail & Hres);
          [right; lia |].
        assert (Hk0 : k <> 0%nat) by (apply Hk; lia).
        exists (S k), body.
        unfold bind, sleep, emit. cbn [requests trace files]. fold w1.
        rewrite Hrun. subst w1. cbn [requests trace files].
        destruct k as [| k']; [congruence |].
        change (backoff_schedule url (Z.of_nat a) (S (S k')))
          with (EvGet url (Z.of_nat a) :: EvSleep (2 ^ Z.of_nat a)
                  :: backoff_schedule url (Z.of_nat a + 1) (S k')).
        replace (Z.of_nat a + 1)%Z with (Z.of_nat (S a)) by lia.
        rewrite <- !app_assoc. cbn [app].
        replace (S (requests w) + S k')%nat with (requests w + S (S k'))%nat by lia.
        repeat split; try lia.
        -- intros i Hi. destruct i as [| i].
           ++ rewrite Nat.add_0_r. exact Enet.
           ++ replace (requests w + S i)%nat with (S (requests w) + i)%nat by lia.
              apply Hfail. lia.
        -- destruct Hres as [[_ Hok] | (Hb & Hkn & Hall)].
           ++ left. split; [lia |].
              replace (requests w + (S (S k') - 1))%nat
                with (S (requests w) + (S k' - 1))%nat by lia.
              exact Hok.
           ++ right. repeat split; [exact Hb | lia |].
              intros i Hi. destruct i as [| i].
              ** rewrite Nat.add_0_r. exact Enet.
              ** replace (requests w + S i)%nat with (S (requests w) + i)%nat by lia.
                 apply Hall. lia.
      * apply Z.ltb_ge in Elt. assert (n = 0%nat) by lia. subst n.
        exists 1%nat, JNull. cbn [backoff_schedule].
        rewrite Nat.add_1_r. repeat split; try lia.
        right. repeat split. intros i Hi. assert (i = 0%nat) by lia. subst i.
        rewrite Nat.add_0_r. exact Enet.
Qed.

Lemma fetch_schedule url max_retries w :
  exists k body,
    fetch_fhir_resource net url max_retries w
    = (Done body,
       mkWorld (requests w + k) (trace w ++ backoff_schedule url 0 k)%list (files w)) /\
    (k <= Z.to_nat max_retries)%nat /\ (0 < max_retries -> k <> 0%nat) /\
    (forall i, (S i < k)%nat -> net (requests w + i)%nat url = HttpFail) /\
    ((k <> 0%nat /\ net (requests w + (k - 1))%nat url = HttpOk body) \/
     (body = JNull /\ k = Z.to_nat max_retries /\
      forall i, (i < Z.to_nat max_retries)%nat ->
                net (requests w + i)%nat url = HttpFail)).
Proof.
  unfold fetch_fhir_resource, range.
  destruct (fetch_loop_schedule url max_retries (Z.to_nat max_retries) 0 w)
    as (k & body & Hrun & Hle & Hk & Hfail & Hres).
  { destruct (Z.to_nat max_retries) eqn:E; [left; reflexivity | right; lia]. }
  exists k, body. repeat split; auto. intros Hpos. apply Hk. lia.
Qed.

(** The fetcher always returns: it never raises and never runs out of fuel. *)
Lemma fetch_returns url max_retries w :
  exists body w', fetch_fhir_resource net url max_retries w = (Done body, w').
Proof.
  destruct (fetch_schedule url max_retries w) as (k & body & Hrun & _). eauto.
Qed.

(** C5.  A call of the fetcher makes at most [max_retries] attempts; its
    trace is the backoff schedule: a GET per attempt and, between two
    consecutive attempts, a sleep of exactly [2 ^ attempt] seconds, the
    attempts counted from 0.  With the default of three attempts, a fetch
    that fails twice and then succeeds sleeps 1 and then 2 seconds and
    returns the body of the third response. *)
Theorem fetch_retry_backoff :
  (forall url max_retries w,
      exists k body,
        fetch_fhir_resource net url max_retries w
        = (Done body,
           mkWorld (requests w + k)
             (trace w ++ backoff_schedule url 0 k)%list (files w)) /\
        Z.of_nat k <= Z.max 0 max_retries /\
        (forall i, (S i < k)%nat -> net (requests w + i)%nat url = HttpFail)) /\
  (forall url w body,
      net (requests w) url = HttpFail ->
      net (requests w + 1)%nat url = HttpFail ->
      net (requests w + 2)%nat url = HttpOk body ->
      fetch_fhir_resource net url 3 w
      = (Done body,
         mkWorld (requests w + 3)
           (trace w ++ [EvGet url 0; EvSleep 1; EvGet url 1; EvSleep 2; EvGet url 2])%list
           (files w))).
Proof.
  split.
  - intros url max_retries w.
    destruct (fetch_schedule url max_retries w) as (k & body & Hrun & Hle & _ & Hfail & _).
    exists k, body. repeat split; auto. lia.
  - intros url w body H0 H1 H2.
    unfold fetch_fhir_resource. change (range 3) with [0; 1; 2].
    cbn [fetch_loop]. unfold requests_get at 1. rewrite H0.
    change (0 <? 3 - 1)%Z with true. cbv iota.
    unfold bind at 1. unfold sleep, emit. cbn [requests trace files].
    unfold requests_get at 1. cbn [requests trace files].
    rewrite <- (Nat.add_1_r (requests w)), H1.
    change (1 <? 3 - 1)%Z with true. cbv iota.
    unfold bind at 1. cbn [requests trace files].
    unfold requests_get at 1. cbn [requests trace files].
    replace (S (requests w + 1)) with (requests w + 2)%nat by lia. rewrite H2.
    rewrite <- !app_assoc. cbn [app].
    replace (S (requests w + 2)) with (requests w + 3)%nat by lia. reflexivity.
Qed.

Lemma fetch_all_fail url max_retries w :
  (forall i : nat, Z.of_nat i < max_retries -> net (requests w + i)%nat url = HttpFail) ->
  exists w', fetch_fhir_resource net url max_retries w = (Done JNull, w').
Proof.
  intros Hfail.
  destruct (fetch_schedule url max_retries w)
    as (k & body & Hrun & Hle & _ & _ & [[Hk Hok] | (-> & _)]).
  - rewrite Hfail in Hok by lia. discriminate.
  - eauto.
Qed.

(** C6.  When every attempt fails the fetcher returns [None], it does not
    raise; its callers go on: the resolver leaves the cache as it was and the
    relationship row is still recorded, the practitioner row carries the
    sentinel NPI and empty names, and the paginator returns what it had
    accumulated. *)
Theorem fetch_exhausted_is_absent :
  (forall url max_retries w,
      (forall i : nat, Z.of_nat i < max_retries ->
                       net (requests w + i)%nat url = HttpFail) ->
      exists w', fetch_fhir_resource net url max_retries w = (Done JNull, w')) /\
  (forall url w,
      (forall i : nat, (i < 3)%nat -> net (requests w + i)%nat url = HttpFail) ->
      exists w',
        fetch_fhir_resource net url 3 w = (Done JNull, w') /\
        (forall base_url cache ref,
            urljoin base_url ref = url ->
            cache_mem (split_last ref) cache = false ->
            resolve net urljoin base_url cache ref w = (Done cache, w')) /\
        (forall base_url pr_id t org_ref,
            urljoin base_url org_ref = url ->
            cache_mem (split_last org_ref) (organizations t) = false ->
            exists t',
              add_organization net urljoin py_repr base_url pr_id t org_ref w
              = (Done t', w') /\
              organizations t' = organizations t /\
              org_to_pr_rows t'
              = (org_to_pr_rows t ++
                   [{| otp_practitioner_role_fhir_url :=
                         pr_url urljoin py_repr base_url pr_id;
                       otp_organization_fhir_url := url;
                       otp_organization_reference := org_ref |}])%list) /\
        (forall base_url pr_id t pr_members p_members ref,
            dict_lookup "practitioner" pr_members = Some (JObj p_members) ->
            dict_lookup "reference" p_members = Some (JStr ref) ->
            String.prefix "Practitioner/" ref = true ->
            urljoin base_url ref = url ->
            cache_mem (split_last ref) (practitioners t) = false ->
            exists t',
              process_practitioner net urljoin py_repr base_url pr_id t (JObj pr_members) w
              = (Done t', w') /\
              practitioners t' = practitioners t /\
              p_to_pr_rows t'
              = (p_to_pr_rows t ++
                   [{| ptp_practitioner_role_fhir_url :=
                         pr_url urljoin py_repr base_url pr_id;
                       ptp_practitioner_fhir_url := url;
                       ptp_practitioner_reference := ref;
                       ptp_npi := JStr "0";
                       ptp_is_npi_invalid := "?";
                       ptp_family_name := JStr "";
                       ptp_given_name := "" |}])%list) /\
        (forall fuel test_mode test_limit next_url all_entries,
            truthy next_url = true ->
            py_str py_repr next_url = url ->
            page_loop net py_repr (S fuel) test_mode test_limit next_url all_entries w
            = (Done all_entries, w'))).
Proof.
  split; [exact fetch_all_fail |].
  intros url w Hfail.
  destruct (fetch_all_fail url 3 w) as (w' & Hrun); [intros i Hi; apply Hfail; lia |].
  exists w'. split; [exact Hrun |].
  assert (Hres : forall base_url cache ref,
             urljoin base_url ref = url ->
             cache_mem (split_last ref) cache = false ->
             resolve net urljoin base_url cache ref w = (Done cache, w')).
  { intros base_url cache ref Hurl Hmiss. unfold resolve. rewrite Hmiss, Hurl.
    unfold bind. rewrite Hrun. reflexivity. }
  split; [exact Hres |]. split; [| split].
  - intros base_url pr_id t org_ref Hurl Hmiss.
    eexists. unfold add_organization, bind. rewrite (Hres _ _ _ Hurl Hmiss).
    unfold ret. rewrite Hurl. split; [reflexivity |]. split; reflexivity.
  - intros base_url pr_id t pr_members p_members ref Hp Href Hpre Hurl Hmiss.
    assert (Hne : truthy (JStr ref) = true).
    { destruct ref; [discriminate | reflexivity]. }
    assert (Hlook : dict_lookup (split_last ref) (practitioners t) = None).
    { revert Hmiss. unfold cache_mem.
      destruct (dict_lookup (split_last ref) (practitioners t));
        [intros Hd; discriminate Hd | reflexivity]. }
    eexists. unfold process_practitioner.
    unfold py_get at 1. rewrite Hp. unfold lift at 1, bind at 1. cbn [default id].
    unfold py_get at 1. rewrite Href. unfold lift at 1, bind at 1. cbn [default id].
    rewrite Hne. unfold str_method, lift at 1, bind at 1. rewrite Hpre.
    unfold bind at 1. rewrite (Hres _ _ _ Hurl Hmiss). rewrite Hlook.
    cbn. rewrite Hurl. split; [reflexivity |]. split; reflexivity.
  - intros fuel test_mode test_limit next_url all_entries Ht Hurl.
    cbn [page_loop]. rewrite Ht, Hurl. unfold bind. rewrite Hrun. reflexivity.
Qed.

(** ** Frame reasoning: what a computation leaves alone *)

#[local] Instance net_only_refl : Reflexive net_only.
Proof.
  intros w. split; [reflexivity |]. exists []. rewrite app_nil_r. split; constructor.
Qed.

#[local] Instance net_only_trans : Transitive net_only.
Proof.
  intros w1 w2 w3 [Hf1 (e1 & Ht1 & He1)] [Hf2 (e2 & Ht2 & He2)]. split; [congruence |].
  exists (e1 ++ e2)%list. split.
  - rewrite Ht2, Ht1, app_assoc. reflexivity.
  - apply Forall_app. split; assumption.
Qed.

#[local] Instance agree_outside_refl S : Reflexive (agree_outside S).
Proof. intros w path _. reflexivity. Qed.

#[local] Instance agree_outside_trans S : Transitive (agree_outside S).
Proof.
  intros w1 w2 w3 H1 H2 path Hp. rewrite (H2 path Hp). apply H1, Hp.
Qed.

Lemma net_only_agree S w w' : net_only w w' -> agree_outside S w w'.
Proof. intros [Hf _] path _. rewrite Hf. reflexivity. Qed.

Lemma preserves_ret {A} R `{!Reflexive R} (a : A) : preserves R (ret a).
Proof. intros w. simpl. reflexivity. Qed.

Lemma preserves_lift {A} R `{!Reflexive R} (r : result A) : preserves R (lift r).
Proof. intros w. unfold lift. destruct r; simpl; reflexivity. Qed.

Lemma preserves_fail {A} R `{!Reflexive R} :
  preserves R (fun w => (@OutOfFuel A, w)).
Proof. intros w. simpl. reflexivity. Qed.

Lemma preserves_bind {A B} R `{!Transitive R} (m : M A) (k : A -> M B) :
  preserves R m -> (forall a, preserves R (k a)) -> preserves R (bind m k).
Proof.
  intros Hm Hk w. unfold bind. specialize (Hm w).
  destruct (m w) as [[a | e |] w1]; simpl in *; auto.
  etransitivity; [exact Hm | apply Hk].
Qed.

Lemma preserves_foldM {A S} R `{!Reflexive R} `{!Transitive R}
    (f : S -> A -> M S) xs :
  (forall s x, preserves R (f s x)) -> forall s, preserves R (foldM f xs s).
Proof.
  intros Hf. induction xs as [| x xs IH]; intros s; simpl.
  - apply preserves_ret; assumption.
  - apply preserves_bind; auto.
Qed.

Lemma preserves_weaken {A} (R R' : World -> World -> Prop) (m : M A) :
  (forall w w', R w w' -> R' w w') -> preserves R m -> preserves R' m.
Proof. intros HR Hm w. apply HR, Hm. Qed.

(** Splits a goal [preserves R m] along the structure of [m]. *)
Ltac pres :=
  repeat first
    [ apply preserves_ret; try exact _
    | apply preserves_lift; try exact _
    | apply preserves_fail; try exact _
    | apply preserves_bind; [try exact _ | | intros ?]
    | apply preserves_foldM; [try exact _ | try exact _ | intros ? ?]
    | match goal with
      | |- preserves _ (if ?b then _ else _) => destruct b
      | |- preserves _ (match ?x with _ => _ end) => destruct x
      end ].

Lemma backoff_schedule_net url : forall k a, Forall is_net_event (backoff_schedule url a k).
Proof.
  induction k as [| k IH]; intros a; [constructor |].
  destruct k as [| k']; cbn [backoff_schedule].
  - repeat constructor.
  - constructor; [exact I |]. constructor; [exact I |]. apply IH.
Qed.

Lemma fetch_net_only url max_retries :
  preserves net_only (fetch_fhir_resource net url max_retries).
Proof.
  intros w. destruct (fetch_schedule url max_retries w) as (k & body & Hrun & _).
  rewrite Hrun. cbn [snd]. split; [reflexivity |].
  eexists. split; [reflexivity |]. apply backoff_schedule_net.
Qed.

Lemma page_loop_net_only test_mode test_limit : forall fuel next_url all_entries,
  preserves net_only (page_loop net py_repr fuel test_mode test_limit next_url all_entries).
Proof.
  induction fuel as [| fuel IH]; intros next_url all_entries; cbn [page_loop].
  - destruct (truthy next_url); pres.
  - destruct (truthy next_url); [| pres].
    apply preserves_bind; [exact _ | apply fetch_net_only | intros bundle].
    destruct (negb (truthy bundle)); [pres |].
    apply preserves_bind; [exact _ | pres | intros entries].
    apply preserves_bind; [exact _ | pres | intros items].
    apply preserves_bind; [exact _ | pres | intros all'].
    destruct (test_mode && _); [pres |].
    apply preserves_bind; [exact _ | pres | intros links].
    apply preserves_bind; [exact _ | pres | intros links'].
    apply preserves_bind; [exact _ | pres | intros next]. apply IH.
Qed.

Lemma paginator_net_only fuel base_url test_mode test_limit :
  preserves net_only
    (fetch_all_practitioner_roles net urljoin py_repr fuel base_url test_mode test_limit).
Proof. unfold fetch_all_practitioner_roles. apply page_loop_net_only. Qed.

Lemma resolve_net_only base_url cache ref :
  preserves net_only (resolve net urljoin base_url cache ref).
Proof.
  unfold resolve. destruct (cache_mem _ cache); [pres |].
  apply preserves_bind; [exact _ | apply fetch_net_only | intros; pres].
Qed.

Lemma add_organization_net_only base_url pr_id t org_ref :
  preserves net_only (add_organization net urljoin py_repr base_url pr_id t org_ref).
Proof.
  unfold add_organization.
  apply preserves_bind; [exact _ | apply resolve_net_only | intros; pres].
Qed.

Lemma process_role_net_only base_url t pr :
  preserves net_only (process_role net urljoin py_repr base_url t pr).
Proof.
  unfold process_role.
  apply preserves_bind; [exact _ | pres | intros pr_id].
  apply preserves_bind; [exact _ | pres | intros exts].
  apply preserves_bind; [exact _ | pres | intros exts'].
  apply preserves_bind; [exact _ | | intros t1].
  { apply preserves_foldM; [exact _ | exact _ | intros s x].
    unfold process_extension.
    apply preserves_bind; [exact _ | pres | intros u].
    destruct (py_eq_str u network_reference); [| pres].
    apply preserves_bind; [exact _ | pres | intros vr].
    apply preserves_bind; [exact _ | pres | intros r].
    apply preserves_bind; [exact _ | pres | intros r'].
    destruct (String.prefix _ r'); [apply add_organization_net_only | pres]. }
  apply preserves_bind; [exact _ | | intros t2].
  { unfold process_organization.
    apply preserves_bind; [exact _ | pres | intros o].
    apply preserves_bind; [exact _ | pres | intros r].
    destruct (truthy r); [| pres].
    apply preserves_bind; [exact _ | pres | intros r'].
    destruct (String.prefix _ r'); [apply add_organization_net_only | pres]. }
  apply preserves_bind; [exact _ | | intros t3].
  { unfold process_practitioner.
    apply preserves_bind; [exact _ | pres | intros o].
    apply preserves_bind; [exact _ | pres | intros r].
    destruct (truthy r); [| pres].
    apply preserves_bind; [exact _ | pres | intros r'].
    destruct (String.prefix _ r'); [| pres].
    apply preserves_bind; [exact _ | apply resolve_net_only | intros; pres]. }
  apply preserves_bind; [exact _ | pres | intros locs].
  apply preserves_bind; [exact _ | pres | intros locs'].
  apply preserves_bind; [exact _ | | intros t4; pres].
  apply preserves_foldM; [exact _ | exact _ | intros s x].
  unfold process_location.
  apply preserves_bind; [exact _ | pres | intros r].
  destruct (truthy r); [| pres].
  apply preserves_bind; [exact _ | pres | intros r'].
  destruct (String.prefix _ r'); [| pres].
  apply preserves_bind; [exact _ | apply resolve_net_only | intros; pres].
Qed.

Lemma collect_tables_net_only base_url roles :
  preserves net_only (collect_tables net urljoin py_repr base_url roles).
Proof.
  unfold collect_tables. apply preserves_foldM; [exact _ | exact _ |].
  intros s x. apply process_role_net_only.
Qed.

Lemma preserves_bind_lift {A B} R `{!Reflexive R} (r : result A) (k : A -> M B) :
  (forall a, r = Ok a -> preserves R (k a)) -> preserves R (bind (lift r) k).
Proof.
  intros Hk w. unfold bind, lift. destruct r as [a | e]; simpl.
  - apply Hk. reflexivity.
  - reflexivity.
Qed.

Lemma write_csv_frame (S : string -> Prop) path fieldnames rows :
  S path -> preserves (agree_outside S) (write_csv path fieldnames rows).
Proof.
  intros HS w other Hother. unfold write_csv. cbn [snd files].
  apply lookup_insert_ne. intros ->. contradiction.
Qed.

Lemma write_tables_frame base_url output_dir t :
  preserves
    (agree_outside (fun path => exists file, file ∈ table_files /\
                                             path = table_path output_dir file))
    (write_tables urljoin base_url output_dir t).
Proof.
  assert (Hin : forall file, file ∈ table_files ->
            exists f, f ∈ table_files /\ table_path output_dir file = table_path output_dir f)
    by eauto.
  unfold write_tables.
  repeat first
    [ apply write_csv_frame; apply Hin; unfold table_files; repeat constructor
    | apply preserves_lift; exact _
    | apply preserves_bind; [exact _ | | intros ?] ].
Qed.

Lemma process_payer_frame fuel p test_mode test_limit :
  preserves (agree_outside (payer_paths test_mode p))
    (process_payer net urljoin py_repr fuel p test_mode test_limit).
Proof.
  unfold process_payer.
  apply preserves_bind_lift; [exact _ | intros name Hname].
  apply preserves_bind_lift; [exact _ | intros stub Hstub].
  apply preserves_bind_lift; [exact _ | intros url Hurl].
  apply preserves_bind; [exact _ | | intros _].
  { intros w. intros path _. reflexivity. }
  apply preserves_bind; [exact _ | | intros roles].
  { eapply preserves_weaken; [apply net_only_agree | apply paginator_net_only]. }
  destruct roles as [| r roles]; [apply preserves_ret; exact _ |].
  apply preserves_bind; [exact _ | | intros t].
  { eapply preserves_weaken; [apply net_only_agree | apply collect_tables_net_only]. }
  eapply preserves_weaken; [| apply write_tables_frame].
  intros w w' H path Hpath. apply H. intros (file & Hfile & ->). apply Hpath.
  exists stub, file. repeat split; auto.
  unfold payer_item in Hstub. destruct (payer_lookup "payer_stub" p); congruence.
Qed.

(** ** Paths of distinct output directories *)

Lemma append_cons x a b : String x a +:+ b = String x (a +:+ b).
Proof. reflexivity. Qed.

Lemma occurs_append c a b : occurs c (a +:+ String c b) = true.
Proof.
  induction a as [| c' a IH].
  - change ("" +:+ String c b) with (String c b). cbn [occurs].
    rewrite Ascii.eqb_refl. reflexivity.
  - rewrite append_cons. cbn [occurs]. rewrite IH. apply orb_true_r.
Qed.

Lemma append_assoc_str a b c : (a +:+ b) +:+ c = a +:+ (b +:+ c).
Proof.
  induction a as [| x a IH]; [reflexivity |].
  rewrite !append_cons, IH. reflexivity.
Qed.

Lemma append_inj_l p a b : p +:+ a = p +:+ b -> a = b.
Proof.
  induction p as [| c p IH]; intros H; [exact H |].
  rewrite !append_cons in H. inversion H; auto.
Qed.

Lemma append_slash_inj : forall s1 s2 f1 f2,
  occurs "/" f1 = false -> occurs "/" f2 = false ->
  s1 +:+ String "/" f1 = s2 +:+ String "/" f2 -> s1 = s2 /\ f1 = f2.
Proof.
  induction s1 as [| c s1 IH]; intros [| c' s2] f1 f2 H1 H2 H;
    rewrite ?append_cons in H; change ("" +:+ ?x) with x in H.
  - inversion H; auto.
  - inversion H; subst. rewrite occurs_append in H1. discriminate.
  - inversion H; subst. rewrite occurs_append in H2. discriminate.
  - inversion H; subst. destruct (IH s2 f1 f2 H1 H2) as [-> ->]; auto.
Qed.

Lemma table_file_no_slash file : file ∈ table_files -> occurs "/" file = false.
Proof.
  unfold table_files. intros H.
  repeat (apply elem_of_cons in H; destruct H as [-> | H]; [reflexivity |]).
  apply elem_of_nil in H. contradiction.
Qed.

Lemma table_path_inj test_mode stub1 stub2 file1 file2 :
  file1 ∈ table_files -> file2 ∈ table_files ->
  table_path (output_dir_of test_mode stub1) file1
  = table_path (output_dir_of test_mode stub2) file2 ->
  stub1 = stub2 /\ file1 = file2.
Proof.
  intros H1 H2. unfold table_path, output_dir_of.
  destruct test_mode; rewrite !append_assoc_str; intros H;
    apply append_inj_l in H;
    apply append_slash_inj in H; auto using table_file_no_slash.
Qed.

(** ** A crawl without records *)

Lemma endswith_slash_append s : endswith_slash (s +:+ "/") = true.
Proof.
  induction s as [| c s IH]; [reflexivity |].
  rewrite append_cons. destruct (s +:+ "/") eqn:E.
  - destruct s; discriminate.
  - exact IH.
Qed.

Lemma normalize_base_idem s : normalize_base (normalize_base s) = normalize_base s.
Proof.
  unfold normalize_base. destruct (endswith_slash s) eqn:E.
  - rewrite E. reflexivity.
  - rewrite endswith_slash_append. reflexivity.
Qed.

Lemma process_payer_prelude fuel p test_mode test_limit w name stub url :
  payer_lookup "payer_name" p = Some name ->
  payer_lookup "payer_stub" p = Some stub ->
  payer_lookup "payer_provider_directory_fhir_url" p = Some url ->
  process_payer net urljoin py_repr fuel p test_mode test_limit w
  = (let! practitioner_roles :=
       fetch_all_practitioner_roles net urljoin py_repr fuel (normalize_base url)
         test_mode test_limit in
     match practitioner_roles with
     | [] => ret tt
     | _ :: _ =>
         let! t := collect_tables net urljoin py_repr (normalize_base url)
                     practitioner_roles in
         write_tables urljoin (normalize_base url) (output_dir_of test_mode stub) t
     end)
      (mkWorld (requests w)
         (trace w ++ [EvMkdir (output_dir_of test_mode stub)])%list (files w)).
Proof.
  intros Hname Hstub Hurl. unfold process_payer, payer_item.
  rewrite Hname, Hstub, Hurl. reflexivity.
Qed.

(** A crawl that returns no record ends the run of the payer: the files are
    those from before and none was opened. *)
Lemma process_payer_empty_crawl fuel p test_mode test_limit w name stub url w2 :
  payer_lookup "payer_name" p = Some name ->
  payer_lookup "payer_stub" p = Some stub ->
  payer_lookup "payer_provider_directory_fhir_url" p = Some url ->
  fetch_all_practitioner_roles net urljoin py_repr fuel (normalize_base url)
    test_mode test_limit
    (mkWorld (requests w)
       (trace w ++ [EvMkdir (output_dir_of test_mode stub)])%list (files w))
  = (Done [], w2) ->
  process_payer net urljoin py_repr fuel p test_mode test_limit w = (Done tt, w2) /\
  files w2 = files w /\
  (forall path, EvOpenW path ∈ trace w2 -> EvOpenW path ∈ trace w).
Proof.
  intros Hname Hstub Hurl Hcrawl.
  rewrite (process_payer_prelude _ _ _ _ _ _ _ _ Hname Hstub Hurl).
  unfold bind at 1. rewrite Hcrawl. split; [reflexivity |].
  pose proof (paginator_net_only fuel (normalize_base url) test_mode test_limit
                (mkWorld (requests w)
                   (trace w ++ [EvMkdir (output_dir_of test_mode stub)])%list (files w)))
    as [Hfiles (evs & Htrace & Hevs)].
  rewrite Hcrawl in Hfiles, Htrace. cbn [snd files trace] in Hfiles, Htrace.
  split; [exact Hfiles |].
  intros path Hin. rewrite Htrace in Hin.
  rewrite !elem_of_app in Hin. destruct Hin as [[Hin | Hin] | Hin].
  - exact Hin.
  - apply list_elem_of_singleton in Hin. discriminate.
  - rewrite Forall_forall in Hevs. apply Hevs in Hin. contradiction.
Qed.

(** C10.  When the crawl of a payer yields no PractitionerRole,
    [process_payer] returns before it opens any output file: the files on
    disk are those from before the run.  This is the case when the first
    page cannot be fetched and when the collection is empty. *)
Theorem no_records_leaves_files :
  forall fuel p test_mode test_limit w name stub url,
    payer_lookup "payer_name" p = Some name ->
    payer_lookup "payer_stub" p = Some stub ->
    payer_lookup "payer_provider_directory_fhir_url" p = Some url ->
    let w1 := mkWorld (requests w)
                (trace w ++ [EvMkdir (output_dir_of test_mode stub)])%list (files w) in
    let first_page := urljoin (normalize_base url) "PractitionerRole?_count=100" in
    (forall w2,
        fetch_all_practitioner_roles net urljoin py_repr fuel (normalize_base url)
          test_mode test_limit w1 = (Done [], w2) ->
        process_payer net urljoin py_repr fuel p test_mode test_limit w = (Done tt, w2) /\
        files w2 = files w /\
        (forall path, EvOpenW path ∈ trace w2 -> EvOpenW path ∈ trace w)) /\
    (fuel <> 0%nat ->
     (forall i, (i < 3)%nat -> net (requests w + i)%nat first_page = HttpFail) ->
     exists w2,
       fetch_all_practitioner_roles net urljoin py_repr fuel (normalize_base url)
         test_mode test_limit w1 = (Done [], w2)) /\
    (fuel <> 0%nat ->
     forall members,
       members <> [] ->
       net (requests w) first_page = HttpOk (JObj members) ->
       default (JArr []) (dict_lookup "entry" members) = JArr [] ->
       default (JArr []) (dict_lookup "link" members) = JArr [] ->
       exists w2,
         fetch_all_practitioner_roles net urljoin py_repr fuel (normalize_base url)
           test_mode test_limit w1 = (Done [], w2)).
Proof.
  intros fuel p test_mode test_limit w name stub url Hname Hstub Hurl w1 first_page.
  split; [| split].
  - intros w2 Hcrawl. eapply process_payer_empty_crawl; eauto.
  - intros Hfuel Hfail. unfold fetch_all_practitioner_roles.
    rewrite normalize_base_idem. fold first_page.
    destruct fuel as [| fuel]; [congruence |]. cbn [page_loop].
    destruct (truthy (JStr first_page)) eqn:Ht; [| eexists; reflexivity].
    destruct (fetch_all_fail first_page 3 w1) as (w2 & Hrun).
    { intros i Hi. apply Hfail. lia. }
    exists w2. unfold bind. cbn [py_str]. rewrite Hrun. reflexivity.
  - intros Hfuel members Hne Hok Hentry Hlink. unfold fetch_all_practitioner_roles.
    rewrite normalize_base_idem. fold first_page.
    destruct fuel as [| fuel]; [congruence |]. cbn [page_loop].
    destruct (truthy (JStr first_page)) eqn:Ht; [| eexists; reflexivity].
    destruct (fetch_schedule first_page 3 w1)
      as (k & body & Hrun & Hle & Hk & Hfail & Hres).
    assert (Hbody : body = JObj members).
    { destruct k as [| k]; [exfalso; apply Hk; [lia | reflexivity] |].
      destruct k as [| k].
      - destruct Hres as [[_ Hres] | (_ & Hk3 & _)]; [| discriminate].
        cbn in Hres. rewrite Nat.add_0_r in Hres. congruence.
      - specialize (Hfail 0%nat ltac:(lia)). cbn in Hfail.
        rewrite Nat.add_0_r in Hfail. congruence. }
    subst body. cbn [py_str]. unfold bind at 1. rewrite Hrun.
    assert (Htm : truthy (JObj members) = true)
      by (destruct members; [congruence | reflexivity]).
    rewrite Htm. cbn [negb]. unfold py_get. rewrite Hentry, Hlink.
    cbn [lift bind py_iter collect_entries length Z.of_nat].
    destruct (test_mode && (test_limit <=? Z.of_nat 0)%Z); [eexists; reflexivity |].
    cbn [lift bind py_iter find_next]. destruct fuel; eexists; reflexivity.
Qed.

(** ** Orchestrator: failure isolation *)

Lemma main_loop_step_raise fuel test_mode test_limit p rest w e w' :
  process_payer net urljoin py_repr fuel p test_mode test_limit w = (Raise e, w') ->
  main_loop net urljoin py_repr fuel (p :: rest) test_mode test_limit w
  = main_loop net urljoin py_repr fuel rest test_mode test_limit (reported p e w').
Proof. intros H. cbn [main_loop]. rewrite H. reflexivity. Qed.

Lemma main_loop_app fuel test_mode test_limit : forall before rest w0 wA,
  main_loop net urljoin py_repr fuel before test_mode test_limit w0 = (Done tt, wA) ->
  main_loop net urljoin py_repr fuel (before ++ rest) test_mode test_limit w0
  = main_loop net urljoin py_repr fuel rest test_mode test_limit wA.
Proof.
  induction before as [| p before IH]; intros rest w0 wA H.
  - apply ret_done_inv in H as [_ ->]. reflexivity.
  - cbn [app main_loop] in *.
    destruct (process_payer net urljoin py_repr fuel p test_mode test_limit w0)
      as [[u | e |] w1].
    + apply IH, H.
    + unfold bind, emit in *. apply IH, H.
    + discriminate.
Qed.

Lemma main_loop_never_raises fuel test_mode test_limit : forall payers w e,
  fst (main_loop net urljoin py_repr fuel payers test_mode test_limit w) <> Raise e.
Proof.
  induction payers as [| p payers IH]; intros w e; cbn [main_loop].
  - discriminate.
  - destruct (process_payer net urljoin py_repr fuel p test_mode test_limit w)
      as [[u | e' |] w1].
    + apply IH.
    + unfold bind, emit. apply IH.
    + discriminate.
Qed.


(** ** Relational writer *)

Lemma write_csv_done_inv path fieldnames rows w a w' :
  write_csv path fieldnames rows w = (Done a, w') ->
  w' = mkWorld (requests w) (trace w ++ [EvOpenW path])%list
         (<[path := table_content fieldnames rows]> (files w)).
Proof. unfold write_csv. intros H. inversion H. reflexivity. Qed.

Lemma table_path_ne output_dir file1 file2 :
  file1 <> file2 -> table_path output_dir file1 <> table_path output_dir file2.
Proof.
  unfold table_path. intros Hne H. apply append_inj_l in H.
  rewrite !append_cons in H. inversion H. contradiction.
Qed.

(** What a completed write phase leaves: seven files opened in the order of
    [table_files], each holding the content of its table, every other file
    as before. *)
Lemma write_tables_done base_url output_dir t w w' :
  write_tables urljoin base_url output_dir t w = (Done tt, w') ->
  exists org_rows location_rows,
    rfold (org_row_of urljoin base_url) (organizations t) [] = Ok org_rows /\
    rfold (location_row_of urljoin base_url) (locations t) [] = Ok location_rows /\
    requests w' = requests w /\
    trace w' = (trace w ++ map (fun f => EvOpenW (table_path output_dir f)) table_files)%list /\
    map (fun x => fst (fst x)) (table_rows t org_rows location_rows) = table_files /\
    Forall (fun x => files w' !! table_path output_dir (fst (fst x))
                     = Some (table_content (snd (fst x)) (snd x)))
      (table_rows t org_rows location_rows) /\
    (forall path,
        (forall file, file ∈ table_files -> path <> table_path output_dir file) ->
        files w' !! path = files w !! path).
Proof.
  unfold write_tables. intros H. minv.
  repeat match goal with
  | Hw : write_csv _ _ _ _ = (Done _, _) |- _ => apply write_csv_done_inv in Hw
  end.
  subst. do 2 eexists. cbn [requests trace files].
  split; [eassumption |]. split; [eassumption |]. split; [reflexivity |].
  split; [rewrite <- !app_assoc; reflexivity |]. split; [reflexivity |].
  change (output_dir +:+ "/org_to_pr.csv") with (table_path output_dir "org_to_pr.csv").
  change (output_dir +:+ "/org.csv") with (table_path output_dir "org.csv").
  change (output_dir +:+ "/location_to_pr.csv")
    with (table_path output_dir "location_to_pr.csv").
  change (output_dir +:+ "/location.csv") with (table_path output_dir "location.csv").
  change (output_dir +:+ "/p_to_pr.csv") with (table_path output_dir "p_to_pr.csv").
  change (output_dir +:+ "/spec_to_pr.csv") with (table_path output_dir "spec_to_pr.csv").
  change (output_dir +:+ "/tele_to_pr.csv") with (table_path output_dir "tele_to_pr.csv").
  split.
  - unfold table_rows.
    repeat (apply Forall_cons; split;
            [cbn [fst snd];
             repeat (rewrite lookup_insert_ne by (apply table_path_ne; discriminate));
             apply lookup_insert_eq |]).
    apply Forall_nil. exact I.
  - intros path Hpath.
    repeat (rewrite lookup_insert_ne
              by (intros <-; eapply Hpath; [| reflexivity]; unfold table_files;
                  repeat constructor)).
    reflexivity.
Qed.

Lemma emit_done_inv e w a w' :
  emit e w = (Done a, w') ->
  w' = mkWorld (requests w) (trace w ++ [e])%list (files w).
Proof. unfold emit. intros H. inversion H. reflexivity. Qed.

Lemma payer_item_ok p k v : payer_item p k = Ok v -> payer_lookup k p = Some v.
Proof. unfold payer_item. destruct (payer_lookup k p); congruence. Qed.

(** The phases of a completed run of one payer. *)
Lemma process_payer_done_inv fuel p test_mode test_limit w w' :
  process_payer net urljoin py_repr fuel p test_mode test_limit w = (Done tt, w') ->
  exists name stub url roles w1,
    payer_lookup "payer_name" p = Some name /\
    payer_lookup "payer_stub" p = Some stub /\
    payer_lookup "payer_provider_directory_fhir_url" p = Some url /\
    fetch_all_practitioner_roles net urljoin py_repr fuel (normalize_base url)
      test_mode test_limit
      (mkWorld (requests w)
         (trace w ++ [EvMkdir (output_dir_of test_mode stub)])%list (files w))
    = (Done roles, w1) /\
    (roles = [] /\ w' = w1 \/
     roles <> [] /\
     exists t w2,
       collect_tables net urljoin py_repr (normalize_base url) roles w1 = (Done t, w2) /\
       write_tables urljoin (normalize_base url) (output_dir_of test_mode stub) t w2
       = (Done tt, w')).
Proof.
  unfold process_payer. intros H. minv.
  apply payer_item_ok in Hl, Hl0, Hl1.
  apply emit_done_inv in Hm2. subst.
  do 5 eexists. repeat (split; [eassumption |]).
  destruct a3 as [| r roles].
  - left. apply ret_done_inv in H as [_ ->]. auto.
  - right. split; [discriminate |]. minv. eauto.
Qed.

(** C4, as the code has it.  A run that collected at least one
    PractitionerRole and completed has opened for writing exactly the seven
    files of [table_files], in that order; each of them holds the content of
    its table, which is the header of its fieldnames followed by the rows
    when there is a row and nothing at all when there is none; no other file
    changed. *)
Theorem writer_emits_seven_tables :
  forall fuel p test_mode test_limit w w',
    process_payer net urljoin py_repr fuel p test_mode test_limit w = (Done tt, w') ->
    exists stub url roles w1,
      payer_lookup "payer_stub" p = Some stub /\
      payer_lookup "payer_provider_directory_fhir_url" p = Some url /\
      fetch_all_practitioner_roles net urljoin py_repr fuel (normalize_base url)
        test_mode test_limit
        (mkWorld (requests w)
           (trace w ++ [EvMkdir (output_dir_of test_mode stub)])%list (files w))
      = (Done roles, w1) /\
      (roles <> [] ->
       exists t w2 org_rows location_rows,
         collect_tables net urljoin py_repr (normalize_base url) roles w1 = (Done t, w2) /\
         rfold (org_row_of urljoin (normalize_base url)) (organizations t) []
         = Ok org_rows /\
         rfold (location_row_of urljoin (normalize_base url)) (locations t) []
         = Ok location_rows /\
         trace w'
         = (trace w2 ++
              map (fun f => EvOpenW (table_path (output_dir_of test_mode stub) f))
                table_files)%list /\
         (forall path, EvOpenW path ∈ trace w2 -> EvOpenW path ∈ trace w) /\
         length table_files = 7%nat /\
         map (fun x => fst (fst x)) (table_rows t org_rows location_rows) = table_files /\
         Forall (fun x =>
                   files w' !! table_path (output_dir_of test_mode stub) (fst (fst x))
                   = Some (table_content (snd (fst x)) (snd x)))
           (table_rows t org_rows location_rows) /\
         (forall path,
             (forall file, file ∈ table_files ->
                           path <> table_path (output_dir_of test_mode stub) file) ->
             files w' !! path = files w !! path)).
Proof.
  intros fuel p test_mode test_limit w w' Hrun.
  destruct (process_payer_done_inv _ _ _ _ _ _ Hrun)
    as (name & stub & url & roles & w1 & _ & Hstub & Hurl & Hcrawl & Hrest).
  exists stub, url, roles, w1. repeat (split; [assumption |]).
  intros Hne. destruct Hrest as [[-> _] | (_ & t & w2 & Hcollect & Hwrite)];
    [congruence |].
  destruct (write_tables_done _ _ _ _ _ Hwrite)
    as (org_rows & location_rows & Horg & Hloc & _ & Htrace & Hnames & Hfiles & Hother).
  pose proof (paginator_net_only fuel (normalize_base url) test_mode test_limit
                (mkWorld (requests w)
                   (trace w ++ [EvMkdir (output_dir_of test_mode stub)])%list (files w)))
    as [Hf1 (ev1 & Ht1 & He1)].
  rewrite Hcrawl in Hf1, Ht1. cbn [snd files trace] in Hf1, Ht1.
  pose proof (collect_tables_net_only (normalize_base url) roles w1)
    as [Hf2 (ev2 & Ht2 & He2)].
  rewrite Hcollect in Hf2, Ht2. cbn [snd] in Hf2, Ht2.
  exists t, w2, org_rows, location_rows.
  repeat (split; [assumption |]). split; [| split; [reflexivity |]].
  - intros path Hin. rewrite Ht2, Ht1, !elem_of_app in Hin.
    rewrite Forall_forall in He1, He2.
    destruct Hin as [[[Hin | Hin] | Hin] | Hin]; auto.
    + apply list_elem_of_singleton in Hin. discriminate.
    + apply He1 in Hin. contradiction.
    + apply He2 in Hin. contradiction.
  - repeat (split; [assumption |]).
    intros path Hpath. rewrite (Hother path Hpath). congruence.
Qed.

(** ** Resolver and cache: the history invariant *)

Lemma dict_lookup_elem id (cache : list (string * json)) d :
  dict_lookup id cache = Some d -> (id, d) ∈ cache.
Proof.
  induction cache as [| [k v] cache IH]; simpl; [discriminate |].
  destruct (String.eqb id k) eqn:E.
  - apply String.eqb_eq in E. subst k. intros H. inversion H; subst. left.
  - intros H. right. auto.
Qed.

Lemma dict_lookup_none id (cache : list (string * json)) :
  dict_lookup id cache = None -> id ∉ map fst cache.
Proof.
  induction cache as [| [k v] cache IH]; simpl; intros H Hin.
  - apply elem_of_nil in Hin. exact Hin.
  - destruct (String.eqb id k) eqn:E; [discriminate |].
    apply String.eqb_neq in E.
    apply elem_of_cons in Hin as [Hin | Hin]; [contradiction | exact (IH H Hin)].
Qed.

Lemma cache_mem_true id cache :
  cache_mem id cache = true -> exists d, (id, d) ∈ cache.
Proof.
  unfold cache_mem. destruct (dict_lookup id cache) as [d |] eqn:E; [| discriminate].
  intros _. exists d. apply dict_lookup_elem, E.
Qed.

Lemma cache_mem_false id cache : cache_mem id cache = false -> id ∉ map fst cache.
Proof.
  unfold cache_mem. destruct (dict_lookup id cache) eqn:E; [discriminate |].
  intros _. apply dict_lookup_none, E.
Qed.

Lemma resolve_done_inv base_url cache ref w cache' w' :
  resolve net urljoin base_url cache ref w = (Done cache', w') ->
  (cache_mem (split_last ref) cache = true /\ cache' = cache /\ w' = w) \/
  (cache_mem (split_last ref) cache = false /\
   exists d, fetch_fhir_resource net (urljoin base_url ref) 3 w = (Done d, w') /\
             cache' = if truthy d then (cache ++ [(split_last ref, d)])%list else cache).
Proof.
  unfold resolve. destruct (cache_mem (split_last ref) cache).
  - intros H. apply ret_done_inv in H as [-> ->]. left. auto.
  - intros H. minv. right. split; [reflexivity |]. eauto.
Qed.

Lemma fetch_calls_cons e tr :
  fetch_calls (e :: tr)
  = match first_attempt e with
    | Some url => url :: fetch_calls tr
    | None => fetch_calls tr
    end.
Proof. reflexivity. Qed.

Lemma fetch_calls_later url : forall k a,
  0 < a -> fetch_calls (backoff_schedule url a k) = [].
Proof.
  induction k as [| k IH]; intros a Ha; [reflexivity |].
  assert (Hget : first_attempt (EvGet url a) = None) by (destruct a; try lia; reflexivity).
  destruct k as [| k']; cbn [backoff_schedule].
  - rewrite fetch_calls_cons, Hget. reflexivity.
  - rewrite !fetch_calls_cons, Hget. cbn [first_attempt]. apply IH. lia.
Qed.

Lemma fetch_calls_schedule url k :
  k <> 0%nat -> fetch_calls (backoff_schedule url 0 k) = [url].
Proof.
  destruct k as [| k]; [congruence |]. intros _.
  destruct k as [| k']; [reflexivity |].
  change (backoff_schedule url 0 (S (S k')))
    with (EvGet url 0 :: EvSleep (2 ^ 0) :: backoff_schedule url (0 + 1) (S k')).
  rewrite !fetch_calls_cons. cbn [first_attempt].
  rewrite fetch_calls_later by lia. reflexivity.
Qed.

(** A call with three attempts allowed shows in the trace as one more
    first attempt. *)
Lemma fetch_calls_fetch url w d w' :
  fetch_fhir_resource net url 3 w = (Done d, w') ->
  fetch_calls (trace w') = (fetch_calls (trace w) ++ [url])%list.
Proof.
  intros H. destruct (fetch_schedule url 3 w) as (k & body & Hrun & _ & Hk & _).
  rewrite Hrun in H. inversion H; subst. cbn [trace].
  unfold fetch_calls at 1. rewrite omap_app.
  fold (fetch_calls (trace w)). fold (fetch_calls (backoff_schedule url 0 k)).
  rewrite fetch_calls_schedule by (apply Hk; lia). reflexivity.
Qed.

Lemma snoc_eq_app_cons {A} (l : list A) x l1 y l2 :
  (l ++ [x] = l1 ++ y :: l2)%list ->
  (l2 = [] /\ l = l1 /\ x = y) \/
  (exists l2', l2 = (l2' ++ [x])%list /\ l = (l1 ++ y :: l2')%list).
Proof.
  destruct l2 as [| z l2 _] using rev_ind; intros H.
  - left. apply app_inj_tail in H as [-> ->]. auto.
  - right. exists l2.
    change (l1 ++ y :: l2 ++ [z])%list with (l1 ++ (y :: l2) ++ [z])%list in H.
    rewrite app_assoc in H. apply app_inj_tail in H as [-> ->]. auto.
Qed.

Section KindHistory.

Variable base_url : string.

Local Abbreviation kind_history := (kind_history net urljoin base_url).
Local Abbreviation call_valid := (call_valid net urljoin base_url).

Lemma kind_history_empty : kind_history [] [] [].
Proof.
  constructor; simpl.
  - constructor.
  - constructor.
  - intros id d. split.
    + intros H. apply elem_of_nil in H. contradiction.
    + intros (e & H & _). apply elem_of_nil in H. contradiction.
  - intros l1 e l2 H. destruct l1; discriminate.
  - intros id H. exact H.
  - intros id. reflexivity.
  - intros id _. reflexivity.
Qed.

Lemma refs_for_snoc id refs ref :
  refs_for id (refs ++ [ref])
  = (refs_for id refs ++ if decide (split_last ref = id) then [ref] else [])%list.
Proof.
  unfold refs_for. rewrite filter_app. reflexivity.
Qed.

Lemma calls_for_snoc id calls e :
  calls_for id (calls ++ [e])
  = (calls_for id calls ++ if decide (fr_id e = id) then [e] else [])%list.
Proof.
  unfold calls_for. rewrite filter_app. reflexivity.
Qed.

(** A reference whose id is cached: nothing is fetched. *)
Lemma kind_history_hit cache refs calls ref :
  kind_history cache refs calls ->
  cache_mem (split_last ref) cache = true ->
  kind_history cache (refs ++ [ref]) calls.
Proof.
  intros [Hnd Hcalls Hcache Honce Hfetched Hbound Hretried] Hmem.
  destruct (cache_mem_true _ _ Hmem) as (d & Hd).
  constructor; auto.
  - eapply Forall_impl; [exact Hcalls |]. intros e [Hin Hv]. split; [| exact Hv].
    apply elem_of_app. left. exact Hin.
  - intros id Hin. rewrite map_app in Hin. apply elem_of_app in Hin as [Hin | Hin].
    + apply Hfetched, Hin.
    + apply list_elem_of_singleton in Hin. subst id.
      apply Hcache in Hd as (e & He & Hid & _). rewrite <- Hid.
      apply list_elem_of_fmap_2. exact He.
  - intros id. rewrite refs_for_snoc, length_app. specialize (Hbound id). lia.
  - intros id Hid. rewrite refs_for_snoc, length_app, (Hretried id Hid).
    destruct (decide (split_last ref = id)) as [<- | _]; [| simpl; lia].
    exfalso. apply Hid.
    change (split_last ref) with (fst (split_last ref, d)).
    apply list_elem_of_fmap_2. exact Hd.
Qed.

(** A reference whose id is not cached: one call, cached when truthy. *)
Lemma kind_history_miss cache refs calls ref e :
  kind_history cache refs calls ->
  cache_mem (split_last ref) cache = false ->
  fr_ref e = ref -> call_valid e ->
  kind_history
    (if truthy (fr_data e) then (cache ++ [(split_last ref, fr_data e)])%list else cache)
    (refs ++ [ref]) (calls ++ [e]).
Proof.
  intros [Hnd Hcalls Hcache Honce Hfetched Hbound Hretried] Hmem Href Hvalid.
  pose proof (cache_mem_false _ _ Hmem) as Hfresh.
  assert (Hid : fr_id e = split_last ref) by (unfold fr_id; rewrite Href; reflexivity).
  constructor.
  - destruct (truthy (fr_data e)); [| exact Hnd].
    rewrite map_app. apply NoDup_app. split; [exact Hnd |]. split.
    + intros x Hx Hx'. apply list_elem_of_singleton in Hx'. subst x. contradiction.
    + apply NoDup_singleton.
  - apply Forall_app. split.
    + eapply Forall_impl; [exact Hcalls |]. intros e' [Hin Hv]. split; [| exact Hv].
      apply elem_of_app. left. exact Hin.
    + constructor; [| constructor]. split; [| exact Hvalid].
      rewrite Href. apply elem_of_app. right. left.
  - intros id d. split.
    + intros Hin.
      assert (Hcases : (id, d) ∈ cache \/
                       (truthy (fr_data e) = true /\ id = split_last ref /\ d = fr_data e)).
      { destruct (truthy (fr_data e)); [| left; exact Hin].
        apply elem_of_app in Hin as [Hin | Hin]; [left; exact Hin |].
        apply list_elem_of_singleton in Hin. inversion Hin. right. auto. }
      destruct Hcases as [Hold | (Ht & -> & ->)].
      * apply Hcache in Hold as (e' & He' & H1 & H2 & H3).
        exists e'. split; [apply elem_of_app; left; exact He' | auto].
      * exists e. split; [apply elem_of_app; right; left | auto].
    + intros (e' & He' & H1 & H2 & H3). apply elem_of_app in He' as [He' | He'].
      * assert (Hold : (id, d) ∈ cache) by (apply Hcache; eauto).
        destruct (truthy (fr_data e)); [apply elem_of_app; left |]; exact Hold.
      * apply list_elem_of_singleton in He'. subst e'. subst d. rewrite H3.
        apply elem_of_app. right. rewrite <- H1, Hid. left.
  - intros l1 e0 l2 Hsplit Ht.
    apply snoc_eq_app_cons in Hsplit as [(-> & _ & _) | (l2' & -> & Hcalls')].
    + constructor.
    + apply Forall_app. split; [eapply Honce; eauto |].
      constructor; [| constructor]. intros Heq. apply Hfresh.
      assert (Hin : (fr_id e0, fr_data e0) ∈ cache).
      { apply Hcache. exists e0. split; [| auto].
        rewrite Hcalls'. apply elem_of_app. right. left. }
      rewrite <- Hid, Heq. change (fr_id e0) with (fst (fr_id e0, fr_data e0)).
      apply list_elem_of_fmap_2. exact Hin.
  - intros id Hin. rewrite map_app. apply elem_of_app.
    rewrite map_app in Hin. apply elem_of_app in Hin as [Hin | Hin].
    + left. apply Hfetched, Hin.
    + right. apply list_elem_of_singleton in Hin. subst id. rewrite <- Hid. left.
  - intros id. rewrite refs_for_snoc, calls_for_snoc, !length_app, Hid.
    specialize (Hbound id).
    destruct (decide (split_last ref = id)); simpl; lia.
  - intros id Hnot. rewrite refs_for_snoc, calls_for_snoc, !length_app, Hid.
    rewrite (Hretried id).
    + destruct (decide (split_last ref = id)); reflexivity.
    + intros Hin. apply Hnot. destruct (truthy (fr_data e)); [| exact Hin].
      rewrite map_app. apply elem_of_app. left. exact Hin.
Qed.

End KindHistory.

Section RunHistory.

Variable base_url : string.
Variable w0 : World.

Local Abbreviation history := (history net urljoin base_url w0).
Local Abbreviation run_history := (run_history net urljoin base_url w0).

Lemma history_ext caches refs caches' refs' w log :
  (forall k, caches' k = caches k) -> (forall k, refs' k = refs k) ->
  history caches refs w log -> history caches' refs' w log.
Proof.
  intros Hc Hr [Htrace Hkinds]. split; [exact Htrace |].
  intros k. rewrite Hc, Hr. apply Hkinds.
Qed.

Lemma calls_of_snoc k log e :
  calls_of k (log ++ [e])
  = (calls_of k log ++ if decide (fr_kind e = k) then [e] else [])%list.
Proof. unfold calls_of. rewrite filter_app. reflexivity. Qed.

(** One pass through the block of the resolver, for the kind [k0]. *)
Lemma history_resolve k0 caches refs w log ref cache' w' :
  history caches refs w log ->
  resolve net urljoin base_url (caches k0) ref w = (Done cache', w') ->
  exists log',
    history (upd caches k0 cache') (upd refs k0 (refs k0 ++ [ref])%list) w' log'.
Proof.
  intros [Htrace Hkinds] Hres.
  apply resolve_done_inv in Hres as [(Hmem & -> & ->) | (Hmem & d & Hfetch & ->)].
  - exists log. split; [exact Htrace |]. intros k. unfold upd.
    destruct (decide (k = k0)) as [-> | _]; [| apply Hkinds].
    apply kind_history_hit; [apply Hkinds | exact Hmem].
  - set (e := {| fr_kind := k0; fr_ref := ref; fr_world := w; fr_data := d |}).
    exists (log ++ [e])%list. split.
    + rewrite (fetch_calls_fetch _ _ _ _ Hfetch), Htrace, map_app, app_assoc.
      reflexivity.
    + intros k. rewrite calls_of_snoc. unfold upd. cbn [fr_kind e].
      destruct (decide (k = k0)) as [-> | Hne].
      * rewrite decide_True by reflexivity.
        apply (kind_history_miss base_url (caches k0) (refs k0) (calls_of k0 log) ref e);
          [apply Hkinds | exact Hmem | reflexivity |].
        unfold call_valid. cbn [fr_ref fr_world fr_data e]. rewrite Hfetch. reflexivity.
      * rewrite decide_False by congruence. rewrite app_nil_r. apply Hkinds.
Qed.

Lemma run_history_resolve k0 t t' w ref cache' w' :
  run_history t w ->
  resolve net urljoin base_url (cache_of t k0) ref w = (Done cache', w') ->
  (forall k, cache_of t' k = upd (cache_of t) k0 cache' k) ->
  (forall k, refs_of t' k = upd (refs_of t) k0 (refs_of t k0 ++ [ref])%list k) ->
  run_history t' w'.
Proof.
  intros [log Hlog] Hres Hc Hr.
  destruct (history_resolve k0 _ _ _ _ _ _ _ Hlog Hres) as (log' & Hlog').
  exists log'. eapply history_ext; [exact Hc | exact Hr | exact Hlog'].
Qed.

Lemma run_history_same t t' w :
  run_history t w ->
  (forall k, cache_of t' k = cache_of t k) ->
  (forall k, refs_of t' k = refs_of t k) ->
  run_history t' w.
Proof.
  intros [log Hlog] Hc Hr. exists log. eapply history_ext; eauto.
Qed.

Lemma run_history_start : run_history empty_tables w0.
Proof.
  exists []. split.
  - simpl. rewrite app_nil_r. reflexivity.
  - intros k. destruct k; apply kind_history_empty.
Qed.

Lemma add_organization_history pr_id t org_ref w t' w' :
  run_history t w ->
  add_organization net urljoin py_repr base_url pr_id t org_ref w = (Done t', w') ->
  run_history t' w'.
Proof.
  unfold add_organization. intros Hinv H. minv.
  eapply (run_history_resolve KOrganization); [exact Hinv | exact Hm | |].
  - intros []; reflexivity.
  - intros []; cbn [refs_of org_to_pr_rows location_to_pr_rows p_to_pr_rows];
      rewrite ?map_app; reflexivity.
Qed.

Lemma process_extension_history pr_id t ext w t' w' :
  run_history t w ->
  process_extension net urljoin py_repr base_url pr_id t ext w = (Done t', w') ->
  run_history t' w'.
Proof.
  unfold process_extension. intros Hinv H. minv.
  destruct (py_eq_str a network_reference); [| minv; exact Hinv].
  minv. destruct (String.prefix "Organization/" a2); [| minv; exact Hinv].
  eapply add_organization_history; eauto.
Qed.

Lemma process_organization_history pr_id t pr w t' w' :
  run_history t w ->
  process_organization net urljoin py_repr base_url pr_id t pr w = (Done t', w') ->
  run_history t' w'.
Proof.
  unfold process_organization. intros Hinv H. minv.
  destruct (truthy a0); [| minv; exact Hinv].
  minv. destruct (String.prefix "Organization/" a1); [| minv; exact Hinv].
  eapply add_organization_history; eauto.
Qed.

Lemma process_practitioner_history pr_id t pr w t' w' :
  run_history t w ->
  process_practitioner net urljoin py_repr base_url pr_id t pr w = (Done t', w') ->
  run_history t' w'.
Proof.
  unfold process_practitioner. intros Hinv H. minv.
  destruct (truthy a0); [| minv; exact Hinv].
  minv. destruct (String.prefix "Practitioner/" a1); [| minv; exact Hinv].
  minv.
  eapply (run_history_resolve KPractitioner); [exact Hinv | eassumption | |].
  - intros []; reflexivity.
  - intros []; cbn [refs_of org_to_pr_rows location_to_pr_rows p_to_pr_rows];
      rewrite ?map_app; reflexivity.
Qed.

Lemma process_location_history pr_id t loc w t' w' :
  run_history t w ->
  process_location net urljoin py_repr base_url pr_id t loc w = (Done t', w') ->
  run_history t' w'.
Proof.
  unfold process_location. intros Hinv H. minv.
  destruct (truthy a); [| minv; exact Hinv].
  minv. destruct (String.prefix "Location/" a0); [| minv; exact Hinv].
  minv.
  eapply (run_history_resolve KLocation); [exact Hinv | eassumption | |].
  - intros []; reflexivity.
  - intros []; cbn [refs_of org_to_pr_rows location_to_pr_rows p_to_pr_rows];
      rewrite ?map_app; reflexivity.
Qed.

Lemma extensions_history pr_id exts t w t' w' :
  run_history t w ->
  foldM (process_extension net urljoin py_repr base_url pr_id) exts t w = (Done t', w') ->
  run_history t' w'.
Proof.
  apply (foldM_done_invariant _ run_history).
  intros; eapply process_extension_history; eauto.
Qed.

Lemma locations_history pr_id locs t w t' w' :
  run_history t w ->
  foldM (process_location net urljoin py_repr base_url pr_id) locs t w = (Done t', w') ->
  run_history t' w'.
Proof.
  apply (foldM_done_invariant _ run_history).
  intros; eapply process_location_history; eauto.
Qed.

Lemma process_role_history t pr w t' w' :
  run_history t w ->
  process_role net urljoin py_repr base_url t pr w = (Done t', w') ->
  run_history t' w'.
Proof.
  unfold process_role. intros Hinv H. minv.
  repeat match goal with
  | Hi : run_history ?t ?w,
    Hs : foldM (process_extension _ _ _ _ _) _ ?t ?w = (Done _, _) |- _ =>
      apply (extensions_history _ _ _ _ _ _ Hi) in Hs
  | Hi : run_history ?t ?w,
    Hs : process_organization _ _ _ _ _ ?t _ ?w = (Done _, _) |- _ =>
      apply (process_organization_history _ _ _ _ _ _ Hi) in Hs
  | Hi : run_history ?t ?w,
    Hs : process_practitioner _ _ _ _ _ ?t _ ?w = (Done _, _) |- _ =>
      apply (process_practitioner_history _ _ _ _ _ _ Hi) in Hs
  | Hi : run_history ?t ?w,
    Hs : foldM (process_location _ _ _ _ _) _ ?t ?w = (Done _, _) |- _ =>
      apply (locations_history _ _ _ _ _ _ Hi) in Hs
  end.
  eapply run_history_same; [eassumption | intros []; reflexivity | intros []; reflexivity].
Qed.

End RunHistory.

(** The state a completed pass over the records reaches has a history. *)
Lemma collect_tables_history base_url roles w t w' :
  collect_tables net urljoin py_repr base_url roles w = (Done t, w') ->
  run_history net urljoin base_url w t w'.
Proof.
  unfold collect_tables. intros H.
  eapply (foldM_done_invariant _ (run_history net urljoin base_url w));
    [intros; eapply process_role_history; eauto | apply run_history_start | exact H].
Qed.

(** ** What the history says about one id *)

Lemma elem_of_map_iff {A B} (f : A -> B) (l : list A) (y : B) :
  y ∈ map f l <-> exists x, y = f x /\ x ∈ l.
Proof. apply (list_elem_of_fmap f l y). Qed.

Lemma refs_for_nonempty id refs :
  refs_for id refs <> [] <-> id ∈ map split_last refs.
Proof.
  unfold refs_for. rewrite elem_of_map_iff. split.
  - intros Hne. destruct (filter _ refs) as [| r rest] eqn:E; [congruence |].
    assert (Hin : r ∈ filter (fun r => split_last r = id) refs) by (rewrite E; left).
    apply list_elem_of_filter in Hin as [Hid Hin]. eauto.
  - intros (r & Hid & Hin) E.
    assert (Hr : r ∈ filter (fun r => split_last r = id) refs)
      by (apply list_elem_of_filter; auto).
    rewrite E in Hr. apply elem_of_nil in Hr. exact Hr.
Qed.

Lemma calls_for_nonempty id calls :
  calls_for id calls <> [] <-> id ∈ map fr_id calls.
Proof.
  unfold calls_for. rewrite elem_of_map_iff. split.
  - intros Hne. destruct (filter _ calls) as [| e rest] eqn:E; [congruence |].
    assert (Hin : e ∈ filter (fun e => fr_id e = id) calls) by (rewrite E; left).
    apply list_elem_of_filter in Hin as [Hid Hin]. eauto.
  - intros (e & Hid & Hin) E.
    assert (He : e ∈ filter (fun e => fr_id e = id) calls)
      by (apply list_elem_of_filter; auto).
    rewrite E in He. apply elem_of_nil in He. exact He.
Qed.

Lemma filter_none {A} (P : A -> Prop) `{!forall x, Decision (P x)} (l : list A) :
  Forall (fun x => ~ P x) l -> filter P l = [].
Proof.
  induction 1 as [| x l Hx _ IH]; [reflexivity |].
  rewrite filter_cons, decide_False by exact Hx. exact IH.
Qed.

Section KindFacts.

Variables (base_url : string) (cache : list (string * json))
  (refs : list string) (calls : list fetch_record).
Hypothesis Hkind : kind_history net urljoin base_url cache refs calls.

Lemma kind_cached_iff id :
  id ∈ map fst cache <->
  Exists (fun e => truthy (fr_data e) = true) (calls_for id calls).
Proof.
  rewrite elem_of_map_iff, Exists_exists. split.
  - intros ([id' d] & -> & Hin). cbn [fst].
    apply (kh_cache _ _ _ _ _ _ Hkind) in Hin as (e & He & Hid & Hd & Ht).
    exists e. split; [apply list_elem_of_filter; auto | congruence].
  - intros (e & He & Ht). apply list_elem_of_filter in He as [Hid He].
    exists (id, fr_data e). split; [reflexivity |].
    apply (kh_cache _ _ _ _ _ _ Hkind). exists e. auto.
Qed.

Lemma kind_cached_referenced id :
  id ∈ map fst cache -> id ∈ map split_last refs.
Proof.
  intros Hin. apply kind_cached_iff, Exists_exists in Hin as (e & He & _).
  apply list_elem_of_filter in He as [Hid He].
  pose proof (kh_calls _ _ _ _ _ _ Hkind) as Hcalls.
  rewrite Forall_forall in Hcalls. destruct (Hcalls e He) as [Href _].
  apply elem_of_map_iff. exists (fr_ref e). split; [symmetry; exact Hid | exact Href].
Qed.

Lemma kind_first_success id e :
  head (calls_for id calls) = Some e -> truthy (fr_data e) = true ->
  calls_for id calls = [e].
Proof.
  intros Hhead Ht. pose proof Hhead as Hsplit.
  apply head_filter_Some in Hsplit as (l1 & l2 & Hcalls & Hl1).
  assert (Hid : fr_id e = id).
  { assert (Hin : e ∈ calls_for id calls)
      by (destruct (calls_for id calls); inversion Hhead; subst; left).
    apply list_elem_of_filter in Hin as [Hid _]. exact Hid. }
  pose proof (kh_once _ _ _ _ _ _ Hkind l1 e l2 Hcalls Ht) as Hl2.
  unfold calls_for. rewrite Hcalls, filter_app, filter_cons, decide_True by exact Hid.
  rewrite (filter_none _ l1 Hl1), (filter_none _ l2); [reflexivity |].
  eapply Forall_impl; [exact Hl2 |]. intros e' Hne. cbn. congruence.
Qed.

Lemma kind_all_failed id :
  Forall (fun e => truthy (fr_data e) = false) (calls_for id calls) ->
  length (calls_for id calls) = length (refs_for id refs) /\ id ∉ map fst cache.
Proof.
  intros Hfail.
  assert (Hnot : id ∉ map fst cache).
  { intros Hin. apply kind_cached_iff, Exists_exists in Hin as (e & He & Ht).
    rewrite Forall_forall in Hfail. rewrite (Hfail e He) in Ht. discriminate. }
  split; [apply (kh_retried _ _ _ _ _ _ Hkind), Hnot | exact Hnot].
Qed.

Lemma kind_referenced_fetched id :
  refs_for id refs <> [] -> calls_for id calls <> [].
Proof.
  rewrite refs_for_nonempty, calls_for_nonempty. apply (kh_fetched _ _ _ _ _ _ Hkind).
Qed.

End KindFacts.

Lemma log_valid base_url caches refs w0 w log :
  history net urljoin base_url w0 caches refs w log ->
  Forall (call_valid net urljoin base_url) log.
Proof.
  intros [_ Hkinds]. apply Forall_forall. intros e He.
  pose proof (kh_calls _ _ _ _ _ _ (Hkinds (fr_kind e))) as Hcalls.
  rewrite Forall_forall in Hcalls. apply Hcalls.
  apply list_elem_of_filter. auto.
Qed.

Lemma log_refs base_url t w0 w log :
  history net urljoin base_url w0 (cache_of t) (refs_of t) w log ->
  Forall (fun e => fr_ref e ∈ refs_of t (fr_kind e)) log.
Proof.
  intros [_ Hkinds]. apply Forall_forall. intros e He.
  pose proof (kh_calls _ _ _ _ _ _ (Hkinds (fr_kind e))) as Hcalls.
  rewrite Forall_forall in Hcalls. apply Hcalls.
  apply list_elem_of_filter. auto.
Qed.

(** What the history gives for the calls made for one id. *)
Lemma history_counts base_url t w0 w log k id :
  history net urljoin base_url w0 (cache_of t) (refs_of t) w log ->
  let calls := calls_for id (calls_of k log) in
  let refs := refs_for id (refs_of t k) in
  (length calls <= length refs)%nat /\
  (refs <> [] -> calls <> []) /\
  (forall e, head calls = Some e -> truthy (fr_data e) = true -> calls = [e]) /\
  (id ∈ map fst (cache_of t k) <->
   Exists (fun e => truthy (fr_data e) = true) calls) /\
  (Forall (fun e => truthy (fr_data e) = false) calls ->
   length calls = length refs /\ id ∉ map fst (cache_of t k)).
Proof.
  intros [_ Hkinds]. specialize (Hkinds k). cbv zeta.
  split; [apply (kh_bound _ _ _ _ _ _ Hkinds) |].
  split; [eapply kind_referenced_fetched; exact Hkinds |].
  split; [intros e; eapply kind_first_success; exact Hkinds |].
  split; [eapply kind_cached_iff; exact Hkinds |].
  eapply kind_all_failed; exact Hkinds.
Qed.

(** ** The entity tables *)

Lemma org_rows_of_items base_url : forall items rows rows',
  rfold (org_row_of urljoin base_url) items rows = Ok rows' ->
  map or_organization_fhir_url rows'
  = (map or_organization_fhir_url rows ++
       map (fun item => urljoin base_url ("Organization/" +:+ fst item)) items)%list.
Proof.
  induction items as [| item items IH]; intros rows rows' H; simpl in H.
  - inversion H; subst. rewrite app_nil_r. reflexivity.
  - unfold org_row_of at 1 in H. minv.
    match goal with Hok : Ok _ = Ok _ |- _ => inversion Hok; subst; clear Hok end.
    rewrite (IH _ _ H), map_app, <- app_assoc. reflexivity.
Qed.

Lemma location_rows_of_items base_url : forall items rows rows',
  rfold (location_row_of urljoin base_url) items rows = Ok rows' ->
  map lr_location_fhir_url rows'
  = (map lr_location_fhir_url rows ++
       map (fun item => urljoin base_url ("Location/" +:+ fst item)) items)%list.
Proof.
  induction items as [| item items IH]; intros rows rows' H; simpl in H.
  - inversion H; subst. rewrite app_nil_r. reflexivity.
  - unfold location_row_of at 1 in H. minv.
    match goal with Hok : Ok _ = Ok _ |- _ => inversion Hok; subst; clear Hok end.
    rewrite (IH _ _ H), map_app, <- app_assoc. reflexivity.
Qed.

(** When the servers answer every request with data, so does the fetcher. *)
Lemma fetch_truthy url w d w' :
  (forall k u, exists body, net k u = HttpOk body /\ truthy body = true) ->
  fetch_fhir_resource net url 3 w = (Done d, w') -> truthy d = true.
Proof.
  intros Hnet H.
  destruct (fetch_schedule url 3 w) as (k & body & Hrun & _ & _ & _ & Hres).
  rewrite Hrun in H. inversion H; subst.
  destruct Hres as [[_ Hok] | (_ & _ & Hall)].
  - destruct (Hnet (requests w + (k - 1))%nat url) as (b & Hb & Ht). congruence.
  - destruct (Hnet (requests w + 0)%nat url) as (b & Hb & _).
    rewrite Hall in Hb by (simpl; lia). discriminate.
Qed.

Lemma fetch_calls_opens (paths : list string) :
  fetch_calls (map EvOpenW paths) = [].
Proof. induction paths as [| p paths IH]; [reflexivity | exact IH]. Qed.

(** The phases of a completed run, the pass over the records included: with
    no record the pass is empty and nothing is written. *)
Lemma process_payer_run fuel p test_mode test_limit w w' :
  process_payer net urljoin py_repr fuel p test_mode test_limit w = (Done tt, w') ->
  exists stub url roles w1 t w2,
    payer_lookup "payer_stub" p = Some stub /\
    payer_lookup "payer_provider_directory_fhir_url" p = Some url /\
    fetch_all_practitioner_roles net urljoin py_repr fuel (normalize_base url)
      test_mode test_limit
      (mkWorld (requests w)
         (trace w ++ [EvMkdir (output_dir_of test_mode stub)])%list (files w))
    = (Done roles, w1) /\
    collect_tables net urljoin py_repr (normalize_base url) roles w1 = (Done t, w2) /\
    (roles = [] /\ w' = w2 \/
     roles <> [] /\
     write_tables urljoin (normalize_base url) (output_dir_of test_mode stub) t w2
     = (Done tt, w')).
Proof.
  intros Hrun.
  destruct (process_payer_done_inv _ _ _ _ _ _ Hrun)
    as (name & stub & url & roles & w1 & _ & Hstub & Hurl & Hcrawl & Hrest).
  destruct Hrest as [[-> ->] | (Hne & t & w2 & Hcollect & Hwrite)].
  - exists stub, url, [], w1, empty_tables, w1.
    repeat (split; [assumption || reflexivity |]). left. auto.
  - exists stub, url, roles, w1, t, w2. repeat (split; [assumption |]). right. auto.
Qed.

Lemma run_fetch_calls base_url output_dir (roles : list json) t w2 w' :
  roles = [] /\ w' = w2 \/
  roles <> [] /\ write_tables urljoin base_url output_dir t w2 = (Done tt, w') ->
  fetch_calls (trace w') = fetch_calls (trace w2).
Proof.
  intros [[_ ->] | [_ Hwrite]]; [reflexivity |].
  destruct (write_tables_done _ _ _ _ _ Hwrite) as (_ & _ & _ & _ & _ & Htrace & _).
  rewrite Htrace. unfold fetch_calls. rewrite omap_app.
  fold (fetch_calls (trace w2)).
  rewrite <- (map_map (table_path output_dir) EvOpenW).
  fold (fetch_calls (map EvOpenW (map (table_path output_dir) table_files))).
  rewrite fetch_calls_opens, app_nil_r. reflexivity.
Qed.


(** C2, as the code has it.  In a completed run of a payer, the ids of each
    cache are distinct and each of them is referenced in the relationship
    table of its kind; a referenced id is in the cache exactly when a fetch
    for it returned data, so an id whose fetches failed has no row, and when
    the servers answer every request with data every referenced id is in the
    cache.  When the run collected a record, the files of the relationship
    tables hold the rows of the reference columns, and the organization file
    and the location file hold one row per key of their cache, in the order
    of the cache. *)
Theorem entity_tables_one_row_per_fetched_id :
  forall fuel p test_mode test_limit w w',
    process_payer net urljoin py_repr fuel p test_mode test_limit w = (Done tt, w') ->
    exists stub url roles w1 t w2,
      payer_lookup "payer_stub" p = Some stub /\
      payer_lookup "payer_provider_directory_fhir_url" p = Some url /\
      fetch_all_practitioner_roles net urljoin py_repr fuel (normalize_base url)
        test_mode test_limit
        (mkWorld (requests w)
           (trace w ++ [EvMkdir (output_dir_of test_mode stub)])%list (files w))
      = (Done roles, w1) /\
      collect_tables net urljoin py_repr (normalize_base url) roles w1 = (Done t, w2) /\
      (forall k, NoDup (map fst (cache_of t k))) /\
      (exists log,
          fetch_calls (trace w')
          = (fetch_calls (trace w1) ++
               map (fun e => urljoin (normalize_base url) (fr_ref e)) log)%list /\
          Forall (fun e => call_valid net urljoin (normalize_base url) e /\
                           fr_ref e ∈ refs_of t (fr_kind e)) log /\
          forall k id,
            id ∈ map fst (cache_of t k) <->
            id ∈ map split_last (refs_of t k) /\
            Exists (fun e => truthy (fr_data e) = true)
              (calls_for id (calls_of k log))) /\
      ((forall n u, exists body, net n u = HttpOk body /\ truthy body = true) ->
       forall k id,
         id ∈ map fst (cache_of t k) <-> id ∈ map split_last (refs_of t k)) /\
      (roles <> [] ->
       exists org_rows location_rows,
         let file := table_path (output_dir_of test_mode stub) in
         files w' !! file "org_to_pr.csv"
         = Some (table_content org_to_pr_fields
                   (map org_to_pr_cells (org_to_pr_rows t))) /\
         files w' !! file "org.csv"
         = Some (table_content org_fields (map org_cells org_rows)) /\
         map or_organization_fhir_url org_rows
         = map (fun item => urljoin (normalize_base url) ("Organization/" +:+ fst item))
             (organizations t) /\
         files w' !! file "location_to_pr.csv"
         = Some (table_content location_to_pr_fields
                   (map location_to_pr_cells (location_to_pr_rows t))) /\
         files w' !! file "location.csv"
         = Some (table_content location_fields (map location_cells location_rows)) /\
         map lr_location_fhir_url location_rows
         = map (fun item => urljoin (normalize_base url) ("Location/" +:+ fst item))
             (locations t)).
Proof.
  intros fuel p test_mode test_limit w w' Hrun.
  destruct (process_payer_run _ _ _ _ _ _ Hrun)
    as (stub & url & roles & w1 & t & w2 & Hstub & Hurl & Hcrawl & Hcollect & Hend).
  destruct (collect_tables_history _ _ _ _ _ Hcollect) as (log & Hlog).
  pose proof (log_valid _ _ _ _ _ _ Hlog) as Hvalid.
  pose proof (log_refs _ _ _ _ _ Hlog) as Hrefs.
  pose proof Hlog as [Htrace Hkinds].
  exists stub, url, roles, w1, t, w2. repeat (split; [assumption |]).
  split; [intros k; apply (kh_nodup _ _ _ _ _ _ (Hkinds k)) |].
  split; [| split].
  - exists log. split; [rewrite (run_fetch_calls _ _ _ _ _ _ Hend); exact Htrace |].
    split; [rewrite Forall_forall in *; intros e He; split; auto |].
    intros k id. rewrite (kind_cached_iff _ _ _ _ (Hkinds k)). split; [| tauto].
    intros Hex. split; [| exact Hex].
    apply (kind_cached_referenced _ _ _ _ (Hkinds k)).
    apply (kind_cached_iff _ _ _ _ (Hkinds k)). exact Hex.
  - intros Hnet k id. split; [apply (kind_cached_referenced _ _ _ _ (Hkinds k)) |].
    intros Href. apply (kind_cached_iff _ _ _ _ (Hkinds k)).
    apply refs_for_nonempty in Href.
    apply (kind_referenced_fetched _ _ _ _ (Hkinds k)) in Href.
    destruct (calls_for id (calls_of k log)) as [| e rest] eqn:E; [congruence |].
    apply Exists_cons_hd.
    assert (Hin : e ∈ log).
    { assert (He : e ∈ calls_for id (calls_of k log)) by (rewrite E; left).
      apply list_elem_of_filter in He as [_ He].
      apply list_elem_of_filter in He as [_ He]. exact He. }
    rewrite Forall_forall in Hvalid. specialize (Hvalid e Hin).
    unfold call_valid in Hvalid.
    destruct (fetch_fhir_resource net (urljoin (normalize_base url) (fr_ref e)) 3
                (fr_world e)) as [o w3] eqn:Ef.
    cbn [fst] in Hvalid. subst o. eapply fetch_truthy; eauto.
  - intros Hne. destruct Hend as [[-> _] | [_ Hwrite]]; [congruence |].
    destruct (write_tables_done _ _ _ _ _ Hwrite)
      as (org_rows & location_rows & Horg & Hloc & _ & _ & _ & Hfiles & _).
    exists org_rows, location_rows. cbv zeta.
    unfold table_rows in Hfiles.
    repeat match goal with
    | Hf : Forall _ (_ :: _) |- _ =>
        let Hhd := fresh "Hhd" in
        apply Forall_cons in Hf as [Hhd Hf]; cbn [fst snd] in Hhd
    end.
    repeat (split; [first [assumption
                          | apply org_rows_of_items in Horg; exact Horg
                          | apply location_rows_of_items in Hloc; exact Hloc] |]).
    apply location_rows_of_items in Hloc. exact Hloc.
Qed.

(** ** Paginator: the cap of test mode *)

Lemma collect_entries_cap test_limit : forall entries all_entries all_entries',
  Z.of_nat (length all_entries) < test_limit ->
  collect_entries true test_limit entries all_entries = Ok all_entries' ->
  Z.of_nat (length all_entries') <= test_limit /\
  exists more, all_entries' = (all_entries ++ more)%list.
Proof.
  induction entries as [| entry entries IH]; intros all_entries all' Hlt H;
    cbn [collect_entries] in H.
  - inversion H; subst. split; [lia |]. exists []. rewrite app_nil_r. reflexivity.
  - minv. destruct (py_eq_str a0 "PractitionerRole"); [| eauto].
    cbn [andb] in H.
    destruct (test_limit <=? Z.of_nat (length (all_entries ++ [a])))%Z eqn:E.
    + inversion H; subst. rewrite length_app in *. cbn [length] in *.
      split; [lia | eauto].
    + apply Z.leb_gt in E. destruct (IH _ _ E H) as (Hle & more & ->).
      split; [exact Hle |]. exists (a :: more). rewrite <- app_assoc. reflexivity.
Qed.

Lemma page_loop_capped test_limit : forall fuel next_url all_entries w result w',
  Z.of_nat (length all_entries) < test_limit ->
  page_loop net py_repr fuel true test_limit next_url all_entries w = (Done result, w') ->
  capped_crawl net py_repr test_limit next_url all_entries w result w' /\
  Z.of_nat (length result) <= test_limit /\
  exists more, result = (all_entries ++ more)%list.
Proof.
  induction fuel as [| fuel IH]; intros next_url all_entries w result w' Hlt H;
    cbn [page_loop] in H; destruct (truthy next_url) eqn:Hurl;
    try (apply ret_done_inv in H as [-> ->];
         split; [apply crawl_no_link; exact Hurl |];
         split; [lia | exists []; rewrite app_nil_r; reflexivity]).
  - discriminate.
  - apply bind_done_inv in H as (bundle & w1 & Hfetch & H).
    destruct (truthy bundle) eqn:Hbundle; cbn [negb] in H.
    + minv.
      assert (Hpage : page_records test_limit all_entries bundle = Ok a1).
      { unfold page_records.
        repeat match goal with
        | Hx : ?r = Ok _ |- context [rbind ?r _] => rewrite Hx; cbn [rbind]
        end. assumption. }
      assert (Hcol : exists items, collect_entries true test_limit items all_entries = Ok a1)
        by eauto.
      destruct Hcol as (items & Hcol).
      destruct (collect_entries_cap _ _ _ _ Hlt Hcol) as (Hle & more & Hmore).
      cbn [andb] in H.
      destruct (test_limit <=? Z.of_nat (length a1))%Z eqn:E.
      * apply ret_done_inv in H as [-> ->]. apply Z.leb_le in E.
        split; [eapply crawl_cap; eauto |]. split; [exact Hle | eauto].
      * apply Z.leb_gt in E. minv.
        assert (Hnext : next_link bundle = Ok a4).
        { unfold next_link.
          repeat match goal with
          | Hx : ?r = Ok _ |- context [rbind ?r _] => rewrite Hx; cbn [rbind]
          end. assumption. }
        destruct (IH _ _ _ _ _ E H) as (Hcrawl & Hres & more' & ->).
        split; [eapply crawl_next; eauto |]. split; [exact Hres |].
        exists (more ++ more')%list. rewrite Hmore, <- app_assoc. reflexivity.
    + apply ret_done_inv in H as [-> ->].
      split; [eapply crawl_absent; eauto |].
      split; [lia | exists []; rewrite app_nil_r; reflexivity].
Qed.

(** C7, as the code has it.  In test mode with a cap of at least one, the
    paginator returns at most [test_limit] records; its run is a capped
    crawl: every page is requested while the count is below the cap, the cap
    is tested when a record is appended and again once the entries of the
    page are done, and at the end of the page that brings the count to the
    cap the paginator returns without another request. *)
Theorem paginator_respects_cap :
  forall fuel base_url test_limit w result w',
    1 <= test_limit ->
    fetch_all_practitioner_roles net urljoin py_repr fuel base_url true test_limit w
    = (Done result, w') ->
    Z.of_nat (length result) <= test_limit /\
    capped_crawl net py_repr test_limit
      (JStr (urljoin (normalize_base base_url) "PractitionerRole?_count=100"))
      [] w result w'.
Proof.
  intros fuel base_url test_limit w result w' Hcap H.
  unfold fetch_all_practitioner_roles in H.
  apply page_loop_capped in H as (Hcrawl & Hlen & _); [| simpl; lia].
  split; assumption.
Qed.

(** * Further properties of the code *)

(** ** Field extraction: names and addresses *)

Lemma join_strs_concat sep (parts : list string) :
  join_strs sep (map JStr parts) = Ok (String.concat sep parts).
Proof.
  induction parts as [| x parts IH]; [reflexivity |].
  cbn [map join_strs as_str rbind]. destruct parts as [| y parts]; [reflexivity |].
  cbn [map] in *. rewrite IH. reflexivity.
Qed.

Lemma truthy_str s : truthy (JStr s) = negb (String.eqb s "").
Proof. reflexivity. Qed.

Lemma truthy_strs (l : list string) :
  (if truthy (JArr (map JStr l)) then py_iter (JArr (map JStr l)) else Ok [])
  = Ok (map JStr l).
Proof. destruct l; reflexivity. Qed.

(** The address of an address object whose lines, city, state and postal
    code are strings: the lines and the other parts that are not empty,
    joined with a comma and a space. *)
Lemma address_string_parts members lines city state postal :
  default (JArr []) (dict_lookup "line" members) = JArr (map JStr lines) ->
  default (JStr "") (dict_lookup "city" members) = JStr city ->
  default (JStr "") (dict_lookup "state" members) = JStr state ->
  default (JStr "") (dict_lookup "postalCode" members) = JStr postal ->
  address_string (JObj members)
  = Ok (String.concat ", " (lines ++ nonempty [city; state; postal])%list).
Proof.
  intros Hline Hcity Hstate Hpostal. unfold address_string, py_get.
  cbn [rbind]. rewrite Hline, Hcity, Hstate, Hpostal, truthy_strs. cbn [rbind].
  rewrite !truthy_str. unfold nonempty. cbn [List.filter].
  rewrite <- join_strs_concat.
  destruct (String.eqb city ""), (String.eqb state ""), (String.eqb postal "");
    cbn [negb]; f_equal; rewrite ?map_app; cbn [map];
    rewrite <- ?app_assoc, ?app_nil_r; reflexivity.
Qed.

(** X1.  The name of a practitioner is read off the first entry of the name
    list only: its family name as it is and its given names joined by single
    spaces.  Without data or without a name entry both fields are empty. *)
Theorem practitioner_name_first_entry :
  (forall practitioner_data,
      truthy practitioner_data = false ->
      extract_practitioner_name practitioner_data
      = Ok {| ni_family := JStr ""; ni_given := "" |}) /\
  (forall members,
      members <> [] ->
      default (JArr []) (dict_lookup "name" members) = JArr [] ->
      extract_practitioner_name (JObj members)
      = Ok {| ni_family := JStr ""; ni_given := "" |}) /\
  (forall members name_members others givens,
      dict_lookup "name" members = Some (JArr (JObj name_members :: others)) ->
      default (JArr []) (dict_lookup "given" name_members) = JArr (map JStr givens) ->
      extract_practitioner_name (JObj members)
      = Ok {| ni_family := default (JStr "") (dict_lookup "family" name_members);
              ni_given := String.concat " " givens |}).
Proof.
  split; [| split].
  - intros pd H. unfold extract_practitioner_name. rewrite H. reflexivity.
  - intros members Hne Hname.
    assert (Ht : truthy (JObj members) = true)
      by (destruct members; [congruence | reflexivity]).
    unfold extract_practitioner_name. rewrite Ht. cbn [negb py_get rbind].
    rewrite Hname. reflexivity.
  - intros members name_members others givens Hname Hgiven.
    assert (Ht : truthy (JObj members) = true)
      by (destruct members; [discriminate | reflexivity]).
    unfold extract_practitioner_name. rewrite Ht. cbn [negb py_get rbind].
    rewrite Hname. cbn [default id truthy py_index0 rbind py_get].
    rewrite Hgiven. destruct givens as [| g givens]; [reflexivity |].
    cbn [map truthy]. unfold py_join. cbn [py_iter rbind].
    change (JStr g :: map JStr givens) with (map JStr (g :: givens)).
    rewrite join_strs_concat. reflexivity.
Qed.

(** X2.  The summary of a location: name and status as they are, and the address
    of its single address object; a location without an address key has the
    empty address. *)
Theorem location_summary_address :
  forall members address_members lines city state postal,
    members <> [] ->
    default (JObj []) (dict_lookup "address" members) = JObj address_members ->
    default (JArr []) (dict_lookup "line" address_members) = JArr (map JStr lines) ->
    default (JStr "") (dict_lookup "city" address_members) = JStr city ->
    default (JStr "") (dict_lookup "state" address_members) = JStr state ->
    default (JStr "") (dict_lookup "postalCode" address_members) = JStr postal ->
    extract_location_info (JObj members)
    = Ok {| li_name := default (JStr "") (dict_lookup "name" members);
            li_status := default (JStr "") (dict_lookup "status" members);
            li_address :=
              String.concat ", " (lines ++ nonempty [city; state; postal])%list |}.
Proof.
  intros members am lines city state postal Hne Haddr Hline Hcity Hstate Hpostal.
  assert (Ht : truthy (JObj members) = true)
    by (destruct members; [congruence | reflexivity]).
  unfold extract_location_info. rewrite Ht. cbn [negb py_get rbind].
  rewrite Haddr, (address_string_parts _ _ _ _ _ Hline Hcity Hstate Hpostal).
  reflexivity.
Qed.

(** X3.  The summary of an organization: the type is the display text of the
    first coding of the first type, or its code when it has no display text;
    the address is that of the first address entry; later types, codings and
    addresses are not read. *)
Theorem organization_summary_first_entries :
  forall members type_members other_types coding_members other_codings
         address_members other_addresses lines city state postal,
    dict_lookup "type" members = Some (JArr (JObj type_members :: other_types)) ->
    dict_lookup "coding" type_members
    = Some (JArr (JObj coding_members :: other_codings)) ->
    dict_lookup "address" members
    = Some (JArr (JObj address_members :: other_addresses)) ->
    default (JArr []) (dict_lookup "line" address_members) = JArr (map JStr lines) ->
    default (JStr "") (dict_lookup "city" address_members) = JStr city ->
    default (JStr "") (dict_lookup "state" address_members) = JStr state ->
    default (JStr "") (dict_lookup "postalCode" address_members) = JStr postal ->
    extract_organization_info (JObj members)
    = Ok {| oi_name := default (JStr "") (dict_lookup "name" members);
            oi_type :=
              match dict_lookup "display" coding_members with
              | Some display => display
              | None => default (JStr "") (dict_lookup "code" coding_members)
              end;
            oi_address :=
              String.concat ", " (lines ++ nonempty [city; state; postal])%list |}.
Proof.
  intros members tm ot cm oc am oa lines city state postal
         Htype Hcoding Haddr Hline Hcity Hstate Hpostal.
  assert (Ht : truthy (JObj members) = true)
    by (destruct members; [discriminate | reflexivity]).
  unfold extract_organization_info. rewrite Ht. cbn [negb py_get rbind].
  rewrite Htype, Haddr. cbn [default id truthy py_index0 rbind py_get].
  rewrite Hcoding. cbn [default id truthy py_index0 rbind py_get].
  rewrite (address_string_parts _ _ _ _ _ Hline Hcity Hstate Hpostal).
  cbn [rbind]. destruct (dict_lookup "display" cm); reflexivity.
Qed.

(** ** The id of a reference *)

Lemma split_last_from_plain : forall s cur,
  occurs "/" s = false -> split_last_from cur s = cur +:+ s.
Proof.
  induction s as [| c s IH]; intros cur H; cbn [split_last_from].
  - clear H. induction cur as [| x cur IHc]; [reflexivity |].
    rewrite append_cons, <- IHc. reflexivity.
  - cbn [occurs] in H. apply orb_false_iff in H as [Hc Hs].
    destruct (Ascii.eqb c "/") eqn:E.
    + apply Ascii.eqb_eq in E. subst c. rewrite Ascii.eqb_refl in Hc. discriminate.
    + rewrite (IH _ Hs), append_assoc_str. reflexivity.
Qed.

Lemma split_last_from_slash : forall p cur s,
  split_last_from cur (p +:+ String "/" s) = split_last_from "" s.
Proof.
  induction p as [| c p IH]; intros cur s.
  - reflexivity.
  - rewrite append_cons. cbn [split_last_from]. destruct (Ascii.eqb c "/"); apply IH.
Qed.

Lemma split_last_from_no_slash : forall s cur,
  occurs "/" cur = false -> occurs "/" (split_last_from cur s) = false.
Proof.
  induction s as [| c s IH]; intros cur H; cbn [split_last_from]; [exact H |].
  destruct (Ascii.eqb c "/") eqn:E; [apply IH; reflexivity |].
  apply IH. clear IH. induction cur as [| x cur IHc].
  - change ("" +:+ String c "") with (String c ""). cbn [occurs]. rewrite orb_false_r.
    destruct (Ascii.eqb "/" c) eqn:E'; [| reflexivity].
    apply Ascii.eqb_eq in E'. subst c. rewrite Ascii.eqb_refl in E. discriminate.
  - rewrite append_cons. cbn [occurs] in *. apply orb_false_iff in H as [Hx Hc].
    rewrite Hx, (IHc Hc). reflexivity.
Qed.

(** X4.  The cache key of a reference is what follows its last slash: it holds
    no slash, a reference without a slash is its own key, and
    "<anything>/<id>" has the key [id] when [id] holds no slash. *)
Theorem reference_id_is_last_segment :
  (forall ref, occurs "/" (split_last ref) = false) /\
  (forall ref, occurs "/" ref = false -> split_last ref = ref) /\
  (forall prefix rest, split_last (prefix +:+ String "/" rest) = split_last rest) /\
  (forall prefix id,
      occurs "/" id = false -> split_last (prefix +:+ String "/" id) = id).
Proof.
  unfold split_last. repeat split.
  - intros ref. apply split_last_from_no_slash. reflexivity.
  - intros ref H. rewrite (split_last_from_plain _ _ H). reflexivity.
  - intros prefix rest. apply split_last_from_slash.
  - intros prefix id H.
    rewrite split_last_from_slash, (split_last_from_plain _ _ H). reflexivity.
Qed.

(** ** The time a fetch may sleep *)

Lemma total_sleep_app tr1 tr2 :
  total_sleep (tr1 ++ tr2) = total_sleep tr1 + total_sleep tr2.
Proof.
  induction tr1 as [| e tr1 IH]; [reflexivity |].
  destruct e; cbn [app total_sleep]; rewrite IH; lia.
Qed.

Lemma total_sleep_schedule url : forall k a,
  0 <= a ->
  total_sleep (backoff_schedule url a (S k)) = 2 ^ (a + Z.of_nat k) - 2 ^ a.
Proof.
  induction k as [| k IH]; intros a Ha.
  - cbn [backoff_schedule total_sleep]. rewrite Z.add_0_r. lia.
  - change (backoff_schedule url a (S (S k)))
      with (EvGet url a :: EvSleep (2 ^ a) :: backoff_schedule url (a + 1) (S k)).
    cbn [total_sleep]. rewrite IH by lia.
    replace (a + Z.of_nat (S k)) with (a + 1 + Z.of_nat k) by lia.
    rewrite (Z.pow_add_r 2 a 1) by lia. lia.
Qed.

(** X5.  A call of the fetcher never sleeps after its last attempt: with
    [max_retries] attempts allowed it sleeps at most
    [2 ^ (max_retries - 1) - 1] seconds in all, three seconds with the
    default; it does not sleep at all when the first attempt succeeds; and
    with no attempt allowed it makes no request and returns [None]. *)
Theorem fetch_sleep_budget :
  forall url max_retries w,
    exists k body,
      fetch_fhir_resource net url max_retries w
      = (Done body,
         mkWorld (requests w + k)
           (trace w ++ backoff_schedule url 0 k)%list (files w)) /\
      0 <= total_sleep (backoff_schedule url 0 k) /\
      (1 <= max_retries ->
       total_sleep (backoff_schedule url 0 k) <= 2 ^ (max_retries - 1) - 1) /\
      (max_retries <= 0 -> k = 0%nat /\ body = JNull) /\
      (forall first,
          1 <= max_retries -> net (requests w) url = HttpOk first ->
          k = 1%nat /\ body = first).
Proof.
  intros url max_retries w.
  destruct (fetch_schedule url max_retries w)
    as (k & body & Hrun & Hle & Hk & Hfail & Hres).
  exists k, body. split; [exact Hrun |].
  assert (Hsleep : total_sleep (backoff_schedule url 0 k)
                   = match k with O => 0 | S k' => 2 ^ Z.of_nat k' - 1 end).
  { destruct k as [| k']; [reflexivity |].
    rewrite total_sleep_schedule by lia. rewrite Z.add_0_l. reflexivity. }
  rewrite Hsleep. split; [| split; [| split]].
  - destruct k as [| k']; [lia |].
    pose proof (Z.pow_pos_nonneg 2 (Z.of_nat k')). lia.
  - intros Hmax. destruct k as [| k'].
    + pose proof (Z.pow_pos_nonneg 2 (max_retries - 1)). lia.
    + assert (2 ^ Z.of_nat k' <= 2 ^ (max_retries - 1))
        by (apply Z.pow_le_mono_r; lia).
      lia.
  - intros Hmax. assert (k = 0%nat) by lia. subst k. split; [reflexivity |].
    destruct Hres as [[Hne _] | (Hb & _)]; [congruence | exact Hb].
  - intros first Hmax Hok.
    assert (Hone : k = 1%nat).
    { destruct k as [| [| k']]; [exfalso; apply Hk; [lia | reflexivity] | reflexivity |].
      specialize (Hfail 0%nat ltac:(lia)). rewrite Nat.add_0_r in Hfail. congruence. }
    subst k. split; [reflexivity |].
    destruct Hres as [[_ Hbody] | (_ & _ & Hall)].
    + cbn in Hbody. rewrite Nat.add_0_r in Hbody. congruence.
    + specialize (Hall 0%nat ltac:(lia)). rewrite Nat.add_0_r in Hall. congruence.
Qed.

(** ** The base url *)

(** X6.  The base url a payer is crawled with always ends with a slash: a base
    that has one is kept, the others get one, and normalizing twice changes
    nothing.  With fuel for a page, the first request of the paginator goes to
    the PractitionerRole collection under that base, with a page size of 100
    (unless [urljoin] returns the empty string, when nothing is requested). *)
Theorem base_url_normalized :
  forall base_url,
    endswith_slash (normalize_base base_url) = true /\
    (endswith_slash base_url = true -> normalize_base base_url = base_url) /\
    normalize_base (normalize_base base_url) = normalize_base base_url /\
    (forall fuel test_mode test_limit w,
        let first := urljoin (normalize_base base_url) "PractitionerRole?_count=100" in
        fuel <> 0%nat ->
        exists evs,
          trace (snd (fetch_all_practitioner_roles net urljoin py_repr fuel base_url
                        test_mode test_limit w))
          = (trace w ++ if String.eqb first "" then [] else EvGet first 0 :: evs)%list).
Proof.
  intros base_url.
  assert (Hslash : endswith_slash (normalize_base base_url) = true).
  { unfold normalize_base. destruct (endswith_slash base_url) eqn:E;
      [exact E | apply endswith_slash_append]. }
  split; [exact Hslash |]. split; [| split; [apply normalize_base_idem |]].
  - intros H. unfold normalize_base. rewrite H. reflexivity.
  - intros fuel test_mode test_limit w first Hfuel.
    unfold fetch_all_practitioner_roles. fold first.
    destruct fuel as [| fuel]; [congruence |]. cbn [page_loop].
    rewrite truthy_str. destruct (String.eqb first ""); cbn [negb].
    + exists []. rewrite app_nil_r. reflexivity.
    + cbn [py_str].
      destruct (fetch_schedule first 3 w) as (k & body & Hrun & _ & Hk & _).
      destruct k as [| k]; [exfalso; apply Hk; [lia | reflexivity] |].
      set (w1 := mkWorld (requests w + S k)
                   (trace w ++ backoff_schedule first 0 (S k))%list (files w)) in *.
      match goal with
      | |- context [bind (fetch_fhir_resource net first 3) ?k] => set (rest := k)
      end.
      assert (Hrest : exists evs', trace (snd (bind (fetch_fhir_resource net first 3) rest w))
                                   = (trace w1 ++ evs')%list).
      { unfold bind. rewrite Hrun.
        assert (Hp : preserves net_only (rest body)).
        { subst rest. cbv beta.
          destruct (negb (truthy body)); [pres |].
          apply preserves_bind; [exact _ | pres | intros entries].
          apply preserves_bind; [exact _ | pres | intros items].
          apply preserves_bind; [exact _ | pres | intros all'].
          destruct (test_mode && _); [pres |].
          apply preserves_bind; [exact _ | pres | intros links].
          apply preserves_bind; [exact _ | pres | intros links'].
          apply preserves_bind; [exact _ | pres | intros next].
          apply page_loop_net_only. }
        destruct (Hp w1) as [_ (evs' & Ht & _)]. eauto. }
      destruct Hrest as (evs' & Ht). rewrite Ht. subst w1. cbn [trace].
      destruct k as [| k'].
      * exists evs'. cbn [backoff_schedule]. rewrite <- app_assoc. reflexivity.
      * change (backoff_schedule first 0 (S (S k')))
          with (EvGet first 0 :: EvSleep (2 ^ 0) :: backoff_schedule first (0 + 1) (S k')).
        eexists. rewrite <- app_assoc. cbn [app]. reflexivity.
Qed.

(** ** Paginator: what a page contributes *)

Lemma entry_record_kept entry resource rt :
  py_get entry "resource" (JObj []) = Ok resource ->
  py_get resource "resourceType" JNull = Ok rt ->
  entry_record entry
  = if py_eq_str rt "PractitionerRole" then Some resource else None.
Proof. intros H1 H2. unfold entry_record. rewrite H1, H2. reflexivity. Qed.

Lemma entry_record_role entry resource :
  entry_record entry = Some resource -> is_practitioner_role resource.
Proof.
  unfold entry_record.
  destruct (py_get entry "resource" (JObj [])) as [r |]; [| discriminate].
  destruct (py_get r "resourceType" JNull) as [rt |] eqn:Ert; [| discriminate].
  destruct (py_eq_str rt "PractitionerRole") eqn:E; [| discriminate].
  intros H. inversion H; subst r.
  destruct resource as [| | | | | members]; try discriminate.
  exists members. split; [reflexivity |]. cbn [py_get] in Ert. inversion Ert as [Hrt].
  destruct rt as [| | | s | |]; try discriminate.
  cbn [py_eq_str] in E. apply String.eqb_eq in E. subst s.
  destruct (dict_lookup "resourceType" members);
    [cbn in Hrt; congruence | discriminate].
Qed.

Lemma omap_step {A B} (f : A -> option B) x l :
  omap f (x :: l) = match f x with Some y => y :: omap f l | None => omap f l end.
Proof. reflexivity. Qed.

(** The entries of a page in full mode: every PractitionerRole entry is
    kept, in the order of the page. *)
Lemma collect_entries_full test_limit : forall entries all_entries all_entries',
  collect_entries false test_limit entries all_entries = Ok all_entries' ->
  all_entries' = (all_entries ++ omap entry_record entries)%list.
Proof.
  induction entries as [| entry entries IH]; intros all_entries all' H;
    cbn [collect_entries] in H.
  - inversion H. rewrite app_nil_r. reflexivity.
  - minv. rewrite omap_step, (entry_record_kept _ _ _ Hr Hr0).
    destruct (py_eq_str a0 "PractitionerRole"); cbn [andb] in H.
    + rewrite (IH _ _ H), <- app_assoc. reflexivity.
    + apply IH, H.
Qed.

(** The entries of a page in test mode: a prefix of its PractitionerRole
    entries is kept, all of them when the cap is not reached. *)
Lemma collect_entries_test test_limit : forall entries all_entries all_entries',
  collect_entries true test_limit entries all_entries = Ok all_entries' ->
  exists kept,
    all_entries' = (all_entries ++ kept)%list /\
    kept `prefix_of` omap entry_record entries /\
    (Z.of_nat (length all_entries') < test_limit -> kept = omap entry_record entries).
Proof.
  induction entries as [| entry entries IH]; intros all_entries all' H;
    cbn [collect_entries] in H.
  - inversion H. exists []. rewrite app_nil_r. repeat split. reflexivity.
  - minv. rewrite omap_step, (entry_record_kept _ _ _ Hr Hr0).
    destruct (py_eq_str a0 "PractitionerRole"); cbn [andb] in H.
    + destruct (test_limit <=? Z.of_nat (length (all_entries ++ [a])))%Z eqn:E.
      * inversion H; subst all'. exists [a]. split; [reflexivity |]. split.
        -- exists (omap entry_record entries). reflexivity.
        -- apply Z.leb_le in E. lia.
      * destruct (IH _ _ H) as (kept & -> & Hpre & Hall).
        exists (a :: kept). rewrite <- app_assoc. split; [reflexivity |]. split.
        -- apply prefix_cons, Hpre.
        -- intros Hlt. rewrite Hall; [reflexivity |].
           rewrite <- app_assoc. exact Hlt.
    + apply IH, H.
Qed.

Lemma page_loop_roles test_mode test_limit : forall fuel next_url all_entries w result w',
  Forall is_practitioner_role all_entries ->
  page_loop net py_repr fuel test_mode test_limit next_url all_entries w
  = (Done result, w') ->
  Forall is_practitioner_role result.
Proof.
  induction fuel as [| fuel IH]; intros next_url all_entries w result w' Hall H;
    cbn [page_loop] in H; destruct (truthy next_url);
    try (apply ret_done_inv in H as [-> ->]; exact Hall).
  - discriminate.
  - apply bind_done_inv in H as (bundle & w1 & _ & H).
    destruct (negb (truthy bundle)); [apply ret_done_inv in H as [-> ->]; exact Hall |].
    minv.
    assert (Hall' : Forall is_practitioner_role a1).
    { destruct test_mode.
      - match goal with
        | Hc : collect_entries true _ _ _ = Ok _ |- _ =>
            apply collect_entries_test in Hc as (kept & -> & [rest Hpre] & _)
        end.
        apply Forall_app. split; [exact Hall |].
        apply Forall_forall. intros r Hr.
        assert (Hin : r ∈ omap entry_record a0)
          by (rewrite Hpre; apply elem_of_app; left; exact Hr).
        apply list_elem_of_omap in Hin as (entry & _ & Hrec).
        eapply entry_record_role; eauto.
      - match goal with
        | Hc : collect_entries false _ _ _ = Ok _ |- _ =>
            apply collect_entries_full in Hc; subst a1
        end.
        apply Forall_app. split; [exact Hall |].
        apply Forall_forall. intros r Hr.
        apply list_elem_of_omap in Hr as (entry & _ & Hrec).
        eapply entry_record_role; eauto. }
    destruct (test_mode && _); [apply ret_done_inv in H as [-> ->]; exact Hall' |].
    minv. eapply IH; eauto.
Qed.

(** X7.  Whatever the pages hold, every record the paginator returns is a dict
    whose resourceType is "PractitionerRole"; on one page a full crawl keeps
    all such entries in order, a capped crawl a prefix of them. *)
Theorem paginator_keeps_practitioner_roles :
  (forall fuel base_url test_mode test_limit w result w',
      fetch_all_practitioner_roles net urljoin py_repr fuel base_url test_mode
        test_limit w = (Done result, w') ->
      Forall is_practitioner_role result) /\
  (forall test_limit entries all_entries all_entries',
      collect_entries false test_limit entries all_entries = Ok all_entries' ->
      all_entries' = (all_entries ++ omap entry_record entries)%list) /\
  (forall test_limit entries all_entries all_entries',
      collect_entries true test_limit entries all_entries = Ok all_entries' ->
      exists kept,
        all_entries' = (all_entries ++ kept)%list /\
        kept `prefix_of` omap entry_record entries /\
        (Z.of_nat (length all_entries') < test_limit ->
         kept = omap entry_record entries)).
Proof.
  split; [| split].
  - intros fuel base_url test_mode test_limit w result w' H.
    unfold fetch_all_practitioner_roles in H.
    eapply page_loop_roles; [| exact H]. constructor.
  - apply collect_entries_full.
  - apply collect_entries_test.
Qed.

(** ** The limit outside test mode *)

Lemma collect_entries_limit_unused l1 l2 : forall entries all_entries,
  collect_entries false l1 entries all_entries
  = collect_entries false l2 entries all_entries.
Proof.
  induction entries as [| entry entries IH]; intros all_entries; [reflexivity |].
  cbn [collect_entries].
  destruct (py_get entry "resource" (JObj [])) as [r |]; [| reflexivity]. cbn [rbind].
  destruct (py_get r "resourceType" JNull) as [rt |]; [| reflexivity]. cbn [rbind andb].
  destruct (py_eq_str rt "PractitionerRole"); apply IH.
Qed.

Lemma bind_ext {A B} (m : M A) (k1 k2 : A -> M B) w :
  (forall a w', k1 a w' = k2 a w') -> bind m k1 w = bind m k2 w.
Proof. intros H. unfold bind. destruct (m w) as [[a | e |] w']; auto. Qed.

Lemma page_loop_limit_unused l1 l2 : forall fuel next_url all_entries w,
  page_loop net py_repr fuel false l1 next_url all_entries w
  = page_loop net py_repr fuel false l2 next_url all_entries w.
Proof.
  induction fuel as [| fuel IH]; intros next_url all_entries w; [reflexivity |].
  cbn [page_loop]. destruct (truthy next_url); [| reflexivity].
  apply bind_ext. intros bundle w1. destruct (negb (truthy bundle)); [reflexivity |].
  apply bind_ext. intros entries w2. apply bind_ext. intros items w3.
  rewrite (collect_entries_limit_unused l1 l2).
  apply bind_ext. intros all' w4. cbn [andb].
  apply bind_ext. intros links w5. apply bind_ext. intros links' w6.
  apply bind_ext. intros next w7. apply IH.
Qed.

(** X8.  Outside test mode the limit plays no part: the run of a payer is the
    same for every value of [--limit]. *)
Theorem limit_unused_outside_test_mode :
  forall fuel p limit1 limit2 w,
    process_payer net urljoin py_repr fuel p false limit1 w
    = process_payer net urljoin py_repr fuel p false limit2 w.
Proof.
  intros fuel p l1 l2 w. unfold process_payer.
  apply bind_ext. intros name w1. apply bind_ext. intros stub w2.
  apply bind_ext. intros url w3. apply bind_ext. intros u w4.
  unfold fetch_all_practitioner_roles, bind.
  rewrite (page_loop_limit_unused l1 l2). reflexivity.
Qed.

(** ** The relationship rows of a run, record by record *)

Section Rows.

Variable base_url : string.

Local Abbreviation role_url' := (role_url urljoin py_repr base_url).

Lemma field_get v k x : py_get v k (JStr "") = Ok x -> field v k = x.
Proof. unfold field. intros ->. reflexivity. Qed.

Lemma items_of_get v k l items :
  py_get v k (JArr []) = Ok l -> py_iter l = Ok items -> items_of v k = items.
Proof. unfold items_of. intros -> . simpl. intros ->. reflexivity. Qed.

Lemma organization_step_refl pr t : organization_step urljoin py_repr base_url pr t t.
Proof.
  split; try reflexivity. exists []. rewrite app_nil_r. split; [reflexivity | constructor].
Qed.

Lemma organization_step_trans pr t1 t2 t3 :
  organization_step urljoin py_repr base_url pr t1 t2 ->
  organization_step urljoin py_repr base_url pr t2 t3 ->
  organization_step urljoin py_repr base_url pr t1 t3.
Proof.
  intros [(r1 & E1 & F1) L1 P1 S1 T1] [(r2 & E2 & F2) L2 P2 S2 T2].
  split; try congruence.
  exists (r1 ++ r2)%list. split.
  - rewrite E2, E1, <- app_assoc. reflexivity.
  - apply Forall_app; split; assumption.
Qed.

Lemma location_step_refl pr t : location_step urljoin py_repr base_url pr t t.
Proof.
  split; try reflexivity. exists []. rewrite app_nil_r. split; [reflexivity | constructor].
Qed.

Lemma location_step_trans pr t1 t2 t3 :
  location_step urljoin py_repr base_url pr t1 t2 ->
  location_step urljoin py_repr base_url pr t2 t3 ->
  location_step urljoin py_repr base_url pr t1 t3.
Proof.
  intros [O1 (r1 & E1 & F1) P1 S1 T1] [O2 (r2 & E2 & F2) P2 S2 T2].
  split; try congruence.
  exists (r1 ++ r2)%list. split.
  - rewrite E2, E1, <- app_assoc. reflexivity.
  - apply Forall_app; split; assumption.
Qed.

Lemma add_organization_step pr pr_id t org_ref w t' w' :
  field pr "id" = pr_id ->
  String.prefix "Organization/" org_ref = true ->
  add_organization net urljoin py_repr base_url pr_id t org_ref w = (Done t', w') ->
  organization_step urljoin py_repr base_url pr t t'.
Proof.
  unfold add_organization. intros Hid Hpre H. minv.
  split; try reflexivity.
  eexists. split; [reflexivity |].
  constructor; [| constructor].
  unfold org_row_from, role_url. rewrite Hid. auto.
Qed.

Lemma process_extension_step pr pr_id t ext w t' w' :
  field pr "id" = pr_id ->
  process_extension net urljoin py_repr base_url pr_id t ext w = (Done t', w') ->
  organization_step urljoin py_repr base_url pr t t'.
Proof.
  unfold process_extension. intros Hid H. minv.
  destruct (py_eq_str _ network_reference); [| minv; apply organization_step_refl].
  minv.
  match type of H with
  | (if String.prefix _ ?r then _ else _) _ = _ =>
      destruct (String.prefix "Organization/" r) eqn:Hpre
  end; [| minv; apply organization_step_refl].
  eapply add_organization_step; eauto.
Qed.

Lemma process_organization_step pr pr_id t w t' w' :
  field pr "id" = pr_id ->
  process_organization net urljoin py_repr base_url pr_id t pr w = (Done t', w') ->
  organization_step urljoin py_repr base_url pr t t'.
Proof.
  unfold process_organization. intros Hid H. minv.
  destruct (truthy _); [| minv; apply organization_step_refl].
  minv.
  match type of H with
  | (if String.prefix _ ?r then _ else _) _ = _ =>
      destruct (String.prefix "Organization/" r) eqn:Hpre
  end; [| minv; apply organization_step_refl].
  eapply add_organization_step; eauto.
Qed.

Lemma process_location_step pr pr_id t loc w t' w' :
  field pr "id" = pr_id ->
  process_location net urljoin py_repr base_url pr_id t loc w = (Done t', w') ->
  location_step urljoin py_repr base_url pr t t'.
Proof.
  unfold process_location. intros Hid H. minv.
  destruct (truthy _); [| minv; apply location_step_refl].
  minv.
  match type of H with
  | (if String.prefix _ ?r then _ else _) _ = _ =>
      destruct (String.prefix "Location/" r) eqn:Hpre
  end; [| minv; apply location_step_refl].
  minv. split; try reflexivity.
  eexists. split; [reflexivity |].
  constructor; [| constructor].
  unfold location_row_from, role_url. rewrite Hid. auto.
Qed.

Lemma process_practitioner_step pr pr_id t w t' w' :
  field pr "id" = pr_id ->
  process_practitioner net urljoin py_repr base_url pr_id t pr w = (Done t', w') ->
  practitioner_step urljoin py_repr base_url pr t t'.
Proof.
  assert (Hrefl : practitioner_step urljoin py_repr base_url pr t t).
  { split; try reflexivity. exists []. rewrite app_nil_r.
    split; [reflexivity |]. split; [constructor | simpl; lia]. }
  unfold process_practitioner. intros Hid H. minv.
  destruct (truthy _); [| minv; exact Hrefl].
  minv.
  match type of H with
  | (if String.prefix _ ?r then _ else _) _ = _ =>
      destruct (String.prefix "Practitioner/" r) eqn:Hpre
  end; [| minv; exact Hrefl].
  minv. split; try reflexivity.
  eexists. split; [reflexivity |]. split; [| simpl; lia].
  constructor; [| constructor].
  unfold practitioner_row_from, role_url. rewrite Hid. auto.
Qed.

Lemma extensions_step pr pr_id exts t w t' w' :
  field pr "id" = pr_id ->
  foldM (process_extension net urljoin py_repr base_url pr_id) exts t w = (Done t', w') ->
  organization_step urljoin py_repr base_url pr t t'.
Proof.
  intros Hid.
  apply (foldM_done_invariant _ (fun s _ => organization_step urljoin py_repr base_url pr t s)).
  - intros s x w1 s' w1' Hs Hx.
    eapply organization_step_trans; [exact Hs |].
    eapply process_extension_step; eauto.
  - apply organization_step_refl.
Qed.

Lemma locations_step pr pr_id locs t w t' w' :
  field pr "id" = pr_id ->
  foldM (process_location net urljoin py_repr base_url pr_id) locs t w = (Done t', w') ->
  location_step urljoin py_repr base_url pr t t'.
Proof.
  intros Hid.
  apply (foldM_done_invariant _ (fun s _ => location_step urljoin py_repr base_url pr t s)).
  - intros s x w1 s' w1' Hs Hx.
    eapply location_step_trans; [exact Hs |].
    eapply process_location_step; eauto.
  - apply location_step_refl.
Qed.

Lemma telecom_rows_fold pr pr_id : field pr "id" = pr_id ->
  forall telecoms rows rows',
  rfold (telecom_row urljoin py_repr base_url pr_id) telecoms rows = Ok rows' ->
  rows' = (rows ++ map (fun telecom =>
             {| ttp_practitioner_role_fhir_url := role_url' pr;
                ttp_telecom_system := field telecom "system";
                ttp_telecom_value := field telecom "value";
                ttp_telecom_use := field telecom "use" |}) telecoms)%list.
Proof.
  intros Hid telecoms. induction telecoms as [| x xs IH]; intros rows rows' H; simpl in H.
  - inversion H. rewrite app_nil_r. reflexivity.
  - apply rbind_ok_inv in H as (s1 & H1 & H2).
    apply IH in H2. subst rows'.
    unfold telecom_row in H1.
    apply rbind_ok_inv in H1 as (sy & Hsy & H1).
    apply rbind_ok_inv in H1 as (va & Hva & H1).
    apply rbind_ok_inv in H1 as (us & Hus & H1).
    inversion H1; subst s1.
    rewrite <- app_assoc. simpl.
    unfold role_url. rewrite Hid.
    rewrite (field_get _ _ _ Hsy), (field_get _ _ _ Hva), (field_get _ _ _ Hus).
    reflexivity.
Qed.

Lemma coding_rows_fold pr pr_id : field pr "id" = pr_id ->
  forall codings rows rows',
  rfold (specialty_coding_row urljoin py_repr base_url pr_id) codings rows = Ok rows' ->
  rows' = (rows ++ map (fun coding =>
             {| stp_practitioner_role_fhir_url := role_url' pr;
                stp_specialty_code := field coding "code";
                stp_specialty_display := field coding "display";
                stp_specialty_system := field coding "system" |}) codings)%list.
Proof.
  intros Hid codings. induction codings as [| x xs IH]; intros rows rows' H; simpl in H.
  - inversion H. rewrite app_nil_r. reflexivity.
  - apply rbind_ok_inv in H as (s1 & H1 & H2).
    apply IH in H2. subst rows'.
    unfold specialty_coding_row in H1.
    apply rbind_ok_inv in H1 as (co & Hco & H1).
    apply rbind_ok_inv in H1 as (di & Hdi & H1).
    apply rbind_ok_inv in H1 as (sy & Hsy & H1).
    inversion H1; subst s1.
    rewrite <- app_assoc. simpl.
    unfold role_url. rewrite Hid.
    rewrite (field_get _ _ _ Hco), (field_get _ _ _ Hdi), (field_get _ _ _ Hsy).
    reflexivity.
Qed.

Lemma specialty_rows_fold pr pr_id : field pr "id" = pr_id ->
  forall specialties rows rows',
  rfold (specialty_rows urljoin py_repr base_url pr_id) specialties rows = Ok rows' ->
  rows' = (rows ++ flat_map (fun specialty =>
             map (fun coding =>
                    {| stp_practitioner_role_fhir_url := role_url' pr;
                       stp_specialty_code := field coding "code";
                       stp_specialty_display := field coding "display";
                       stp_specialty_system := field coding "system" |})
               (items_of specialty "coding")) specialties)%list.
Proof.
  intros Hid specialties.
  induction specialties as [| x xs IH]; intros rows rows' H; simpl in H.
  - inversion H. rewrite app_nil_r. reflexivity.
  - apply rbind_ok_inv in H as (s1 & H1 & H2).
    apply IH in H2. subst rows'.
    unfold specialty_rows in H1.
    apply rbind_ok_inv in H1 as (l & Hl & H1).
    apply rbind_ok_inv in H1 as (codings & Hc & H1).
    apply (coding_rows_fold pr pr_id Hid) in H1. subst s1.
    simpl. rewrite (items_of_get _ _ _ _ Hl Hc), <- app_assoc. reflexivity.
Qed.

(** What one record adds to the five relationship tables. *)
Lemma process_role_rows t pr w t' w' :
  process_role net urljoin py_repr base_url t pr w = (Done t', w') ->
  role_rows urljoin py_repr base_url pr t t'.
Proof.
  unfold process_role. intros H.
  apply bind_done_inv in H as (pr_id & w1 & Hid & H).
  apply lift_done_inv in Hid as [Hid ->]. apply field_get in Hid.
  apply bind_done_inv in H as (exts0 & w2 & He0 & H). apply lift_done_inv in He0 as [He0 ->].
  apply bind_done_inv in H as (exts & w2 & He & H). apply lift_done_inv in He as [He ->].
  apply bind_done_inv in H as (t1 & w2 & H1 & H).
  apply (extensions_step pr pr_id _ _ _ _ _ Hid) in H1.
  apply bind_done_inv in H as (t2 & w3 & H2 & H).
  apply (process_organization_step pr pr_id _ _ _ _ Hid) in H2.
  apply bind_done_inv in H as (t3 & w4 & H3 & H).
  apply (process_practitioner_step pr pr_id _ _ _ _ Hid) in H3.
  apply bind_done_inv in H as (locs0 & w5 & Hl0 & H). apply lift_done_inv in Hl0 as [Hl0 ->].
  apply bind_done_inv in H as (locs & w5 & Hl & H). apply lift_done_inv in Hl as [Hl ->].
  apply bind_done_inv in H as (t4 & w5 & H4 & H).
  apply (locations_step pr pr_id _ _ _ _ _ Hid) in H4.
  apply bind_done_inv in H as (sp0 & w6 & Hs0 & H). apply lift_done_inv in Hs0 as [Hs0 ->].
  apply bind_done_inv in H as (sp & w6 & Hs & H). apply lift_done_inv in Hs as [Hs ->].
  apply bind_done_inv in H as (spec_rows & w6 & Hsr & H). apply lift_done_inv in Hsr as [Hsr ->].
  apply bind_done_inv in H as (te0 & w6 & Ht0 & H). apply lift_done_inv in Ht0 as [Ht0 ->].
  apply bind_done_inv in H as (te & w6 & Ht & H). apply lift_done_inv in Ht as [Ht ->].
  apply bind_done_inv in H as (tele_rows & w6 & Htr & H). apply lift_done_inv in Htr as [Htr ->].
  apply ret_done_inv in H as [-> ->].
  pose proof (organization_step_trans _ _ _ _ H1 H2) as H12.
  destruct H12 as [(ro & Eo & Fo) L12 P12 S12 T12].
  destruct H3 as [O3 L3 (rp & Ep & Fp & Lp) S3 T3].
  destruct H4 as [O4 (rl & El & Fl) P4 S4 T4].
  apply (specialty_rows_fold pr pr_id Hid) in Hsr.
  apply (telecom_rows_fold pr pr_id Hid) in Htr.
  split; cbn [org_to_pr_rows location_to_pr_rows p_to_pr_rows spec_to_pr_rows tele_to_pr_rows].
  - exists ro. split; [congruence | exact Fo].
  - exists rl. split; [congruence | exact Fl].
  - exists rp. split; [congruence | auto].
  - rewrite Hsr. unfold specialty_rows_of. rewrite (items_of_get _ _ _ _ Hs0 Hs).
    congruence.
  - rewrite Htr. unfold telecom_rows_of. rewrite (items_of_get _ _ _ _ Ht0 Ht).
    congruence.
Qed.

Lemma sublist_at_most_one {A} (x : A) (l : list A) :
  Forall (fun y => y = x) l -> (length l <= 1)%nat -> l `sublist_of` [x].
Proof.
  intros HF Hlen. destruct l as [| y [| z l]]; simpl in Hlen; [| | lia].
  - apply sublist_nil_l.
  - inversion HF; subst. reflexivity.
Qed.

(** What a pass over the records adds to tables that hold rows already. *)
Lemma collect_rows : forall roles t0 w t w',
  foldM (process_role net urljoin py_repr base_url) roles t0 w = (Done t, w') ->
  (exists rows, org_to_pr_rows t = (org_to_pr_rows t0 ++ rows)%list /\
     Forall (fun r => exists pr, pr ∈ roles /\ org_row_from urljoin py_repr base_url pr r) rows) /\
  (exists rows, location_to_pr_rows t = (location_to_pr_rows t0 ++ rows)%list /\
     Forall (fun r => exists pr, pr ∈ roles /\
                        location_row_from urljoin py_repr base_url pr r) rows) /\
  (exists rows, p_to_pr_rows t = (p_to_pr_rows t0 ++ rows)%list /\
     Forall (fun r => exists pr, pr ∈ roles /\
                        practitioner_row_from urljoin py_repr base_url pr r) rows /\
     map ptp_practitioner_role_fhir_url rows `sublist_of` map role_url' roles) /\
  spec_to_pr_rows t
  = (spec_to_pr_rows t0 ++ flat_map (specialty_rows_of urljoin py_repr base_url) roles)%list /\
  tele_to_pr_rows t
  = (tele_to_pr_rows t0 ++ flat_map (telecom_rows_of urljoin py_repr base_url) roles)%list.
Proof.
  induction roles as [| pr roles IH]; intros t0 w t w' H.
  - apply ret_done_inv in H as [-> ->]. simpl. rewrite !app_nil_r.
    repeat split; try (exists []; rewrite app_nil_r; repeat split; constructor).
  - simpl in H. apply bind_done_inv in H as (t1 & w1 & H1 & H2).
    apply process_role_rows in H1.
    destruct H1 as [(ro & Eo & Fo) (rl & El & Fl) (rp & Ep & Fp & Lp) Es Et].
    apply IH in H2
      as ((ro' & Eo' & Fo') & (rl' & El' & Fl') & (rp' & Ep' & Fp' & Sp') & Es' & Et').
    assert (Hlift : forall {R} (P : json -> R -> Prop) (a b : list R),
               Forall (P pr) a ->
               Forall (fun r => exists x, x ∈ roles /\ P x r) b ->
               Forall (fun r => exists x, x ∈ pr :: roles /\ P x r) (a ++ b)).
    { intros R P a b Ha Hb. apply Forall_app; split.
      - eapply Forall_impl; [exact Ha |]. intros r Hr. exists pr. split; [left | exact Hr].
      - eapply Forall_impl; [exact Hb |]. intros r (x & Hx & Hr).
        exists x. split; [right; exact Hx | exact Hr]. }
    split; [| split; [| split; [| split]]].
    + exists (ro ++ ro')%list. split; [rewrite Eo', Eo, <- app_assoc; reflexivity |].
      apply Hlift; assumption.
    + exists (rl ++ rl')%list. split; [rewrite El', El, <- app_assoc; reflexivity |].
      apply Hlift; assumption.
    + exists (rp ++ rp')%list. split; [rewrite Ep', Ep, <- app_assoc; reflexivity |].
      split; [apply Hlift; assumption |].
      rewrite map_app. change (map role_url' (pr :: roles))
        with ([role_url' pr] ++ map role_url' roles)%list.
      apply sublist_app; [| exact Sp'].
      apply sublist_at_most_one; [| rewrite length_map; exact Lp].
      apply Forall_map. eapply Forall_impl; [exact Fp |].
      intros r Hr. apply Hr.
    + rewrite Es', Es. simpl. rewrite <- app_assoc. reflexivity.
    + rewrite Et', Et. simpl. rewrite <- app_assoc. reflexivity.
Qed.

(** X9.  Every row of the three reference tables stems from a record of the
    crawl: its first column is the url of that record, its reference has the
    prefix of its table (Organization/, Location/, Practitioner/) and its
    entity url is that reference joined to the base; the validity column of
    a practitioner row is the question mark.  The practitioner table has at
    most one row per record, in the order of the records. *)
Theorem reference_rows_stem_from_records roles w t w' :
  collect_tables net urljoin py_repr base_url roles w = (Done t, w') ->
  Forall (fun r => exists pr, pr ∈ roles /\ org_row_from urljoin py_repr base_url pr r)
    (org_to_pr_rows t) /\
  Forall (fun r => exists pr, pr ∈ roles /\ location_row_from urljoin py_repr base_url pr r)
    (location_to_pr_rows t) /\
  Forall (fun r => exists pr, pr ∈ roles /\
                     practitioner_row_from urljoin py_repr base_url pr r)
    (p_to_pr_rows t) /\
  map ptp_practitioner_role_fhir_url (p_to_pr_rows t) `sublist_of` map role_url' roles.
Proof.
  unfold collect_tables. intros H.
  apply collect_rows in H
    as ((ro & Eo & Fo) & (rl & El & Fl) & (rp & Ep & Fp & Sp) & _ & _).
  simpl in Eo, El, Ep. subst ro rl rp. auto.
Qed.

(** X10.  The specialty table and the telecom table of a run that got
    through its records are the records read in order: one telecom row per
    telecom entry, one specialty row per coding of each specialty, each with
    the url of its record and the empty string for a missing field. *)
Theorem contact_rows_follow_records roles w t w' :
  collect_tables net urljoin py_repr base_url roles w = (Done t, w') ->
  spec_to_pr_rows t = flat_map (specialty_rows_of urljoin py_repr base_url) roles /\
  tele_to_pr_rows t = flat_map (telecom_rows_of urljoin py_repr base_url) roles.
Proof.
  unfold collect_tables. intros H.
  apply collect_rows in H as (_ & _ & _ & Es & Et).
  simpl in Es, Et. auto.
Qed.

End Rows.

(** ** What a run leaves on disk *)

Lemma prefix_append a : forall p, String.prefix a p = true -> exists r, p = a +:+ r.
Proof.
  induction a as [| c a IH]; intros p H.
  - exists p. reflexivity.
  - destruct p as [| d p]; simpl in H; [discriminate |].
    destruct (ascii_dec c d) as [-> |]; [| discriminate].
    destruct (IH p H) as (r & ->). exists r. reflexivity.
Qed.

Lemma prefix_append_refl a r : String.prefix a (a +:+ r) = true.
Proof.
  induction a as [| c a IH].
  - destruct r; reflexivity.
  - rewrite append_cons. simpl. destruct (ascii_dec c c); [exact IH | contradiction].
Qed.

Lemma payer_paths_root test_mode p path :
  payer_paths test_mode p path -> String.prefix (output_root test_mode) path = true.
Proof.
  intros (stub & file & _ & _ & ->).
  unfold table_path, output_dir_of, output_root.
  destruct test_mode; rewrite append_assoc_str; apply prefix_append_refl.
Qed.

Lemma main_loop_frame fuel test_mode test_limit : forall payers,
  preserves (agree_outside (fun path => String.prefix (output_root test_mode) path = true))
    (main_loop net urljoin py_repr fuel payers test_mode test_limit).
Proof.
  induction payers as [| p payers IH]; intros w; cbn [main_loop].
  - intros path _. reflexivity.
  - pose proof (process_payer_frame fuel p test_mode test_limit w) as Hp.
    assert (Hp' : agree_outside
                    (fun path => String.prefix (output_root test_mode) path = true) w
                    (snd (process_payer net urljoin py_repr fuel p test_mode test_limit w))).
    { intros path Hpath. apply Hp. intros Hin. apply Hpath.
      eapply payer_paths_root, Hin. }
    destruct (process_payer net urljoin py_repr fuel p test_mode test_limit w)
      as [[u | e |] w1]; cbn [snd] in Hp'.
    + etransitivity; [exact Hp' | apply IH].
    + unfold bind, emit. etransitivity; [exact Hp' |].
      etransitivity; [| apply IH]. intros path _. reflexivity.
    + exact Hp'.
Qed.


(** X12.  A row of the endpoints file that lacks one of the three columns
    the pipeline reads makes it raise KeyError before anything happens: no
    directory made, no request sent, no file opened.  The loop over the
    payers records the error and goes on with the next row. *)
Theorem missing_column_is_key_error fuel p test_mode test_limit w :
  payer_lookup "payer_name" p = None \/
  payer_lookup "payer_stub" p = None \/
  payer_lookup "payer_provider_directory_fhir_url" p = None ->
  process_payer net urljoin py_repr fuel p test_mode test_limit w = (Raise KeyError, w) /\
  forall rest,
    main_loop net urljoin py_repr fuel (p :: rest) test_mode test_limit w
    = main_loop net urljoin py_repr fuel rest test_mode test_limit (reported p KeyError w).
Proof.
  intros H.
  assert (Hrun : process_payer net urljoin py_repr fuel p test_mode test_limit w
                 = (Raise KeyError, w)).
  { unfold process_payer, payer_item, bind, lift.
    destruct (payer_lookup "payer_name" p); [| reflexivity].
    destruct (payer_lookup "payer_stub" p); [| reflexivity].
    destruct (payer_lookup "payer_provider_directory_fhir_url" p); [| reflexivity].
    destruct H as [H | [H | H]]; discriminate H. }
  split; [exact Hrun |].
  intros rest. apply main_loop_step_raise, Hrun.
Qed.

Lemma bind_raise_inv {A B} (m : M A) (k : A -> M B) w e w' :
  bind m k w = (Raise e, w') ->
  m w = (Raise e, w') \/ exists a w1, m w = (Done a, w1) /\ k a w1 = (Raise e, w').
Proof.
  unfold bind. destruct (m w) as [[a | e1 |] w1]; intros H; try discriminate.
  - right. eauto.
  - left. inversion H. reflexivity.
Qed.

Lemma lift_raise_inv {A} (r : result A) w e w' :
  lift r w = (Raise e, w') -> r = Err e /\ w' = w.
Proof. unfold lift. destruct r; intros H; inversion H; subst; auto. Qed.

Lemma net_only_opened w w' : net_only w w' -> opened (trace w') = opened (trace w).
Proof.
  intros [_ (evs & -> & HF)]. unfold opened. rewrite omap_app.
  rewrite <- (app_nil_r (omap _ (trace w))) at 2. f_equal.
  induction HF as [| e evs He _ IH]; [reflexivity |].
  destruct e; try contradiction; exact IH.
Qed.

Lemma net_only_run {A} (m : M A) w o w' :
  preserves net_only m -> m w = (o, w') -> net_only w w'.
Proof. intros Hm H. specialize (Hm w). rewrite H in Hm. exact Hm. Qed.

(** What a write phase that raised leaves: the first file, or the first
    three, rewritten, and no other file touched. *)
Lemma write_tables_raise base_url output_dir t w e w' :
  write_tables urljoin base_url output_dir t w = (Raise e, w') ->
  exists written,
    (written = [table_path output_dir "org_to_pr.csv"] /\
     rfold (org_row_of urljoin base_url) (organizations t) [] = Err e \/
     written = map (table_path output_dir) ["org_to_pr.csv"; "org.csv"; "location_to_pr.csv"] /\
     rfold (location_row_of urljoin base_url) (locations t) [] = Err e) /\
    opened (trace w') = (opened (trace w) ++ written)%list /\
    forall path, path ∉ written -> files w' !! path = files w !! path.
Proof.
  unfold write_tables. intros H.
  apply bind_raise_inv in H as [H | (u1 & w1 & H1 & H)]; [discriminate H |].
  apply write_csv_done_inv in H1. subst w1.
  apply bind_raise_inv in H as [H | (org_rows & w2 & H2 & H)].
  { apply lift_raise_inv in H as [Hr ->].
    eexists. split; [left; split; [reflexivity | exact Hr] |].
    cbn [trace files]. split.
    - unfold opened. rewrite omap_app. reflexivity.
    - intros path Hpath. apply lookup_insert_ne. intros <-. apply Hpath. left. }
  apply lift_done_inv in H2 as [Horg ->].
  apply bind_raise_inv in H as [H | (u2 & w2 & H2 & H)]; [discriminate H |].
  apply write_csv_done_inv in H2. subst w2.
  apply bind_raise_inv in H as [H | (u3 & w3 & H3 & H)]; [discriminate H |].
  apply write_csv_done_inv in H3. subst w3.
  apply bind_raise_inv in H as [H | (location_rows & w4 & H4 & H)].
  { apply lift_raise_inv in H as [Hr ->].
    eexists. split; [right; split; [reflexivity | exact Hr] |].
    cbn [trace files]. split.
    - unfold opened. rewrite !omap_app, <- !app_assoc. reflexivity.
    - intros path Hpath.
      rewrite !lookup_insert_ne; [reflexivity | | |];
        intros <-; apply Hpath; cbn [map]; repeat constructor. }
  apply lift_done_inv in H4 as [Hloc ->].
  apply bind_raise_inv in H as [H | (u4 & w4 & H4 & H)]; [discriminate H |].
  apply bind_raise_inv in H as [H | (u5 & w5 & H5 & H)]; [discriminate H |].
  apply bind_raise_inv in H as [H | (u6 & w6 & H6 & H)]; [discriminate H |].
  discriminate H.
Qed.


(** ** Running again against a server that did not change *)

Lemma replay_app d1 d2 fs : replay (d1 ++ d2) fs = replay d2 (replay d1 fs).
Proof. unfold replay. apply foldl_app. Qed.

Lemma replay_lookup_other : forall d fs path,
  path ∉ map fst d -> replay d fs !! path = fs !! path.
Proof.
  induction d as [| [k v] d IH]; intros fs path Hpath; [reflexivity |].
  cbn [map fst] in Hpath. apply not_elem_of_cons in Hpath as [Hne Hpath].
  change (replay ((k, v) :: d) fs) with (replay d (<[k := v]> fs)).
  rewrite (IH _ _ Hpath). apply lookup_insert_ne. congruence.
Qed.

Lemma replay_agree : forall d fs gs,
  (forall path, path ∉ map fst d -> fs !! path = gs !! path) ->
  replay d fs = replay d gs.
Proof.
  induction d as [| [k v] d IH]; intros fs gs H.
  - apply map_eq. intros path. apply H. apply not_elem_of_nil.
  - change (replay ((k, v) :: d) fs) with (replay d (<[k := v]> fs)).
    change (replay ((k, v) :: d) gs) with (replay d (<[k := v]> gs)).
    apply IH. intros path Hpath.
    destruct (decide (path = k)) as [-> | Hne].
    + rewrite !lookup_insert_eq. reflexivity.
    + rewrite !lookup_insert_ne by congruence.
      apply H. cbn [map fst]. apply not_elem_of_cons. split; assumption.
Qed.

Lemma replay_twice d fs : replay d (replay d fs) = replay d fs.
Proof. apply replay_agree. intros path Hpath. apply replay_lookup_other, Hpath. Qed.

Lemma uniform_ret {A} (a : A) : uniform (ret a).
Proof.
  exists (Done a), 0%nat, [], []. intros w. unfold ret.
  rewrite Nat.add_0_r, app_nil_r. destruct w; reflexivity.
Qed.

Lemma uniform_lift {A} (r : result A) : uniform (lift r).
Proof.
  exists (match r with Ok a => Done a | Err e => Raise e end), 0%nat, [], [].
  intros w. unfold lift. rewrite Nat.add_0_r, app_nil_r.
  destruct w, r; reflexivity.
Qed.

Lemma uniform_fail {A} : uniform (fun w => (@OutOfFuel A, w)).
Proof.
  exists OutOfFuel, 0%nat, [], []. intros w.
  rewrite Nat.add_0_r, app_nil_r. destruct w; reflexivity.
Qed.

Lemma uniform_emit e : uniform (emit e).
Proof.
  exists (Done tt), 0%nat, [e], []. intros w. unfold emit.
  rewrite Nat.add_0_r. reflexivity.
Qed.

Lemma uniform_write_csv path fieldnames rows : uniform (write_csv path fieldnames rows).
Proof.
  exists (Done tt), 0%nat, [EvOpenW path], [(path, table_content fieldnames rows)].
  intros w. unfold write_csv. rewrite Nat.add_0_r. reflexivity.
Qed.

Lemma uniform_bind {A B} (m : M A) (k : A -> M B) :
  uniform m -> (forall a, uniform (k a)) -> uniform (bind m k).
Proof.
  intros (o & dn & evs & d & Hm) Hk. destruct o as [a | e |].
  - destruct (Hk a) as (o' & dn' & evs' & d' & Hka).
    exists o', (dn + dn')%nat, (evs ++ evs')%list, (d ++ d')%list.
    intros w. unfold bind. rewrite Hm, Hka. cbn [requests trace files].
    rewrite Nat.add_assoc, app_assoc, replay_app. reflexivity.
  - exists (Raise e), dn, evs, d. intros w. unfold bind. rewrite Hm. reflexivity.
  - exists OutOfFuel, dn, evs, d. intros w. unfold bind. rewrite Hm. reflexivity.
Qed.

Lemma uniform_foldM {A S} (f : S -> A -> M S) xs :
  (forall s x, uniform (f s x)) -> forall s, uniform (foldM f xs s).
Proof.
  intros Hf. induction xs as [| x xs IH]; intros s; simpl.
  - apply uniform_ret.
  - apply uniform_bind; auto.
Qed.

(** Splits a goal [uniform m] along the structure of [m]. *)
Ltac uni :=
  repeat first
    [ apply uniform_ret
    | apply uniform_lift
    | apply uniform_fail
    | apply uniform_emit
    | apply uniform_write_csv
    | apply uniform_bind; [| intros ?]
    | apply uniform_foldM; intros ? ?
    | match goal with
      | |- uniform (if ?b then _ else _) => destruct b
      | |- uniform (match ?x with _ => _ end) => destruct x
      end ].

Section Static.

Hypothesis net_static : static net.

Lemma uniform_fetch_loop url max_retries : forall attempts,
  uniform (fetch_loop net url max_retries attempts).
Proof.
  induction attempts as [| attempt rest IH]; cbn [fetch_loop]; [apply uniform_ret |].
  destruct (net 0%nat url) as [body |] eqn:Hnet.
  - exists (Done body), 1%nat, [EvGet url attempt], [].
    intros w. unfold requests_get. rewrite (net_static (requests w) 0%nat url), Hnet.
    rewrite Nat.add_1_r. reflexivity.
  - destruct (attempt <? max_retries - 1)%Z eqn:Hlast.
    + assert (Hrest : uniform (let! _ := sleep (2 ^ attempt) in
                               fetch_loop net url max_retries rest))
        by (apply uniform_bind; [apply uniform_emit | intros _; exact IH]).
      destruct Hrest as (o & dn & evs & d & Hrest).
      exists o, (S dn), (EvGet url attempt :: evs), d.
      intros w. unfold requests_get. rewrite (net_static (requests w) 0%nat url), Hnet.
      rewrite Hrest. cbn [requests trace files].
      rewrite <- app_assoc, Nat.add_succ_r. reflexivity.
    + exists (Done JNull), 1%nat, [EvGet url attempt], [].
      intros w. unfold requests_get. rewrite (net_static (requests w) 0%nat url), Hnet.
      rewrite Nat.add_1_r. reflexivity.
Qed.

Lemma uniform_fetch url max_retries : uniform (fetch_fhir_resource net url max_retries).
Proof. apply uniform_fetch_loop. Qed.

Lemma uniform_page_loop test_mode test_limit : forall fuel next_url all_entries,
  uniform (page_loop net py_repr fuel test_mode test_limit next_url all_entries).
Proof.
  induction fuel as [| fuel IH]; intros next_url all_entries; cbn [page_loop].
  - destruct (truthy next_url); uni.
  - destruct (truthy next_url); [| uni].
    apply uniform_bind; [apply uniform_fetch | intros bundle].
    destruct (negb (truthy bundle)); [uni |].
    apply uniform_bind; [uni | intros entries].
    apply uniform_bind; [uni | intros items].
    apply uniform_bind; [uni | intros all'].
    destruct (test_mode && _); [uni |].
    apply uniform_bind; [uni | intros links].
    apply uniform_bind; [uni | intros links'].
    apply uniform_bind; [uni | intros next]. apply IH.
Qed.

Lemma uniform_resolve base_url cache ref :
  uniform (resolve net urljoin base_url cache ref).
Proof.
  unfold resolve. destruct (cache_mem _ cache); [uni |].
  apply uniform_bind; [apply uniform_fetch | intros; uni].
Qed.

Lemma uniform_add_organization base_url pr_id t org_ref :
  uniform (add_organization net urljoin py_repr base_url pr_id t org_ref).
Proof.
  unfold add_organization.
  apply uniform_bind; [apply uniform_resolve | intros; uni].
Qed.

Lemma uniform_process_role base_url t pr :
  uniform (process_role net urljoin py_repr base_url t pr).
Proof.
  unfold process_role.
  apply uniform_bind; [uni | intros pr_id].
  apply uniform_bind; [uni | intros exts].
  apply uniform_bind; [uni | intros exts'].
  apply uniform_bind; [| intros t1].
  { apply uniform_foldM. intros s x.
    unfold process_extension.
    apply uniform_bind; [uni | intros u].
    destruct (py_eq_str u network_reference); [| uni].
    apply uniform_bind; [uni | intros vr].
    apply uniform_bind; [uni | intros r].
    apply uniform_bind; [uni | intros r'].
    destruct (String.prefix _ r'); [apply uniform_add_organization | uni]. }
  apply uniform_bind; [| intros t2].
  { unfold process_organization.
    apply uniform_bind; [uni | intros o].
    apply uniform_bind; [uni | intros r].
    destruct (truthy r); [| uni].
    apply uniform_bind; [uni | intros r'].
    destruct (String.prefix _ r'); [apply uniform_add_organization | uni]. }
  apply uniform_bind; [| intros t3].
  { unfold process_practitioner.
    apply uniform_bind; [uni | intros o].
    apply uniform_bind; [uni | intros r].
    destruct (truthy r); [| uni].
    apply uniform_bind; [uni | intros r'].
    destruct (String.prefix _ r'); [| uni].
    apply uniform_bind; [apply uniform_resolve | intros; uni]. }
  apply uniform_bind; [uni | intros locs].
  apply uniform_bind; [uni | intros locs'].
  apply uniform_bind; [| intros t4; uni].
  apply uniform_foldM. intros s x.
  unfold process_location.
  apply uniform_bind; [uni | intros r].
  destruct (truthy r); [| uni].
  apply uniform_bind; [uni | intros r'].
  destruct (String.prefix _ r'); [| uni].
  apply uniform_bind; [apply uniform_resolve | intros; uni].
Qed.

Lemma uniform_process_payer fuel p test_mode test_limit :
  uniform (process_payer net urljoin py_repr fuel p test_mode test_limit).
Proof.
  unfold process_payer.
  apply uniform_bind; [uni | intros name].
  apply uniform_bind; [uni | intros stub].
  apply uniform_bind; [uni | intros url].
  apply uniform_bind; [uni | intros _].
  apply uniform_bind; [apply uniform_page_loop | intros roles].
  destruct roles as [| r roles]; [uni |].
  apply uniform_bind; [| intros t; unfold write_tables; uni].
  unfold collect_tables. apply uniform_foldM. intros s x. apply uniform_process_role.
Qed.

Lemma uniform_main_loop fuel test_mode test_limit : forall payers,
  uniform (main_loop net urljoin py_repr fuel payers test_mode test_limit).
Proof.
  induction payers as [| p payers IH]; cbn [main_loop]; [apply uniform_ret |].
  destruct (uniform_process_payer fuel p test_mode test_limit)
    as (o & dn & evs & d & Hp).
  destruct o as [u | e |].
  - destruct IH as (o' & dn' & evs' & d' & IH).
    exists o', (dn + dn')%nat, (evs ++ evs')%list, (d ++ d')%list.
    intros w. rewrite Hp, IH. cbn [requests trace files].
    rewrite Nat.add_assoc, app_assoc, replay_app. reflexivity.
  - assert (Hrest : uniform
              (let! _ := emit (EvError (default "unknown" (payer_lookup "payer_name" p)) e) in
               main_loop net urljoin py_repr fuel payers test_mode test_limit))
      by (apply uniform_bind; [apply uniform_emit | intros _; exact IH]).
    destruct Hrest as (o' & dn' & evs' & d' & Hrest).
    exists o', (dn + dn')%nat, (evs ++ evs')%list, (d ++ d')%list.
    intros w. rewrite Hp, Hrest. cbn [requests trace files].
    rewrite Nat.add_assoc, app_assoc, replay_app. reflexivity.
  - exists OutOfFuel, dn, evs, d. intros w. rewrite Hp. reflexivity.
Qed.

(** X14.  Against servers whose answers do not change, running the whole
    loop again from where the first run ended gives the same outcome and
    leaves every file as the first run left it; the second run sends the
    same requests and opens the same files again, in the same order:
    nothing of the first run is reused. *)
Theorem rerun_reproduces_output fuel payers test_mode test_limit w :
  let first := main_loop net urljoin py_repr fuel payers test_mode test_limit w in
  let second :=
    main_loop net urljoin py_repr fuel payers test_mode test_limit (snd first) in
  fst second = fst first /\
  files (snd second) = files (snd first) /\
  exists evs,
    trace (snd first) = (trace w ++ evs)%list /\
    trace (snd second) = (trace (snd first) ++ evs)%list.
Proof.
  destruct (uniform_main_loop fuel test_mode test_limit payers)
    as (o & dn & evs & d & Hrun).
  cbv zeta. rewrite (Hrun w). cbn [snd fst]. rewrite Hrun. cbn [snd fst files trace].
  split; [reflexivity |]. split; [apply replay_twice |].
  exists evs. split; reflexivity.
Qed.

End Static.

(** ** The practitioner rows and the cache *)

Lemma dict_lookup_app_some id (cache more : list (string * json)) d :
  dict_lookup id cache = Some d -> dict_lookup id (cache ++ more) = Some d.
Proof.
  induction cache as [| [k v] cache IH]; simpl; [discriminate |].
  destruct (String.eqb id k); auto.
Qed.

Lemma practitioner_row_sound_mono cache more r :
  practitioner_row_sound cache r -> practitioner_row_sound (cache ++ more) r.
Proof.
  intros [H | (data & Hl & Hn & Hname)]; [left; exact H | right].
  exists data. split; [apply dict_lookup_app_some, Hl | auto].
Qed.

Section RowsAndCache.

Variable base_url : string.

Lemma add_organization_sound pr_id t org_ref w t' w' :
  practitioner_rows_sound t ->
  add_organization net urljoin py_repr base_url pr_id t org_ref w = (Done t', w') ->
  practitioner_rows_sound t'.
Proof. unfold add_organization. intros HJ H. minv. exact HJ. Qed.

Lemma process_extension_sound pr_id t ext w t' w' :
  practitioner_rows_sound t ->
  process_extension net urljoin py_repr base_url pr_id t ext w = (Done t', w') ->
  practitioner_rows_sound t'.
Proof.
  unfold process_extension. intros HJ H. minv.
  destruct (py_eq_str _ network_reference); [| minv; exact HJ].
  minv. destruct (String.prefix "Organization/" _); [| minv; exact HJ].
  eapply add_organization_sound; eauto.
Qed.

Lemma process_organization_sound pr_id t pr w t' w' :
  practitioner_rows_sound t ->
  process_organization net urljoin py_repr base_url pr_id t pr w = (Done t', w') ->
  practitioner_rows_sound t'.
Proof.
  unfold process_organization. intros HJ H. minv.
  destruct (truthy _); [| minv; exact HJ].
  minv. destruct (String.prefix "Organization/" _); [| minv; exact HJ].
  eapply add_organization_sound; eauto.
Qed.

Lemma process_location_sound pr_id t loc w t' w' :
  practitioner_rows_sound t ->
  process_location net urljoin py_repr base_url pr_id t loc w = (Done t', w') ->
  practitioner_rows_sound t'.
Proof.
  unfold process_location. intros HJ H. minv.
  destruct (truthy _); [| minv; exact HJ].
  minv. destruct (String.prefix "Location/" _); [| minv; exact HJ].
  minv. exact HJ.
Qed.

Lemma process_practitioner_sound pr_id t pr w t' w' :
  practitioner_rows_sound t ->
  process_practitioner net urljoin py_repr base_url pr_id t pr w = (Done t', w') ->
  practitioner_rows_sound t'.
Proof.
  unfold process_practitioner. intros HJ H.
  apply bind_done_inv in H as (practitioner & w1 & H1 & H).
  apply lift_done_inv in H1 as [_ ->].
  apply bind_done_inv in H as (ref0 & w1 & H1 & H).
  apply lift_done_inv in H1 as [_ ->].
  destruct (truthy ref0); [| apply ret_done_inv in H as [-> ->]; exact HJ].
  apply bind_done_inv in H as (ref & w1 & H1 & H).
  apply lift_done_inv in H1 as [_ ->].
  destruct (String.prefix "Practitioner/" ref);
    [| apply ret_done_inv in H as [-> ->]; exact HJ].
  apply bind_done_inv in H as (pracs & w1 & Hres & H).
  apply bind_done_inv in H as (npi & w2 & Hnpi & H).
  apply lift_done_inv in Hnpi as [Hnpi ->].
  apply bind_done_inv in H as (names & w2 & Hnames & H).
  apply lift_done_inv in Hnames as [Hnames ->].
  apply ret_done_inv in H as [-> ->].
  assert (Hgrow : exists more, pracs = (practitioners t ++ more)%list).
  { apply resolve_done_inv in Hres as [(_ & -> & _) | (_ & d & _ & ->)].
    - exists []. rewrite app_nil_r. reflexivity.
    - destruct (truthy d); [eexists; reflexivity |].
      exists []. rewrite app_nil_r. reflexivity. }
  destruct Hgrow as (more & Hgrow).
  unfold practitioner_rows_sound. cbn [practitioners p_to_pr_rows].
  apply Forall_app. split.
  - rewrite Hgrow. eapply Forall_impl; [exact HJ |].
    intros r. apply practitioner_row_sound_mono.
  - constructor; [| constructor].
    unfold practitioner_row_sound.
    cbn [ptp_npi ptp_family_name ptp_given_name ptp_practitioner_reference].
    destruct (dict_lookup (split_last ref) pracs) as [data |] eqn:Hl; cbn [default from_option id] in *.
    + right. exists data. split; [reflexivity |]. split; [exact Hnpi |].
      rewrite Hnames. destruct names; reflexivity.
    + left. inversion Hnpi. inversion Hnames. auto.
Qed.

Lemma process_role_sound t pr w t' w' :
  practitioner_rows_sound t ->
  process_role net urljoin py_repr base_url t pr w = (Done t', w') ->
  practitioner_rows_sound t'.
Proof.
  unfold process_role. intros HJ H. minv.
  repeat match goal with
  | Hi : practitioner_rows_sound ?t,
    Hs : foldM (process_extension _ _ _ _ _) _ ?t _ = (Done _, _) |- _ =>
      apply (foldM_done_invariant _ (fun s _ => practitioner_rows_sound s)
               (fun s x w s' w' => process_extension_sound _ s x w s' w')
               _ _ _ _ _ Hi) in Hs
  | Hi : practitioner_rows_sound ?t,
    Hs : process_organization _ _ _ _ _ ?t _ _ = (Done _, _) |- _ =>
      apply (process_organization_sound _ _ _ _ _ _ Hi) in Hs
  | Hi : practitioner_rows_sound ?t,
    Hs : process_practitioner _ _ _ _ _ ?t _ _ = (Done _, _) |- _ =>
      apply (process_practitioner_sound _ _ _ _ _ _ Hi) in Hs
  | Hi : practitioner_rows_sound ?t,
    Hs : foldM (process_location _ _ _ _ _) _ ?t _ = (Done _, _) |- _ =>
      apply (foldM_done_invariant _ (fun s _ => practitioner_rows_sound s)
               (fun s x w s' w' => process_location_sound _ s x w s' w')
               _ _ _ _ _ Hi) in Hs
  end.
  assumption.
Qed.

(** X15.  In the tables a pass over the records ends with, every
    practitioner row carries either the placeholders of a practitioner that
    could not be fetched (NPI "0", empty names), or the NPI and the names
    read off the data the cache holds for the id its reference ends in. *)
Theorem practitioner_rows_carry_cached_data roles w t w' :
  collect_tables net urljoin py_repr base_url roles w = (Done t, w') ->
  Forall (practitioner_row_sound (practitioners t)) (p_to_pr_rows t).
Proof.
  unfold collect_tables. intros H.
  assert (H0 : practitioner_rows_sound empty_tables) by constructor.
  apply (foldM_done_invariant _ (fun s _ => practitioner_rows_sound s)
           (fun s x w s' w' => process_role_sound s x w s' w')
           _ _ _ _ _ H0 H).
Qed.

End RowsAndCache.

(** ** A page that names itself as the next page *)

(** X16.  The paginator follows the next link without remembering the urls
    it has seen.  Against a server whose page names itself as the next
    page, a full crawl never ends: whatever the number of pages allowed, it
    uses them all, one request each, and is cut off. *)
Theorem self_link_never_ends url bundle test_limit :
  url <> "" ->
  (forall k, net k url = HttpOk bundle) ->
  truthy bundle = true ->
  (forall all_entries, exists entries items all_entries',
      py_get bundle "entry" (JArr []) = Ok entries /\
      py_iter entries = Ok items /\
      collect_entries false test_limit items all_entries = Ok all_entries') ->
  next_link bundle = Ok (JStr url) ->
  forall fuel all_entries w,
    exists w',
      page_loop net py_repr fuel false test_limit (JStr url) all_entries w
      = (OutOfFuel, w') /\
      requests w' = (requests w + fuel)%nat.
Proof.
  intros Hurl Hnet Htruthy Hpage Hnext.
  assert (Ht : truthy (JStr url) = true).
  { cbn [truthy]. destruct (String.eqb url "") eqn:E; [| reflexivity].
    apply String.eqb_eq in E. contradiction. }
  induction fuel as [| fuel IH]; intros all_entries w; cbn [page_loop]; rewrite Ht.
  - exists w. split; [reflexivity | lia].
  - destruct (Hpage all_entries) as (entries & items & all' & He & Hi & Hc).
    unfold next_link in Hnext.
    apply rbind_ok_inv in Hnext as (links0 & Hl0 & Hnext).
    apply rbind_ok_inv in Hnext as (links & Hl & Hnext).
    destruct (IH all' (mkWorld (S (requests w)) (trace w ++ [EvGet url 0])%list (files w)))
      as (w' & Hrun & Hreq).
    exists w'. split; [| rewrite Hreq; cbn [requests]; lia].
    cbn [py_str]. unfold bind at 1.
    unfold fetch_fhir_resource. change (range 3) with [0; 1; 2].
    cbn [fetch_loop]. unfold requests_get. rewrite Hnet, Htruthy. cbn [negb].
    rewrite He. unfold lift at 1, bind at 1.
    rewrite Hi. unfold lift at 1, bind at 1.
    rewrite Hc. unfold lift at 1, bind at 1. cbn [andb].
    rewrite Hl0. unfold lift at 1, bind at 1.
    rewrite Hl. unfold lift at 1, bind at 1.
    rewrite Hnext. unfold lift at 1, bind at 1.
    exact Hrun.
Qed.

(** ** A record that cannot be processed *)

Lemma foldM_raise_at {A S} (f : S -> A -> M S) x after e : forall before s w s1 w1 w2,
  foldM f before s w = (Done s1, w1) ->
  f s1 x w1 = (Raise e, w2) ->
  foldM f (before ++ x :: after) s w = (Raise e, w2).
Proof.
  induction before as [| y before IH]; intros s w s1 w1 w2 Hbefore Hx.
  - apply ret_done_inv in Hbefore as [-> ->]. cbn [app foldM]. unfold bind.
    rewrite Hx. reflexivity.
  - cbn [app foldM] in *. apply bind_done_inv in Hbefore as (s0 & w0 & Hy & Hbefore).
    unfold bind at 1. rewrite Hy. eapply IH; eauto.
Qed.

(** X17.  One record that cannot be processed discards the payer: the
    pipeline raises at that record, the records after it are never looked
    at, and no file is opened, whatever the records before it gave. *)
Theorem broken_record_discards_payer
    fuel p test_mode test_limit w name stub url before bad after w1 t1 w2 e w3 :
  payer_lookup "payer_name" p = Some name ->
  payer_lookup "payer_stub" p = Some stub ->
  payer_lookup "payer_provider_directory_fhir_url" p = Some url ->
  fetch_all_practitioner_roles net urljoin py_repr fuel (normalize_base url)
    test_mode test_limit
    (mkWorld (requests w)
       (trace w ++ [EvMkdir (output_dir_of test_mode stub)])%list (files w))
  = (Done (before ++ bad :: after)%list, w1) ->
  foldM (process_role net urljoin py_repr (normalize_base url)) before empty_tables w1
  = (Done t1, w2) ->
  process_role net urljoin py_repr (normalize_base url) t1 bad w2 = (Raise e, w3) ->
  process_payer net urljoin py_repr fuel p test_mode test_limit w = (Raise e, w3) /\
  files w3 = files w /\
  opened (trace w3) = opened (trace w).
Proof.
  intros Hname Hstub Hurl Hcrawl Hbefore Hbad.
  assert (Hrun : process_payer net urljoin py_repr fuel p test_mode test_limit w
                 = (Raise e, w3)).
  { rewrite (process_payer_prelude _ _ _ _ _ _ _ _ Hname Hstub Hurl).
    unfold bind at 1. rewrite Hcrawl.
    destruct (before ++ bad :: after)%list as [| r roles] eqn:Hroles.
    { destruct before; discriminate Hroles. }
    rewrite <- Hroles. unfold bind, collect_tables.
    rewrite (foldM_raise_at _ _ after _ _ _ _ _ _ _ Hbefore Hbad). reflexivity. }
  split; [exact Hrun |].
  apply (net_only_run _ _ _ _ (paginator_net_only _ _ _ _)) in Hcrawl.
  apply (net_only_run _ _ _ _ (collect_tables_net_only _ _)) in Hbefore.
  apply (net_only_run _ _ _ _ (process_role_net_only _ _ _)) in Hbad.
  split.
  - rewrite (proj1 Hbad), (proj1 Hbefore), (proj1 Hcrawl). reflexivity.
  - rewrite (net_only_opened _ _ Hbad), (net_only_opened _ _ Hbefore),
      (net_only_opened _ _ Hcrawl).
    cbn [trace]. unfold opened. rewrite omap_app. apply app_nil_r.
Qed.

End Properties.

(** * Examples: the theorems at sample inputs, and the inputs on which the
    specification and the code part ways *)

Import Sample.

Lemma fetch_retry_backoff_witness :
  fetch_fhir_resource (flaky organization_1) "http://a.example/fhir/Organization/o1" 3 start
  = (Done organization_1,
     mkWorld 3
       [EvGet "http://a.example/fhir/Organization/o1" 0; EvSleep 1;
        EvGet "http://a.example/fhir/Organization/o1" 1; EvSleep 2;
        EvGet "http://a.example/fhir/Organization/o1" 2] ∅).
Proof.
  apply (proj2 (fetch_retry_backoff (flaky organization_1))
           "http://a.example/fhir/Organization/o1" start organization_1);
    reflexivity.
Defined.

Lemma fetch_exhausted_is_absent_witness :
  exists w',
    fetch_fhir_resource down "http://a.example/fhir/Organization/o1" 3 start
    = (Done JNull, w').
Proof.
  apply (proj1 (fetch_exhausted_is_absent down join repr)).
  intros i _. reflexivity.
Defined.

Lemma no_records_leaves_files_witness :
  fst (process_payer down join repr 5 payer_a false 100 (snd run_a)) = Done tt /\
  files (snd (process_payer down join repr 5 payer_a false 100 (snd run_a)))
  = files (snd run_a).
Proof.
  destruct (no_records_leaves_files down join repr 5 payer_a false 100 (snd run_a)
              "Payer A" "a" "http://a.example/fhir" eq_refl eq_refl eq_refl)
    as (Hleft & Habsent & _).
  destruct Habsent as (w2 & Hcrawl); [discriminate | intros i _; reflexivity |].
  destruct (Hleft w2 Hcrawl) as (Hrun & Hfiles & _).
  rewrite Hrun. split; [reflexivity | exact Hfiles].
Defined.


Lemma writer_emits_seven_tables_witness :
  exists stub url roles w1,
    payer_lookup "payer_stub" payer_a = Some stub /\
    payer_lookup "payer_provider_directory_fhir_url" payer_a = Some url /\
    fetch_all_practitioner_roles (serve site_a) join repr 5 (normalize_base url) false 100
      (mkWorld 0 [EvMkdir (output_dir_of false stub)] ∅)
    = (Done roles, w1) /\
    roles <> [] /\
    opened (trace (snd run_a)) = map (table_path (output_dir_of false stub)) table_files.
Proof.
  destruct (writer_emits_seven_tables (serve site_a) join repr 5 payer_a false 100 start
              (snd run_a))
    as (stub & url & roles & w1 & Hstub & Hurl & Hcrawl & Hrest).
  - apply done_eta. vm_compute. reflexivity.
  - exists stub, url, roles, w1. repeat (split; [assumption |]).
    inversion Hstub; subst stub. inversion Hurl; subst url.
    split; [| vm_compute; reflexivity].
    intros ->. vm_compute in Hcrawl. discriminate Hcrawl.
Defined.

(** C4, as stated, fails on the run of payer a: seven files are opened, and
    the table of specialties, which has no row, is left without a header. *)
Lemma six_headed_tables_counterexample :
  fst run_a = Done tt /\
  length (opened (trace (snd run_a))) = 7%nat /\
  files (snd run_a) !! "payer_slurp_results/a/spec_to_pr.csv" = Some [] /\
  ~ six_headed_tables start (snd run_a).
Proof.
  split; [vm_compute; reflexivity |]. split; [vm_compute; reflexivity |].
  split; [vm_compute; reflexivity |].
  intros (evs & Htrace & Hsix & _).
  change (trace start) with (@nil event) in Htrace. cbn [app] in Htrace.
  subst evs. vm_compute in Hsix. discriminate Hsix.
Qed.

Lemma entity_tables_one_row_per_fetched_id_witness :
  exists url roles w1 t w2,
    collect_tables (serve site_a) join repr (normalize_base url) roles w1 = (Done t, w2) /\
    NoDup (map fst (organizations t)) /\
    NoDup (map fst (locations t)).
Proof.
  destruct (entity_tables_one_row_per_fetched_id (serve site_a) join repr 5 payer_a
              false 100 start (snd run_a))
    as (stub & url & roles & w1 & t & w2 & _ & _ & _ & Hcollect & Hnodup & _).
  - apply done_eta. vm_compute. reflexivity.
  - exists url, roles, w1, t, w2. split; [exact Hcollect |].
    split; [apply (Hnodup KOrganization) | apply (Hnodup KLocation)].
Defined.

(** C2, as stated, fails when an entity cannot be fetched: organization o1
    is referenced by both records and has no row. *)
Lemma every_referenced_id_has_row_counterexample :
  fst run_a_bare = Done tt /\
  files (snd run_a_bare) !! "payer_slurp_results/a/org_to_pr.csv"
  = Some [map JStr org_to_pr_fields;
          [JStr "http://a.example/fhir/PractitionerRole/r1";
           JStr "http://a.example/fhir/Organization/o1"; JStr "Organization/o1"];
          [JStr "http://a.example/fhir/PractitionerRole/r2";
           JStr "http://a.example/fhir/Organization/o1"; JStr "Organization/o1"]] /\
  files (snd run_a_bare) !! "payer_slurp_results/a/org.csv" = Some [] /\
  ~ every_referenced_id_has_row (returned empty_tables collect_a_bare).
Proof.
  split; [vm_compute; reflexivity |]. split; [vm_compute; reflexivity |].
  split; [vm_compute; reflexivity |].
  intros H. specialize (H KOrganization "o1").
  vm_compute in H. apply elem_of_nil in H; [exact H |]. left.
Qed.



Lemma paginator_respects_cap_witness :
  Z.of_nat (length (returned [] (crawl_a 1))) <= 1 /\
  returned [] (crawl_a 1) = [role_1].
Proof.
  destruct (paginator_respects_cap (serve site_a) join repr 5 "http://a.example/fhir" 1
              start (returned [] (crawl_a 1)) (snd (crawl_a 1)))
    as (Hlen & _).
  - lia.
  - vm_compute. reflexivity.
  - split; [exact Hlen | vm_compute; reflexivity].
Defined.

(** C7, as stated, fails for a cap of zero: the first page is requested and
    its first record is kept. *)
Lemma stops_at_cap_counterexample :
  crawl_a 0
  = (Done [role_1],
     mkWorld 1 [EvGet "http://a.example/fhir/PractitionerRole?_count=100" 0] ∅) /\
  ~ stops_at_cap 0 (returned [] (crawl_a 0)).
Proof.
  split; [vm_compute; reflexivity |].
  unfold stops_at_cap. vm_compute. intros H. apply H. reflexivity.
Qed.

(** C1: the module docstring asks that the program always overwrite previous
    results.  After the collection of payer a shrank to no record, the run
    completes and every file of the earlier run is still on disk with its
    rows. *)
Theorem stale_rows_after_shrink_to_zero :
  fst run_a = Done tt /\
  fst run_a_again = Done tt /\
  files (snd run_a_again) = files (snd run_a) /\
  opened (trace (snd run_a_again)) = opened (trace (snd run_a)) /\
  files (snd run_a_again) !! "payer_slurp_results/a/org_to_pr.csv"
  = Some [map JStr org_to_pr_fields;
          [JStr "http://a.example/fhir/PractitionerRole/r1";
           JStr "http://a.example/fhir/Organization/o1"; JStr "Organization/o1"];
          [JStr "http://a.example/fhir/PractitionerRole/r2";
           JStr "http://a.example/fhir/Organization/o1"; JStr "Organization/o1"]].
Proof.
  split; [vm_compute; reflexivity |].
  destruct (fetch_all_practitioner_roles (serve site_a_empty) join repr 5
              (normalize_base "http://a.example/fhir") false 100
              (mkWorld (requests (snd run_a))
                 (trace (snd run_a) ++ [EvMkdir (output_dir_of false "a")])%list
                 (files (snd run_a))))
    as [crawled w2] eqn:Hcrawl.
  assert (Hnone : crawled = Done []).
  { change crawled with (fst (crawled, w2)). rewrite <- Hcrawl.
    vm_compute. reflexivity. }
  subst crawled.
  destruct (process_payer_empty_crawl (serve site_a_empty) join repr 5 payer_a false 100
              (snd run_a) "Payer A" "a" "http://a.example/fhir" w2
              eq_refl eq_refl eq_refl Hcrawl)
    as (Hrun & Hfiles & _).
  rewrite Hrun. cbn [fst snd].
  split; [reflexivity |]. split; [exact Hfiles |].
  split; [| rewrite Hfiles; vm_compute; reflexivity].
  change w2 with (snd (Done tt, w2)). rewrite <- Hrun. vm_compute. reflexivity.
Qed.

(** * Further examples *)

Import SampleMore.

Lemma done_returned {A} (d : A) (r : outcome A * World) :
  (match fst r with Done _ => true | _ => false end) = true ->
  r = (Done (returned d r), snd r).
Proof.
  destruct r as [[a | e |] w]; simpl; intros H; try discriminate H. reflexivity.
Qed.

Lemma practitioner_name_first_entry_witness :
  extract_practitioner_name practitioner_1
  = Ok {| ni_family := JStr "Doe"; ni_given := "Jane" |}.
Proof.
  apply (proj2 (proj2 practitioner_name_first_entry)
           [("identifier",
             JArr [JObj [("type", JObj [("coding", JArr [JObj [("code", JStr "NPI")]])]);
                         ("value", JStr "1234567890")]]);
            ("name", JArr [JObj [("family", JStr "Doe"); ("given", JArr [JStr "Jane"])]])]
           [("family", JStr "Doe"); ("given", JArr [JStr "Jane"])] [] ["Jane"]);
    reflexivity.
Defined.

Lemma location_summary_address_witness :
  extract_location_info
    (JObj [("name", JStr "Main Street");
           ("address", JObj [("line", JArr [JStr "1 Main St"; JStr "Suite 2"]);
                             ("city", JStr "Springfield");
                             ("postalCode", JStr "00001")])])
  = Ok {| li_name := JStr "Main Street"; li_status := JStr "";
          li_address := "1 Main St, Suite 2, Springfield, 00001" |}.
Proof.
  apply (location_summary_address
           [("name", JStr "Main Street");
            ("address", JObj [("line", JArr [JStr "1 Main St"; JStr "Suite 2"]);
                              ("city", JStr "Springfield");
                              ("postalCode", JStr "00001")])]
           [("line", JArr [JStr "1 Main St"; JStr "Suite 2"]);
            ("city", JStr "Springfield"); ("postalCode", JStr "00001")]
           ["1 Main St"; "Suite 2"] "Springfield" "" "00001");
    [discriminate | reflexivity ..].
Defined.

Lemma organization_summary_first_entries_witness :
  extract_organization_info
    (JObj [("name", JStr "Clinic One");
           ("type", JArr [JObj [("coding", JArr [JObj [("code", JStr "prov")];
                                                 JObj [("code", JStr "pay")]])];
                          JObj [("coding", JArr [JObj [("code", JStr "ins")]])]]);
           ("address", JArr [JObj [("city", JStr "Springfield"); ("state", JStr "IL")];
                             JObj [("city", JStr "Shelbyville")]])])
  = Ok {| oi_name := JStr "Clinic One"; oi_type := JStr "prov";
          oi_address := "Springfield, IL" |}.
Proof.
  apply (organization_summary_first_entries
           [("name", JStr "Clinic One");
            ("type", JArr [JObj [("coding", JArr [JObj [("code", JStr "prov")];
                                                  JObj [("code", JStr "pay")]])];
                           JObj [("coding", JArr [JObj [("code", JStr "ins")]])]]);
            ("address", JArr [JObj [("city", JStr "Springfield"); ("state", JStr "IL")];
                              JObj [("city", JStr "Shelbyville")]])]
           [("coding", JArr [JObj [("code", JStr "prov")]; JObj [("code", JStr "pay")]])]
           [JObj [("coding", JArr [JObj [("code", JStr "ins")]])]]
           [("code", JStr "prov")] [JObj [("code", JStr "pay")]]
           [("city", JStr "Springfield"); ("state", JStr "IL")]
           [JObj [("city", JStr "Shelbyville")]]
           [] "Springfield" "IL" "");
    reflexivity.
Defined.

Lemma reference_id_is_last_segment_witness :
  split_last ("Organization" +:+ String "/" "o1") = "o1".
Proof.
  apply (proj2 (proj2 (proj2 reference_id_is_last_segment)) "Organization" "o1").
  reflexivity.
Defined.

Lemma fetch_sleep_budget_witness :
  exists k body,
    fetch_fhir_resource (flaky organization_1) "http://a.example/fhir/Organization/o1" 3 start
    = (Done body,
       mkWorld (requests start + k)
         (trace start ++ backoff_schedule "http://a.example/fhir/Organization/o1" 0 k)%list
         (files start)) /\
    total_sleep (backoff_schedule "http://a.example/fhir/Organization/o1" 0 k)
    <= 2 ^ (3 - 1) - 1.
Proof.
  destruct (fetch_sleep_budget (flaky organization_1)
              "http://a.example/fhir/Organization/o1" 3 start)
    as (k & body & Hrun & _ & Hbudget & _).
  exists k, body. split; [exact Hrun | apply Hbudget; lia].
Defined.

Lemma base_url_normalized_witness :
  normalize_base "http://a.example/fhir/" = "http://a.example/fhir/" /\
  exists evs,
    trace (snd crawl_a_full)
    = (trace start ++
         if String.eqb (join (normalize_base "http://a.example/fhir")
                          "PractitionerRole?_count=100") ""
         then [] else EvGet (join (normalize_base "http://a.example/fhir")
                               "PractitionerRole?_count=100") 0 :: evs)%list.
Proof.
  split.
  - apply (proj1 (proj2 (base_url_normalized (serve site_a) join repr
                           "http://a.example/fhir/"))).
    reflexivity.
  - apply (proj2 (proj2 (proj2 (base_url_normalized (serve site_a) join repr
                                  "http://a.example/fhir"))) 5%nat false 100 start).
    discriminate.
Defined.

Lemma paginator_keeps_practitioner_roles_witness :
  Forall is_practitioner_role (returned [] crawl_a_full).
Proof.
  apply (proj1 (paginator_keeps_practitioner_roles (serve site_a) join repr)
           5%nat "http://a.example/fhir" false 100 start _ (snd crawl_a_full)).
  apply done_returned. vm_compute. reflexivity.
Defined.

Lemma reference_rows_stem_from_records_witness :
  Forall (fun r => exists pr, pr ∈ [role_1; role_2] /\
                     practitioner_row_from join repr "http://a.example/fhir/" pr r)
    (p_to_pr_rows (returned empty_tables collect_a)) /\
  map ptp_practitioner_role_fhir_url (p_to_pr_rows (returned empty_tables collect_a))
    `sublist_of` map (role_url join repr "http://a.example/fhir/") [role_1; role_2].
Proof.
  destruct (reference_rows_stem_from_records (serve site_a) join repr
              "http://a.example/fhir/" [role_1; role_2] start
              (returned empty_tables collect_a) (snd collect_a))
    as (_ & _ & Hrows & Hsub).
  - apply done_returned. vm_compute. reflexivity.
  - split; [exact Hrows | exact Hsub].
Defined.

Lemma contact_rows_follow_records_witness :
  tele_to_pr_rows (returned empty_tables collect_a)
  = flat_map (telecom_rows_of join repr "http://a.example/fhir/") [role_1; role_2].
Proof.
  apply (contact_rows_follow_records (serve site_a) join repr
           "http://a.example/fhir/" [role_1; role_2] start
           (returned empty_tables collect_a) (snd collect_a)).
  apply done_returned. vm_compute. reflexivity.
Defined.


Lemma missing_column_is_key_error_witness :
  process_payer down join repr 5 payer_no_stub false 100 start = (Raise KeyError, start).
Proof.
  apply (missing_column_is_key_error down join repr 5 payer_no_stub false 100 start).
  right. left. reflexivity.
Defined.


Lemma rerun_reproduces_output_witness :
  files (snd (main_loop (serve site_a) join repr 5 [payer_a] false 100
                (snd (main_loop (serve site_a) join repr 5 [payer_a] false 100 start))))
  = files (snd (main_loop (serve site_a) join repr 5 [payer_a] false 100 start)).
Proof.
  assert (Hstatic : static (serve site_a)) by (intros k k' url; reflexivity).
  destruct (rerun_reproduces_output (serve site_a) join repr Hstatic 5 [payer_a]
              false 100 start) as (_ & Hfiles & _).
  exact Hfiles.
Defined.

Lemma practitioner_rows_carry_cached_data_witness :
  Forall (practitioner_row_sound (practitioners (returned empty_tables collect_a)))
    (p_to_pr_rows (returned empty_tables collect_a)).
Proof.
  apply (practitioner_rows_carry_cached_data (serve site_a) join repr
           "http://a.example/fhir/" [role_1; role_2] start
           (returned empty_tables collect_a) (snd collect_a)).
  apply done_returned. vm_compute. reflexivity.
Defined.

Lemma self_link_never_ends_witness :
  exists w',
    page_loop (serve site_loop) repr 7 false 100 (JStr page_loop_url) [] start
    = (OutOfFuel, w') /\
    requests w' = (requests start + 7)%nat.
Proof.
  apply (self_link_never_ends (serve site_loop) repr page_loop_url bundle_loop 100).
  - discriminate.
  - intros k. reflexivity.
  - reflexivity.
  - intros all_entries. do 3 eexists.
    split; [reflexivity |]. split; reflexivity.
  - reflexivity.
Defined.

Lemma broken_record_discards_payer_witness :
  run_a_mixed = (Raise TypeError, snd step_a_mixed_bad) /\
  files (snd step_a_mixed_bad) = files start /\
  opened (trace (snd step_a_mixed_bad)) = opened (trace start).
Proof.
  apply (broken_record_discards_payer (serve site_a_mixed) join repr 5 payer_a
           false 100 start "Payer A" "a" "http://a.example/fhir"
           [role_2] role_broken [role_1]
           (snd crawl_a_mixed)
           (returned empty_tables collect_a_mixed_before)
           (snd collect_a_mixed_before) TypeError (snd step_a_mixed_bad)
           eq_refl eq_refl eq_refl).
  - apply done_eta. vm_compute. reflexivity.
  - apply done_returned. vm_compute. reflexivity.
  - apply raise_eta. vm_compute. reflexivity.
Defined.
